(** * mprofile: the snapshot statistics engine

    A shallow embedding of [mprofile/__init__.py]: frames, tracebacks, traces,
    filters, the grouping of a snapshot into statistics, the sampling
    correction and the comparison of two snapshots.

    Python values are modelled as follows.
    - [int] is [Z]; [str] is [string]; a tuple or list is a [list].
    - A raised exception is the [Err] case of [result]; the exception class
      is an [exn].
    - A [dict] is an association list in insertion order (Python 3.7 and
      later iterate a dict in that order).
    - [float] arithmetic and [math.exp] belong to the interpreter and to libm,
      not to this module: they are the interface [FloatOps].  Likewise
      [os.path.normcase] and [fnmatch.fnmatch] are the interface [PathOps],
      and [linecache.getline], which [Traceback.format] reads source lines
      with, is the interface [Linecache]. *)

From Stdlib Require Import ZArith List String Ascii Bool Lia Permutation Sorted.
From Stdlib Require Import DecimalString.
From Stdlib Require Import Reals Lra.
Import ListNotations.

Local Open Scope string_scope.
Local Open Scope list_scope.
Local Open Scope Z_scope.

(** ** Exceptions and results *)

Inductive exn : Type :=
| ValueError
| TypeError
| IndexError
| ZeroDivisionError
| OverflowError.

Inductive result (A : Type) : Type :=
| Ok (a : A)
| Err (e : exn).

Arguments Ok {A} a.
Arguments Err {A} e.

Definition bind {A B : Type} (c : result A) (k : A -> result B) : result B :=
  match c with
  | Ok a => k a
  | Err e => Err e
  end.

Notation "x <- c ;; k" := (bind c (fun x => k))
  (at level 61, c at next level, right associativity).

(** [raise_if_none e o]: an operation of the runtime that either yields a
    value or raises [e]. *)
Definition raise_if_none {A : Type} (e : exn) (o : option A) : result A :=
  match o with
  | Some a => Ok a
  | None => Err e
  end.

(** ** Runtime interfaces *)

(** Floating point as [_scale_heap_sample] uses it.  [float_of_int] is
    [float(n)] (and the implicit conversion of an [int] operand), which raises
    [OverflowError] for an integer too large; [fdiv] raises
    [ZeroDivisionError]; [math_exp] raises [OverflowError] out of range;
    [int_of_float] is [int(x)], truncation towards zero, which raises
    [OverflowError] on an infinity. *)
Class FloatOps (F : Type) : Type := {
  f_one : F;
  float_of_int : Z -> option F;
  fneg : F -> F;
  fsub : F -> F -> F;
  fmul : F -> F -> F;
  fdiv : F -> F -> option F;
  math_exp : F -> option F;
  int_of_float : F -> option Z
}.

(** [os.path.normcase] and [fnmatch.fnmatch name pattern]. *)
Class PathOps : Type := {
  normcase : string -> string;
  fnmatch : string -> string -> bool
}.

(** ** Tuples and sequences *)

(** A frame tuple: [(name, filename, firstlineno, lineno)]. *)
Definition frame_tuple : Type := string * string * Z * Z.

(** A trace tuple: [(size, traceback)], the traceback a tuple of frame
    tuples in capture order. *)
Definition trace_tuple : Type := Z * list frame_tuple.

Definition frame_tuple_eq_dec (a b : frame_tuple) : {a = b} + {a <> b}.
Proof.
  repeat decide equality; try apply Z.eq_dec; apply string_dec.
Defined.

Definition frames_eq_dec : forall a b : list frame_tuple, {a = b} + {a <> b} :=
  list_eq_dec frame_tuple_eq_dec.

(** [seq[i]] on a tuple: a negative index counts from the end, an index out
    of range raises [IndexError]. *)
Definition py_index {A : Type} (l : list A) (i : Z) : result A :=
  let n := Z.of_nat (List.length l) in
  let j := if i <? 0 then i + n else i in
  if (0 <=? j) && (j <? n)
  then raise_if_none IndexError (nth_error l (Z.to_nat j))
  else Err IndexError.

(** Lexicographic comparison of tuples, as [<] and [==] on tuples do. *)
Definition lex (c1 c2 : comparison) : comparison :=
  match c1 with
  | Eq => c2
  | _ => c1
  end.

Definition frame_tuple_compare (a b : frame_tuple) : comparison :=
  let '(n1, f1, fl1, l1) := a in
  let '(n2, f2, fl2, l2) := b in
  lex (String.compare n1 n2)
      (lex (String.compare f1 f2) (lex (Z.compare fl1 fl2) (Z.compare l1 l2))).

Fixpoint frames_compare (a b : list frame_tuple) : comparison :=
  match a, b with
  | [], [] => Eq
  | [], _ :: _ => Lt
  | _ :: _, [] => Gt
  | x :: a', y :: b' => lex (frame_tuple_compare x y) (frames_compare a' b')
  end.

(** ** Frame *)

Module Frame.

Record t : Type := __init__ { _frame : frame_tuple }.

Definition name (self : t) : string := let '(n, _, _, _) := _frame self in n.
Definition filename (self : t) : string := let '(_, f, _, _) := _frame self in f.
Definition firstlineno (self : t) : Z := let '(_, _, fl, _) := _frame self in fl.
Definition lineno (self : t) : Z := let '(_, _, _, l) := _frame self in l.

End Frame.

(** ** Traceback *)

Module Traceback.

Record t : Type := mk { _frames : list frame_tuple }.

(** [self._frames = tuple(reversed(frames))] *)
Definition __init__ (frames : list frame_tuple) : t :=
  {| _frames := rev frames |}.

Definition __len__ (self : t) : Z := Z.of_nat (List.length (_frames self)).

(** [__getitem__] at an integer index. *)
Definition __getitem__ (self : t) (index : Z) : result Frame.t :=
    f <- py_index (_frames self) index ;;
    Ok (Frame.__init__ f).

Definition eq_dec (a b : t) : {a = b} + {a <> b}.
Proof.
    decide equality; apply frames_eq_dec.
Defined.

(** [__lt__] and [__eq__] compare [_frames]. *)
Definition compare (a b : t) : comparison :=
    frames_compare (_frames a) (_frames b).

End Traceback.

(** ** Trace *)

Module Trace.

Record t : Type := __init__ { _trace : trace_tuple }.

Definition traceback (self : t) : Traceback.t :=
    Traceback.__init__ (snd (_trace self)).

Definition size (self : t) : Z := fst (_trace self).

End Trace.

(** ** Dictionaries

    A [dict] in insertion order.  [dict_set] is [d[k] = v]: an existing key
    keeps its position, a new key is appended.  [dict_pop] is
    [d.pop(k, None)]. *)

Section Dict.

Context {K V : Type} (K_eq_dec : forall a b : K, {a = b} + {a <> b}).

Definition dict : Type := list (K * V).

Fixpoint dict_get (d : dict) (k : K) : option V :=
    match d with
    | [] => None
    | (k', v) :: d' => if K_eq_dec k k' then Some v else dict_get d' k
    end.

Fixpoint dict_set (d : dict) (k : K) (v : V) : dict :=
    match d with
    | [] => [(k, v)]
    | (k', v') :: d' =>
        if K_eq_dec k k' then (k', v) :: d' else (k', v') :: dict_set d' k v
    end.

Fixpoint dict_pop (d : dict) (k : K) : option V * dict :=
    match d with
    | [] => (None, [])
    | (k', v) :: d' =>
        if K_eq_dec k k' then (Some v, d')
        else let '(r, d'') := dict_pop d' k in (r, (k', v) :: d'')
    end.

Definition dict_keys (d : dict) : list K := map fst d.
Definition dict_values (d : dict) : list V := map snd d.

End Dict.

(** ** Sorting

    [list.sort(reverse=True, key=...)]: descending by key and stable, elements
    with equal keys keep their order.  [key_lt x y] is [key(x) < key(y)]. *)

Section Sort.

Context {A : Type} (key_lt : A -> A -> bool).

Fixpoint insert_desc (x : A) (l : list A) : list A :=
    match l with
    | [] => [x]
    | y :: l' => if key_lt x y then y :: insert_desc x l' else x :: l
    end.

Definition sort_reverse (l : list A) : list A :=
    fold_right insert_desc [] l.

End Sort.

Definition is_lt (c : comparison) : bool :=
  match c with
  | Lt => true
  | _ => false
  end.

(** ** Statistic and StatisticDiff *)

Module Statistic.

Record t : Type := __init__ { traceback : Traceback.t; size : Z; count : Z }.

  (** [_sort_key] is [(size, count, traceback)]; this is the comparison of
      two such keys. *)
Definition _sort_key_compare (a b : t) : comparison :=
    lex (Z.compare (size a) (size b))
        (lex (Z.compare (count a) (count b))
             (Traceback.compare (traceback a) (traceback b))).

End Statistic.

Module StatisticDiff.

Record t : Type := __init__ {
    traceback : Traceback.t;
    size : Z;
    size_diff : Z;
    count : Z;
    count_diff : Z
  }.

  (** [_sort_key] is
      [(abs(size_diff), size, abs(count_diff), count, traceback)]. *)
Definition _sort_key_compare (a b : t) : comparison :=
    lex (Z.compare (Z.abs (size_diff a)) (Z.abs (size_diff b)))
        (lex (Z.compare (size a) (size b))
             (lex (Z.compare (Z.abs (count_diff a)) (Z.abs (count_diff b)))
                  (lex (Z.compare (count a) (count b))
                       (Traceback.compare (traceback a) (traceback b))))).

End StatisticDiff.

(** A grouping: the dict from the derived traceback to its statistic. *)
Definition group : Type := @dict Traceback.t Statistic.t.

Definition stats_get : group -> Traceback.t -> option Statistic.t :=
  dict_get Traceback.eq_dec.
Definition stats_set : group -> Traceback.t -> Statistic.t -> group :=
  dict_set Traceback.eq_dec.
Definition stats_pop : group -> Traceback.t -> option Statistic.t * group :=
  dict_pop Traceback.eq_dec.

(** The first loop of [_compare_grouped_stats]: over [new_group.items()],
    popping the matched keys from [old_group]. *)
Fixpoint _compare_new_items (old_group : group)
    (new_items : list (Traceback.t * Statistic.t))
    : list StatisticDiff.t * group :=
  match new_items with
  | [] => ([], old_group)
  | (traceback, stat) :: rest =>
      let '(previous, old_group') := stats_pop old_group traceback in
      let diff :=
        match previous with
        | Some previous =>
            StatisticDiff.__init__ traceback
              (Statistic.size stat)
              (Statistic.size stat - Statistic.size previous)
              (Statistic.count stat)
              (Statistic.count stat - Statistic.count previous)
        | None =>
            StatisticDiff.__init__ traceback
              (Statistic.size stat) (Statistic.size stat)
              (Statistic.count stat) (Statistic.count stat)
        end in
      let '(statistics, old_group'') := _compare_new_items old_group' rest in
      (diff :: statistics, old_group'')
  end.

(** The second loop: what is left of [old_group]. *)
Definition _compare_old_items (old_items : list (Traceback.t * Statistic.t))
    : list StatisticDiff.t :=
  map (fun '(traceback, stat) =>
         StatisticDiff.__init__ traceback
           0 (- Statistic.size stat) 0 (- Statistic.count stat))
      old_items.

Definition _compare_grouped_stats (old_group new_group : group)
    : list StatisticDiff.t :=
  let '(statistics, old_group') := _compare_new_items old_group new_group in
  statistics ++ _compare_old_items old_group'.

(** ** Filter *)

Definition endswith (s suffix : string) : bool :=
  let n := String.length s in
  let m := String.length suffix in
  (m <=? n)%nat && String.eqb (substring (n - m) m s) suffix.

(** [filename[:-1]] *)
Definition drop_last_char (s : string) : string :=
  substring 0 (String.length s - 1) s.

Section Normalize.

Context {P : PathOps}.

Definition _normalize_filename (filename : string) : string :=
    let filename := normcase filename in
    if endswith filename ".pyc" || endswith filename ".pyo"
    then drop_last_char filename
    else filename.

End Normalize.

Module Filter.

Record t : Type := mk {
    inclusive : bool;
    _filename_pattern : string;
    lineno : option Z;
    all_frames : bool
  }.

Section Methods.

Context {P : PathOps}.

Definition __init__ (inclusive : bool) (filename_pattern : string)
        (lineno : option Z) (all_frames : bool) : t :=
      {| inclusive := inclusive;
         _filename_pattern := _normalize_filename filename_pattern;
         lineno := lineno;
         all_frames := all_frames |}.

Definition filename_pattern (self : t) : string := _filename_pattern self.

Definition __match_frame (self : t) (filename : string) (lineno' : Z)
        : bool :=
      let filename := _normalize_filename filename in
      if negb (fnmatch filename (_filename_pattern self)) then false
      else match lineno self with
           | None => true
           | Some l => lineno' =? l
           end.

Definition _match_frame (self : t) (filename : string) (lineno' : Z)
        : bool :=
      xorb (__match_frame self filename lineno') (negb (inclusive self)).

    (** [traceback] is what the caller passes: [Snapshot._filter_trace]
        passes the raw tuple [trace[1]]. *)
Definition _match_traceback (self : t) (traceback : list frame_tuple)
        : result bool :=
      if all_frames self then
        if existsb (fun '(_, filename, _, lineno') =>
                      __match_frame self filename lineno') traceback
        then Ok (inclusive self)
        else Ok (negb (inclusive self))
      else
        f <- py_index traceback 0 ;;
        let '(_, filename, _, lineno') := f in
        Ok (_match_frame self filename lineno').

End Methods.

End Filter.

(** ** Snapshot *)

Module _Traces.

Record t : Type := __init__ { _traces : list trace_tuple }.

Definition __len__ (self : t) : Z := Z.of_nat (List.length (_traces self)).

Definition __getitem__ (self : t) (index : Z) : result Trace.t :=
  trace <- py_index (_traces self) index ;;
  Ok (Trace.__init__ trace).

End _Traces.

(** [any(p(x) for x in l)]: stops at the first true, and at the first
    exception. *)
Fixpoint py_any {A : Type} (p : A -> result bool) (l : list A) : result bool :=
  match l with
  | [] => Ok false
  | x :: l' => b <- p x ;; if b then Ok true else py_any p l'
  end.

(** [[x for x in l if p(x)]] *)
Fixpoint py_filter {A : Type} (p : A -> result bool) (l : list A)
    : result (list A) :=
  match l with
  | [] => Ok []
  | x :: l' =>
      b <- p x ;;
      rest <- py_filter p l' ;;
      Ok (if b then x :: rest else rest)
  end.

(** [for x in l: s = f(s, x)], an exception ending the loop. *)
Fixpoint py_for {S A : Type} (f : S -> A -> result S) (l : list A) (s : S)
    : result S :=
  match l with
  | [] => Ok s
  | x :: l' => s' <- f s x ;; py_for f l' s'
  end.

(** The argument of [filter_traces]: an iterable of filters, or an object
    that is not an [Iterable]. *)
Inductive filters_arg : Type :=
| Iterable (filters : list Filter.t)
| NotIterable.

(** [key_type in (...)] *)
Definition str_in (s : string) (l : list string) : bool :=
  existsb (String.eqb s) l.

(** The [try: stat = stats[traceback] ... except KeyError: ...] block of both
    loops of [_group_by]. *)
Definition _add_to_stats (stats : group) (traceback : Traceback.t) (size : Z)
    : group :=
  match stats_get stats traceback with
  | Some stat =>
      stats_set stats traceback
        (Statistic.__init__ (Statistic.traceback stat)
           (Statistic.size stat + size) (Statistic.count stat + 1))
  | None => stats_set stats traceback (Statistic.__init__ traceback size 1)
  end.

Module Snapshot.

Record t : Type := mk {
  traces : _Traces.t;
  traceback_limit : Z;
  sample_rate : Z
}.

Definition __init__ (traces : list trace_tuple) (traceback_limit : Z)
    (sample_rate : Z) : t :=
  {| traces := _Traces.__init__ traces;
     traceback_limit := traceback_limit;
     sample_rate := sample_rate |}.

Section Filtering.

Context {P : PathOps}.

Definition _filter_trace (include_filters exclude_filters : list Filter.t)
    (trace : trace_tuple) : result bool :=
  let traceback := snd trace in
  rejected <-
    match include_filters with
    | [] => Ok false
    | _ :: _ =>
        b <- py_any (fun trace_filter =>
                       Filter._match_traceback trace_filter traceback)
                    include_filters ;;
        Ok (negb b)
    end ;;
  if rejected : bool then Ok false
  else
    rejected <-
      match exclude_filters with
      | [] => Ok false
      | _ :: _ =>
          py_any (fun trace_filter =>
                    b <- Filter._match_traceback trace_filter traceback ;;
                    Ok (negb b))
                 exclude_filters
      end ;;
    if rejected : bool then Ok false else Ok true.

(** The loop that sorts the filters into [include_filters] and
    [exclude_filters]. *)
Fixpoint _split_filters (filters include_filters exclude_filters : list Filter.t)
    : list Filter.t * list Filter.t :=
  match filters with
  | [] => (include_filters, exclude_filters)
  | trace_filter :: rest =>
      if Filter.inclusive trace_filter
      then _split_filters rest (include_filters ++ [trace_filter]) exclude_filters
      else _split_filters rest include_filters (exclude_filters ++ [trace_filter])
  end.

Definition filter_traces (self : t) (filters : filters_arg) : result t :=
  match filters with
  | NotIterable => Err TypeError
  | Iterable filters =>
      new_traces <-
        match filters with
        | _ :: _ =>
            let '(include_filters, exclude_filters) :=
              _split_filters filters [] [] in
            py_filter (_filter_trace include_filters exclude_filters)
                      (_Traces._traces (traces self))
        | [] => Ok (_Traces._traces (traces self))
        end ;;
      Ok (__init__ new_traces (traceback_limit self) (sample_rate self))
  end.

End Filtering.

Section Grouping.

Context {F : Type} {FO : FloatOps F}.

Definition _scale_heap_sample (self : t) (stat : Statistic.t)
    : result Statistic.t :=
  if (Statistic.count stat =? 0) || (Statistic.size stat =? 0) then Ok stat
  else if sample_rate self <=? 1 then Ok stat
  else
    fsize <- raise_if_none OverflowError (float_of_int (Statistic.size stat)) ;;
    fcount <- raise_if_none OverflowError (float_of_int (Statistic.count stat)) ;;
    avg_size <- raise_if_none ZeroDivisionError (fdiv fsize fcount) ;;
    frate <- raise_if_none OverflowError (float_of_int (sample_rate self)) ;;
    x <- raise_if_none ZeroDivisionError (fdiv (fneg avg_size) frate) ;;
    e <- raise_if_none OverflowError (math_exp x) ;;
    scale <- raise_if_none ZeroDivisionError (fdiv f_one (fsub f_one e)) ;;
    fsize <- raise_if_none OverflowError (float_of_int (Statistic.size stat)) ;;
    size <- raise_if_none OverflowError (int_of_float (fmul scale fsize)) ;;
    fcount <- raise_if_none OverflowError (float_of_int (Statistic.count stat)) ;;
    count <- raise_if_none OverflowError (int_of_float (fmul scale fcount)) ;;
    Ok (Statistic.__init__ (Statistic.traceback stat) size count).

(** [for tb, stat in stats.items(): stats[tb] = self._scale_heap_sample(stat)]:
    every value is replaced at its own key, in order. *)
Fixpoint _scale_heap_samples (self : t) (stats : group) : result group :=
  match stats with
  | [] => Ok []
  | (tb, stat) :: rest =>
      stat' <- _scale_heap_sample self stat ;;
      rest' <- _scale_heap_samples self rest ;;
      Ok ((tb, stat') :: rest')
  end.

(** The body of the loop over the traces, not cumulative.  [tracebacks]
    memoizes the derived traceback of a raw traceback. *)
Definition _group_trace (key_type : string)
    (state : group * @dict (list frame_tuple) Traceback.t)
    (trace : trace_tuple)
    : result (group * @dict (list frame_tuple) Traceback.t) :=
  let '(stats, tracebacks) := state in
  let '(size, trace_traceback) := trace in
  r <-
    match dict_get frames_eq_dec tracebacks trace_traceback with
    | Some traceback => Ok (traceback, tracebacks)
    | None =>
        frames <-
          (if key_type =? "traceback" then Ok trace_traceback
           else if key_type =? "lineno" then Ok (firstn 1 trace_traceback)
           else
             f <- py_index trace_traceback 0 ;;
             let '(_, filename, _, _) := f in
             Ok [("", filename, 0, 0)])%string ;;
        let traceback := Traceback.__init__ frames in
        Ok (traceback,
            dict_set frames_eq_dec tracebacks trace_traceback traceback)
    end ;;
  let '(traceback, tracebacks) := r in
  Ok (_add_to_stats stats traceback size, tracebacks).

(** The body of the inner loop over the frames of one trace, cumulative. *)
Definition _group_frame (key_type : string) (size : Z)
    (state : group * @dict frame_tuple Traceback.t)
    (frame : frame_tuple)
    : group * @dict frame_tuple Traceback.t :=
  let '(stats, tracebacks) := state in
  let '(traceback, tracebacks) :=
    match dict_get frame_tuple_eq_dec tracebacks frame with
    | Some traceback => (traceback, tracebacks)
    | None =>
        let frames :=
          (if key_type =? "lineno" then [frame]
           else let '(_, filename, _, _) := frame in [("", filename, 0, 0)])%string in
        let traceback := Traceback.__init__ frames in
        (traceback, dict_set frame_tuple_eq_dec tracebacks frame traceback)
    end in
  (_add_to_stats stats traceback size, tracebacks).

Definition _group_trace_cumulative (key_type : string)
    (state : group * @dict frame_tuple Traceback.t)
    (trace : trace_tuple)
    : group * @dict frame_tuple Traceback.t :=
  let '(size, trace_traceback) := trace in
  fold_left (_group_frame key_type size) trace_traceback state.

Definition _group_by (self : t) (key_type : string) (cumulative : bool)
    : result group :=
  if negb (str_in key_type ["traceback"; "filename"; "lineno"])
  then Err ValueError
  else if cumulative && negb (str_in key_type ["lineno"; "filename"])
  then Err ValueError
  else
    stats <-
      (if negb cumulative then
         state <- py_for (_group_trace key_type)
                         (_Traces._traces (traces self)) ([], []) ;;
         Ok (fst state)
       else
         Ok (fst (fold_left (_group_trace_cumulative key_type)
                            (_Traces._traces (traces self)) ([], [])))) ;;
    _scale_heap_samples self stats.

Definition statistics (self : t) (key_type : string) (cumulative : bool)
    : result (list Statistic.t) :=
  grouped <- _group_by self key_type cumulative ;;
  let statistics := dict_values grouped in
  Ok (sort_reverse (fun a b => is_lt (Statistic._sort_key_compare a b))
                   statistics).

Definition compare_to (self old_snapshot : t) (key_type : string)
    (cumulative : bool) : result (list StatisticDiff.t) :=
  new_group <- _group_by self key_type cumulative ;;
  old_group <- _group_by old_snapshot key_type cumulative ;;
  let statistics := _compare_grouped_stats old_group new_group in
  Ok (sort_reverse (fun a b => is_lt (StatisticDiff._sort_key_compare a b))
                   statistics).

End Grouping.

End Snapshot.

(** ** Instances of the runtime interfaces *)

(** *** POSIX paths

    On POSIX [os.path.normcase] returns its argument, and [fnmatch.fnmatch]
    is [fnmatch.fnmatchcase]: [*] matches any run of characters, [?] one
    character, [[seq]] one character of [seq] (with ranges [a-z]) and [[!seq]]
    one character not in it; a [[] that is never closed stands for
    itself. *)

Inductive glob_token : Type :=
| GStar
| GAny
| GClass (negated : bool) (ranges : list (ascii * ascii))
| GChar (c : ascii).

Fixpoint class_ranges (cs : list ascii) : list (ascii * ascii) :=
  match cs with
  | [] => []
  | lo :: "-"%char :: hi :: rest => (lo, hi) :: class_ranges rest
  | c :: rest => (c, c) :: class_ranges rest
  end.

Fixpoint until_rbracket (cs : list ascii) : option (list ascii * list ascii) :=
  match cs with
  | [] => None
  | c :: rest =>
      if Ascii.eqb c "]" then Some ([], rest)
      else match until_rbracket rest with
           | Some (stuff, rest') => Some (c :: stuff, rest')
           | None => None
           end
  end.

(** The text after a [[]: the negation mark, the class and what follows its
    closing bracket; a []] right after the opening (or the [!]) belongs to
    the class. *)
Definition split_class (cs : list ascii)
    : option (bool * list ascii * list ascii) :=
  let '(negated, cs1) :=
    match cs with
    | "!"%char :: r => (true, r)
    | _ => (false, cs)
    end in
  let '(lead, cs2) :=
    match cs1 with
    | "]"%char :: r => (["]"%char], r)
    | _ => ([], cs1)
    end in
  match until_rbracket cs2 with
  | Some (stuff, rest) => Some (negated, lead ++ stuff, rest)
  | None => None
  end.

Fixpoint glob_tokens (fuel : nat) (pat : list ascii) : list glob_token :=
  match fuel, pat with
  | O, _ => []
  | _, [] => []
  | S fuel', c :: rest =>
      if Ascii.eqb c "*" then GStar :: glob_tokens fuel' rest
      else if Ascii.eqb c "?" then GAny :: glob_tokens fuel' rest
      else if Ascii.eqb c "[" then
        match split_class rest with
        | Some (negated, stuff, rest') =>
            GClass negated (class_ranges stuff) :: glob_tokens fuel' rest'
        | None => GChar c :: glob_tokens fuel' rest
        end
      else GChar c :: glob_tokens fuel' rest
  end.

Definition in_range (c : ascii) (r : ascii * ascii) : bool :=
  (N.leb (N_of_ascii (fst r)) (N_of_ascii c)
   && N.leb (N_of_ascii c) (N_of_ascii (snd r)))%bool.

Definition token_matches (t : glob_token) (c : ascii) : bool :=
  match t with
  | GStar => true
  | GAny => true
  | GClass negated ranges => xorb negated (existsb (in_range c) ranges)
  | GChar c' => Ascii.eqb c c'
  end.

Fixpoint glob_match (ts : list glob_token) (s : list ascii) : bool :=
  match ts with
  | [] => match s with [] => true | _ :: _ => false end
  | GStar :: ts' =>
      (fix star (s : list ascii) : bool :=
         glob_match ts' s
         || match s with
            | [] => false
            | _ :: s' => star s'
            end) s
  | t :: ts' =>
      match s with
      | [] => false
      | c :: s' => token_matches t c && glob_match ts' s'
      end
  end.

Definition fnmatchcase (name pat : string) : bool :=
  let p := list_ascii_of_string pat in
  glob_match (glob_tokens (List.length p) p) (list_ascii_of_string name).

#[export] Instance posix : PathOps := {
  normcase := fun s => s;
  fnmatch := fnmatchcase
}.

(** *** Exact arithmetic

    [FloatOps] over the real numbers: no rounding, no overflow, and
    [math.exp] the exponential function.  Division by zero still raises. *)

Definition Rtrunc (x : R) : Z :=
  if Rle_dec 0 x then Int_part x else (- Int_part (- x))%Z.

#[export] Instance exact_arithmetic : FloatOps R := {
  f_one := 1%R;
  float_of_int := fun n => Some (IZR n);
  fneg := Ropp;
  fsub := Rminus;
  fmul := Rmult;
  fdiv := fun x y => if Req_dec_T y 0 then None else Some (x / y)%R;
  math_exp := fun x => Some (exp x);
  int_of_float := fun x => Some (Rtrunc x)
}.

(** * Vocabulary of the properties *)

Definition sum_Z {A : Type} (f : A -> Z) (l : list A) : Z :=
  fold_right (fun x acc => f x + acc) 0 l.

(** What a grouping loop does to [stats]: a sequence of additions, each of
    one size at one derived traceback. *)
Definition apply_adds (stats : group) (adds : list (Traceback.t * Z)) : group :=
  fold_left (fun st p => _add_to_stats st (fst p) (snd p)) adds stats.

Definition total_size (l : list Statistic.t) : Z := sum_Z Statistic.size l.
Definition total_count (l : list Statistic.t) : Z := sum_Z Statistic.count l.

(** The key of a raw traceback when the traces are not cumulated: what the
    [except KeyError] branch of the first loop builds, [None] where it
    raises [IndexError]. *)
Definition group_key (key_type : string) (raw : list frame_tuple)
    : option Traceback.t :=
  (if key_type =? "traceback" then Some (Traceback.__init__ raw)
   else if key_type =? "lineno" then Some (Traceback.__init__ (firstn 1 raw))
   else match raw with
        | [] => None
        | (_, filename, _, _) :: _ =>
            Some (Traceback.__init__ [("", filename, 0, 0)])
        end)%string.

(** The key of one frame when they are cumulated. *)
Definition frame_key (key_type : string) (frame : frame_tuple) : Traceback.t :=
  Traceback.__init__
    (if key_type =? "lineno" then [frame]
     else let '(_, filename, _, _) := frame in [("", filename, 0, 0)])%string.

(** The additions of the first loop, [None] if a key raises. *)
Fixpoint group_adds (key_type : string) (traces : list trace_tuple)
    : option (list (Traceback.t * Z)) :=
  match traces with
  | [] => Some []
  | (size, raw) :: rest =>
      match group_key key_type raw with
      | None => None
      | Some key =>
          match group_adds key_type rest with
          | None => None
          | Some adds => Some ((key, size) :: adds)
          end
      end
  end.

(** The additions of the cumulative loop. *)
Definition cumulative_adds (key_type : string) (traces : list trace_tuple)
    : list (Traceback.t * Z) :=
  flat_map (fun trace : trace_tuple =>
              map (fun frame => (frame_key key_type frame, fst trace))
                  (snd trace))
           traces.

Definition memo_ok {A : Type} (A_eq_dec : forall a b : A, {a = b} + {a <> b})
    (key : A -> option Traceback.t) (memo : @dict A Traceback.t) : Prop :=
  forall a tb, dict_get A_eq_dec memo a = Some tb -> key a = Some tb.

Definition valid_grouping (key_type : string) (cumulative : bool) : bool :=
  str_in key_type ["traceback"; "filename"; "lineno"]
  && negb (cumulative && negb (str_in key_type ["lineno"; "filename"])).

Definition trace_sizes (self : Snapshot.t) : Z :=
  sum_Z fst (_Traces._traces (Snapshot.traces self)).

Definition trace_count (self : Snapshot.t) : Z :=
  Z.of_nat (List.length (_Traces._traces (Snapshot.traces self))).

Definition frame_count (self : Snapshot.t) : Z :=
  sum_Z (fun t : trace_tuple => Z.of_nat (List.length (snd t)))
        (_Traces._traces (Snapshot.traces self)).

(** ** Snapshots for the examples

    Raw tracebacks are in capture order, the most recent frame last:
    [alloc_frame] is the frame that allocates, called from [main_frame]. *)

Definition main_frame : frame_tuple := ("main", "app.py", 1, 3).
Definition alloc_frame : frame_tuple := ("alloc", "lib.py", 10, 12).

Definition nested_snapshot : Snapshot.t :=
  Snapshot.__init__ [(10, [main_frame; alloc_frame])] 10 0.

Definition scenario_snapshot : Snapshot.t :=
  Snapshot.__init__
    [(100, [("f", "a.py", 1, 10); ("g", "a.py", 5, 20)]);
     (50, [("f", "a.py", 1, 10); ("g", "a.py", 5, 20)]);
     (30, [("h", "b.py", 1, 1)])]
    10 0.

Definition depth0_snapshot : Snapshot.t := Snapshot.__init__ [(1, [])] 0 0.

Definition mixed_depth_snapshot : Snapshot.t :=
  Snapshot.__init__ [(1, []); (1, [main_frame; alloc_frame])] 2 0.

Definition empty_snapshot : Snapshot.t := Snapshot.__init__ [] 10 0.

Definition sampled_snapshot : Snapshot.t :=
  Snapshot.__init__ [(10, [main_frame])] 10 128.

(** The invalid-argument condition of the specification: [ValueError] and
    [TypeError]. *)
Definition is_invalid_argument (e : exn) : bool :=
  match e with
  | ValueError | TypeError => true
  | _ => false
  end.

Section FilterVocabulary.

Context {P : PathOps}.

(** What a filter tests on a raw traceback, before its sense (inclusive or
    exclusive) is applied. *)
Definition raw_match (f : Filter.t) (raw : list frame_tuple) : bool :=
  if Filter.all_frames f
  then existsb (fun '(_, filename, _, lineno') =>
                  Filter.__match_frame f filename lineno') raw
  else match raw with
       | [] => false
       | (_, filename, _, lineno') :: _ => Filter.__match_frame f filename lineno'
       end.

End FilterVocabulary.

(** [1 / (1 - e^(-(size/count)/sample_rate))] *)
Definition scale_factor (size count sample_rate : Z) : R :=
  (1 / (1 - exp (- (IZR size / IZR count) / IZR sample_rate)))%R.

Definition fails_invalid_argument {A : Type} (r : result A) : Prop :=
  exists e, r = Err e /\ is_invalid_argument e = true.

(** The request that [_group_by] refuses. *)
Definition invalid_grouping_request (key_type : string) (cumulative : bool)
    : Prop :=
  ~ In key_type ["traceback"; "filename"; "lineno"]
  \/ (cumulative = true /\ key_type = "traceback").

Definition has_traceback (tb : Traceback.t) (d : StatisticDiff.t) : bool :=
  if Traceback.eq_dec tb (StatisticDiff.traceback d) then true else false.

(** * Further vocabulary: orders *)

(** A comparison function that is a total preorder: the converse pair is
    opposite, [Lt] is transitive, and two elements that compare [Eq] compare
    alike with any third. *)
Record weak_order {A : Type} (cmp : A -> A -> comparison) : Prop := {
  wo_antisym : forall x y, cmp y x = CompOpp (cmp x y);
  wo_lt_trans : forall x y z, cmp x y = Lt -> cmp y z = Lt -> cmp x z = Lt;
  wo_eq_compat : forall x y z, cmp x y = Eq -> cmp x z = cmp y z
}.

(** Comparison of tuples of keys, component after component. *)
Definition lex_cmp {A : Type} (c1 c2 : A -> A -> comparison) (x y : A)
    : comparison :=
  lex (c1 x y) (c2 x y).

Definition cmp_on {A B : Type} (f : A -> B) (cmp : B -> B -> comparison)
    (x y : A) : comparison :=
  cmp (f x) (f y).

(** [a] is not before [b] in the order of the keys: [not (key(a) < key(b))]. *)
Definition Statistic_ge (a b : Statistic.t) : Prop :=
  Statistic._sort_key_compare a b <> Lt.

Definition StatisticDiff_ge (a b : StatisticDiff.t) : Prop :=
  StatisticDiff._sort_key_compare a b <> Lt.

(** * Further vocabulary: grouping *)

Definition same_key (k : Traceback.t) (k' : Traceback.t) : bool :=
  if Traceback.eq_dec k k' then true else false.

(** The sizes that a sequence of additions adds at the key [k]. *)
Definition adds_at (k : Traceback.t) (adds : list (Traceback.t * Z)) : list Z :=
  map snd (filter (fun p => same_key k (fst p)) adds).

(** The sizes of the traces whose key is [k], when the traces are not
    cumulated. *)
Definition sizes_at_key (key_type : string) (k : Traceback.t)
    (traces : list trace_tuple) : list Z :=
  map fst
    (filter (fun t : trace_tuple =>
               match group_key key_type (snd t) with
               | Some k' => same_key k k'
               | None => false
               end)
            traces).

(** The sizes of the traces, once for every frame whose key is [k], when
    the traces are cumulated. *)
Definition sizes_at_frame_key (key_type : string) (k : Traceback.t)
    (traces : list trace_tuple) : list Z :=
  flat_map (fun t : trace_tuple =>
              map (fun _ => fst t)
                  (filter (fun f => same_key k (frame_key key_type f)) (snd t)))
           traces.

Definition sum_list (l : list Z) : Z := sum_Z (fun z => z) l.

(** Every statistic of a grouping carries its key. *)
Definition keys_carried (stats : group) : Prop :=
  forall k st, In (k, st) stats -> Statistic.traceback st = k.

(** The same snapshot with other traces. *)
Definition with_traces (self : Snapshot.t) (traces : list trace_tuple)
    : Snapshot.t :=
  Snapshot.__init__ traces (Snapshot.traceback_limit self)
                    (Snapshot.sample_rate self).

(** The additions of a valid grouping request, [None] where a key raises. *)
Definition adds_of (key_type : string) (cumulative : bool)
    (traces : list trace_tuple) : option (list (Traceback.t * Z)) :=
  if cumulative then Some (cumulative_adds key_type traces)
  else group_adds key_type traces.

(** The sizes of the traces, each as many times as the trace has frames. *)
Definition cumulated_sizes (self : Snapshot.t) : Z :=
  sum_Z (fun t : trace_tuple => fst t * Z.of_nat (List.length (snd t)))
        (_Traces._traces (Snapshot.traces self)).

(** * Further vocabulary: comparison *)

(** The differences that [compare_to] reports at a traceback, given the
    grouping of the new and of the old snapshot: one difference when either
    grouping has the key, none otherwise. *)
Definition diff_at (new_group old_group : group) (tb : Traceback.t)
    : list StatisticDiff.t :=
  match stats_get new_group tb, stats_get old_group tb with
  | Some stat, Some previous =>
      [StatisticDiff.__init__ tb
         (Statistic.size stat) (Statistic.size stat - Statistic.size previous)
         (Statistic.count stat)
         (Statistic.count stat - Statistic.count previous)]
  | Some stat, None =>
      [StatisticDiff.__init__ tb
         (Statistic.size stat) (Statistic.size stat)
         (Statistic.count stat) (Statistic.count stat)]
  | None, Some previous =>
      [StatisticDiff.__init__ tb
         0 (- Statistic.size previous) 0 (- Statistic.count previous)]
  | None, None => []
  end.

(** * Further vocabulary: filtering *)

Section FilterSurvival.

Context {P : PathOps}.

(** Whether a trace of raw traceback [raw] survives a list of filters: some
    inclusive filter matches it, if there is any inclusive filter, and no
    exclusive filter matches it. *)
Definition survives (filters : list Filter.t) (raw : list frame_tuple) : bool :=
  (negb (existsb Filter.inclusive filters)
   || existsb (fun f => Filter.inclusive f && raw_match f raw) filters)
  && negb (existsb (fun f => negb (Filter.inclusive f) && raw_match f raw)
                   filters).

End FilterSurvival.

(** * The rest of [Traceback]: membership, slices and [format] *)

(** [Traceback.__contains__]: [frame._frame in self._frames]. *)
Definition Traceback_contains (self : Traceback.t) (frame : Frame.t) : bool :=
  if in_dec frame_tuple_eq_dec (Frame._frame frame) (Traceback._frames self)
  then true else false.

(** [seq[start:stop]] on a tuple, a missing bound being [None]: a negative
    bound counts from the end, and a bound out of range is clamped. *)
Definition py_slice {A : Type} (l : list A) (start stop : option Z) : list A :=
  let n := Z.of_nat (List.length l) in
  let clamp := fun i => if i <? 0 then Z.max (i + n) 0 else Z.min i n in
  let lo := match start with None => 0 | Some i => clamp i end in
  let hi := match stop with None => n | Some i => clamp i end in
  firstn (Z.to_nat (hi - lo)) (skipn (Z.to_nat lo) l).

(** [Traceback.__getitem__] at a slice: a tuple of frames. *)
Definition Traceback_getslice (self : Traceback.t) (start stop : option Z)
    : list Frame.t :=
  map Frame.__init__ (py_slice (Traceback._frames self) start stop).

(** Iterating a traceback: its frames, by [__getitem__] at 0, 1, ... *)
Definition Traceback_iter (self : Traceback.t) : list Frame.t :=
  map Frame.__init__ (Traceback._frames self).

(** [linecache.getline(filename, lineno).strip()], the empty string when the
    line cannot be read. *)
Class Linecache : Type := {
  getline_stripped : string -> Z -> string
}.

(** ["%s" % n] for an [int]. *)
Definition str_of_int (n : Z) : string := NilZero.string_of_int (Z.to_int n).

Definition double_quote : string := String "034"%char "".

Section Format.

Context {L : Linecache}.

(** The body of the loop of [format]: the lines of one frame. *)
Definition format_frame (frame : Frame.t) : list string :=
  let header :=
    ("  File " ++ double_quote ++ Frame.filename frame ++ double_quote
     ++ ", line " ++ str_of_int (Frame.lineno frame))%string in
  let line := getline_stripped (Frame.filename frame) (Frame.lineno frame) in
  if String.eqb line "" then [header] else [header; ("    " ++ line)%string].

Definition Traceback_format (self : Traceback.t) (limit : option Z)
    (most_recent_first : bool) : list string :=
  let frame_slice :=
    match limit with
    | Some limit =>
        if 0 <? limit then Traceback_getslice self (Some (- limit)) None
        else Traceback_getslice self None (Some limit)
    | None => Traceback_iter self
    end in
  let frame_slice :=
    if most_recent_first then rev frame_slice else frame_slice in
  flat_map format_frame frame_slice.

End Format.

(** The frames that [format] shows, of the stored frames [frames]. *)
Definition format_selection (frames : list frame_tuple) (limit : option Z)
    (most_recent_first : bool) : list frame_tuple :=
  let n := List.length frames in
  let chosen :=
    match limit with
    | None => frames
    | Some limit =>
        if 0 <? limit then skipn (n - Z.to_nat limit) frames
        else if limit =? 0 then []
        else firstn (n - Z.to_nat (- limit)) frames
    end in
  if most_recent_first then rev chosen else chosen.

(** The last character of a string. *)
Fixpoint last_char (s : string) : option ascii :=
  match s with
  | EmptyString => None
  | String c EmptyString => Some c
  | String _ s' => last_char s'
  end.

Definition has_frames (t : trace_tuple) : bool :=
  match snd t with
  | [] => false
  | _ :: _ => true
  end.

(** A runtime where no source line can be read. *)
#[export] Instance no_source : Linecache := {
  getline_stripped := fun _ _ => ""
}.

Definition swapped_scenario_traces : list trace_tuple :=
  [(50, [("f", "a.py", 1, 10); ("g", "a.py", 5, 20)]);
   (100, [("f", "a.py", 1, 10); ("g", "a.py", 5, 20)]);
   (30, [("h", "b.py", 1, 1)])].

(** * Properties *)

(** ** Sequences *)

Lemma bind_Ok_inv {A B : Type} (c : result A) (k : A -> result B) (b : B) :
  bind c k = Ok b -> exists a, c = Ok a /\ k a = Ok b.
Proof.
  destruct c as [a|e]; simpl; intros H; [eauto | discriminate].
Qed.

Lemma py_index_in_range {A : Type} (l : list A) (i : Z) :
  0 <= i < Z.of_nat (List.length l) ->
  exists x, nth_error l (Z.to_nat i) = Some x /\ py_index l i = Ok x.
Proof.
  intros Hi. unfold py_index.
  destruct (Z.ltb_spec i 0) as [Hneg|_]; [lia|].
  destruct (Z.leb_spec 0 i) as [_|Hneg]; [|lia].
  destruct (Z.ltb_spec i (Z.of_nat (List.length l))) as [_|Hge]; [|lia].
  simpl.
  destruct (nth_error l (Z.to_nat i)) as [x|] eqn:E.
  - exists x. split; reflexivity.
  - apply nth_error_None in E. lia.
Qed.

Lemma py_index_0_cons {A : Type} (x : A) (l : list A) :
  py_index (x :: l) 0 = Ok x.
Proof.
  unfold py_index.
  change (0 <? 0) with false. cbv beta iota zeta.
  change (0 <=? 0) with true.
  destruct (Z.ltb_spec 0 (Z.of_nat (List.length (x :: l)))) as [_|H].
  - reflexivity.
  - simpl List.length in H. lia.
Qed.

Lemma py_index_nil {A : Type} (i : Z) : py_index (@nil A) i = Err IndexError.
Proof.
  unfold py_index. simpl List.length. change (Z.of_nat 0) with 0.
  destruct (i <? 0) eqn:E;
    [apply Z.ltb_lt in E | apply Z.ltb_ge in E];
    match goal with
    | |- (if ?c then _ else _) = _ => destruct c eqn:E2
    end; try reflexivity;
    apply andb_true_iff in E2; destruct E2 as [H1 H2];
    apply Z.leb_le in H1; apply Z.ltb_lt in H2; lia.
Qed.

(** C10.  The constructor of [Traceback] reverses the frames it is given:
    the traceback built from [fs] has the length [n] of [fs], and its item at
    an index [0 <= i < n] is the [Frame] of [fs[n-1-i]]. *)
Theorem Traceback_init_reverses (fs : list frame_tuple) :
  let n := Z.of_nat (List.length fs) in
  Traceback.__len__ (Traceback.__init__ fs) = n /\
  forall i : Z, 0 <= i < n ->
    exists f, py_index fs (n - 1 - i) = Ok f /\
              Traceback.__getitem__ (Traceback.__init__ fs) i
              = Ok (Frame.__init__ f).
Proof.
  intros n. split.
  - unfold Traceback.__len__, Traceback.__init__. simpl.
    now rewrite length_rev.
  - intros i Hi.
    destruct (py_index_in_range fs (n - 1 - i)) as (f & Hn & Hf);
      [subst n; lia|].
    exists f. split; [exact Hf|].
    unfold Traceback.__getitem__, Traceback.__init__. simpl.
    destruct (py_index_in_range (rev fs) i) as (g & Hg & Hpg).
    { rewrite length_rev. exact Hi. }
    rewrite Hpg. simpl.
    rewrite nth_error_rev in Hg.
    destruct (Nat.ltb_spec (Z.to_nat i) (List.length fs)) as [Hlt|Hge];
      [|discriminate].
    replace (List.length fs - S (Z.to_nat i))%nat
      with (Z.to_nat (n - 1 - i)) in Hg by (subst n; lia).
    congruence.
Qed.

Lemma Traceback_init_reverses_witness :
  exists f,
    py_index [("main", "a.py", 1, 1); ("alloc", "b.py", 1, 2)] (2 - 1 - 0) = Ok f /\
    Traceback.__getitem__
      (Traceback.__init__ [("main", "a.py", 1, 1); ("alloc", "b.py", 1, 2)]) 0
    = Ok (Frame.__init__ f).
Proof.
  apply (proj2 (Traceback_init_reverses
                  [("main", "a.py", 1, 1); ("alloc", "b.py", 1, 2)]) 0).
  simpl. lia.
Defined.

(** ** Sums, dictionaries and sorting *)

Lemma sum_Z_app {A : Type} (f : A -> Z) (l1 l2 : list A) :
  sum_Z f (l1 ++ l2) = sum_Z f l1 + sum_Z f l2.
Proof.
  induction l1 as [|x l1 IH]; simpl; [reflexivity | rewrite IH; lia].
Qed.

Lemma sum_Z_perm {A : Type} (f : A -> Z) (l1 l2 : list A) :
  Permutation l1 l2 -> sum_Z f l1 = sum_Z f l2.
Proof.
  induction 1; simpl; lia.
Qed.

Lemma sum_Z_map {A B : Type} (f : B -> Z) (g : A -> B) (l : list A) :
  sum_Z f (map g l) = sum_Z (fun x => f (g x)) l.
Proof.
  induction l as [|x l IH]; simpl; [reflexivity | now rewrite IH].
Qed.

Lemma sum_Z_const_1 {A : Type} (l : list A) :
  sum_Z (fun _ => 1) l = Z.of_nat (List.length l).
Proof.
  induction l as [|x l IH]; [reflexivity|].
  change (sum_Z (fun _ => 1) (x :: l)) with (1 + sum_Z (fun _ : A => 1) l).
  rewrite IH. simpl List.length. lia.
Qed.

Section DictFacts.

Context {K V : Type} (K_eq_dec : forall a b : K, {a = b} + {a <> b}).

Lemma dict_get_None (d : @dict K V) (k : K) :
  dict_get K_eq_dec d k = None <-> ~ In k (dict_keys d).
Proof.
  induction d as [|[k' v] d IH]; simpl.
  - tauto.
  - destruct (K_eq_dec k k') as [->|Hne].
    + split; [discriminate | intros H; exfalso; apply H; now left].
    + rewrite IH. split; intros H; [intros [E|Hin]; [congruence | tauto] | tauto].
Qed.

Lemma dict_get_In (d : @dict K V) (k : K) (v : V) :
  dict_get K_eq_dec d k = Some v -> In (k, v) d.
Proof.
  induction d as [|[k' v'] d IH]; simpl; [discriminate|].
  destruct (K_eq_dec k k') as [->|Hne].
  - intros [= ->]. now left.
  - intros H. right. auto.
Qed.

Lemma dict_keys_set (d : @dict K V) (k : K) (v : V) :
  dict_keys (dict_set K_eq_dec d k v) =
  match dict_get K_eq_dec d k with
  | Some _ => dict_keys d
  | None => dict_keys d ++ [k]
  end.
Proof.
  induction d as [|[k' v'] d IH]; simpl; [reflexivity|].
  destruct (K_eq_dec k k') as [->|Hne]; simpl; [reflexivity|].
  fold (dict_keys (dict_set K_eq_dec d k v)). rewrite IH.
  destruct (dict_get K_eq_dec d k); reflexivity.
Qed.

Lemma dict_set_NoDup (d : @dict K V) (k : K) (v : V) :
  NoDup (dict_keys d) -> NoDup (dict_keys (dict_set K_eq_dec d k v)).
Proof.
  intros Hnd. rewrite dict_keys_set.
  destruct (dict_get K_eq_dec d k) eqn:E; [exact Hnd|].
  apply dict_get_None in E.
  apply NoDup_rev in Hnd. rewrite <- (rev_involutive (dict_keys d ++ [k])).
  apply NoDup_rev. rewrite rev_app_distr. simpl.
  constructor; [rewrite <- in_rev; exact E | exact Hnd].
Qed.

Lemma dict_get_set_same (d : @dict K V) (k : K) (v : V) :
  dict_get K_eq_dec (dict_set K_eq_dec d k v) k = Some v.
Proof.
  induction d as [|[k' v'] d IH]; simpl.
  - destruct (K_eq_dec k k); congruence.
  - destruct (K_eq_dec k k') as [->|Hne]; simpl.
    + destruct (K_eq_dec k' k'); congruence.
    + destruct (K_eq_dec k k'); congruence.
Qed.

Lemma dict_get_set_other (d : @dict K V) (k k0 : K) (v : V) :
  k0 <> k -> dict_get K_eq_dec (dict_set K_eq_dec d k v) k0 = dict_get K_eq_dec d k0.
Proof.
  intros Hne.
  induction d as [|[k' v'] d IH]; simpl.
  - destruct (K_eq_dec k0 k); congruence.
  - destruct (K_eq_dec k k') as [->|Hne']; simpl.
    + destruct (K_eq_dec k0 k'); congruence.
    + destruct (K_eq_dec k0 k'); congruence.
Qed.

(** Assigning at a key changes the sum of a measure of the values by the
    new value, less the value that was there. *)
Lemma dict_set_sum (f : V -> Z) (d : @dict K V) (k : K) (v : V) :
  sum_Z f (dict_values (dict_set K_eq_dec d k v)) =
  sum_Z f (dict_values d) + f v
  - match dict_get K_eq_dec d k with
    | Some v0 => f v0
    | None => 0
    end.
Proof.
  unfold dict_values, sum_Z.
  induction d as [|[k' v'] d IH]; simpl; [lia|].
  destruct (K_eq_dec k k') as [->|Hne]; simpl; [lia|].
  rewrite IH. lia.
Qed.

Lemma dict_pop_get_other (d : @dict K V) (k k0 : K) :
  k0 <> k -> dict_get K_eq_dec (snd (dict_pop K_eq_dec d k)) k0 = dict_get K_eq_dec d k0.
Proof.
  intros Hne.
  induction d as [|[k' v'] d IH]; simpl; [reflexivity|].
  destruct (K_eq_dec k k') as [->|Hne']; simpl.
  - destruct (K_eq_dec k0 k'); congruence.
  - destruct (dict_pop K_eq_dec d k) as [r d'']. simpl in *.
    destruct (K_eq_dec k0 k'); congruence.
Qed.

Lemma dict_pop_keys_incl (d : @dict K V) (k k0 : K) :
  In k0 (dict_keys (snd (dict_pop K_eq_dec d k))) -> In k0 (dict_keys d).
Proof.
  induction d as [|[k' v'] d IH]; simpl; [tauto|].
  destruct (K_eq_dec k k') as [->|Hne']; simpl.
  - tauto.
  - destruct (dict_pop K_eq_dec d k) as [r d'']. simpl in *. tauto.
Qed.

Lemma dict_pop_NoDup (d : @dict K V) (k : K) :
  NoDup (dict_keys d) -> NoDup (dict_keys (snd (dict_pop K_eq_dec d k))).
Proof.
  induction d as [|[k' v'] d IH]; simpl; [constructor|].
  intros Hnd. inversion Hnd as [|? ? Hnotin Hnd']; subst.
  destruct (K_eq_dec k k') as [->|Hne']; simpl; [exact Hnd'|].
  pose proof (dict_pop_keys_incl d k k') as Hincl.
  destruct (dict_pop K_eq_dec d k) as [r d'']. simpl in *.
  constructor; auto.
Qed.

Lemma dict_pop_fst (d : @dict K V) (k : K) : fst (dict_pop K_eq_dec d k) = dict_get K_eq_dec d k.
Proof.
  induction d as [|[k' v'] d IH]; simpl; [reflexivity|].
  destruct (K_eq_dec k k'); simpl; [reflexivity|].
  destruct (dict_pop K_eq_dec d k) as [r d'']. simpl in *. exact IH.
Qed.

(** In a dict (keys without repetition) the items at a key that is
    present are that one item. *)
Lemma dict_filter_key (d : @dict K V) (k : K) (v : V) :
  NoDup (dict_keys d) ->
  dict_get K_eq_dec d k = Some v ->
  filter (fun kv => if K_eq_dec k (fst kv) then true else false) d = [(k, v)].
Proof.
  induction d as [|[k' v'] d IH]; simpl; [discriminate|].
  intros Hnd Hget. inversion Hnd as [|? ? Hnotin Hnd']; subst.
  destruct (K_eq_dec k k') as [->|Hne].
  - injection Hget as ->. f_equal.
    clear IH Hnd Hnd'. induction d as [|[k2 v2] d IH2]; simpl; [reflexivity|].
    simpl in Hnotin.
    destruct (K_eq_dec k' k2) as [->|_]; [tauto|]. apply IH2. tauto.
  - auto.
Qed.

End DictFacts.

Section SortFacts.

Context {A : Type} (key_lt : A -> A -> bool).

Lemma insert_desc_perm (x : A) (l : list A) :
  Permutation (insert_desc key_lt x l) (x :: l).
Proof.
  induction l as [|y l IH]; simpl; [reflexivity|].
  destruct (key_lt x y); [|reflexivity].
  rewrite IH. apply perm_swap.
Qed.

Lemma sort_reverse_perm (l : list A) : Permutation (sort_reverse key_lt l) l.
Proof.
  induction l as [|x l IH]; simpl; [constructor|].
  rewrite insert_desc_perm. now constructor.
Qed.

End SortFacts.

Lemma filter_perm {A : Type} (p : A -> bool) (l1 l2 : list A) :
  Permutation l1 l2 -> Permutation (filter p l1) (filter p l2).
Proof.
  induction 1; simpl.
  - constructor.
  - destruct (p x); [constructor|]; assumption.
  - destruct (p x), (p y); try reflexivity. apply perm_swap.
  - etransitivity; eassumption.
Qed.

(** ** Grouping *)

Lemma add_to_stats_size (stats : group) (tb : Traceback.t) (sz : Z) :
  total_size (dict_values (_add_to_stats stats tb sz)) =
  total_size (dict_values stats) + sz.
Proof.
  unfold _add_to_stats, total_size, stats_set, stats_get.
  destruct (dict_get Traceback.eq_dec stats tb) as [st|] eqn:E;
    rewrite dict_set_sum, E; simpl; lia.
Qed.

Lemma add_to_stats_count (stats : group) (tb : Traceback.t) (sz : Z) :
  total_count (dict_values (_add_to_stats stats tb sz)) =
  total_count (dict_values stats) + 1.
Proof.
  unfold _add_to_stats, total_count, stats_set, stats_get.
  destruct (dict_get Traceback.eq_dec stats tb) as [st|] eqn:E;
    rewrite dict_set_sum, E; simpl; lia.
Qed.

Lemma add_to_stats_NoDup (stats : group) (tb : Traceback.t) (sz : Z) :
  NoDup (dict_keys stats) -> NoDup (dict_keys (_add_to_stats stats tb sz)).
Proof.
  unfold _add_to_stats, stats_set. intros H.
  destruct (stats_get stats tb); now apply dict_set_NoDup.
Qed.

Lemma apply_adds_size (adds : list (Traceback.t * Z)) (stats : group) :
  total_size (dict_values (apply_adds stats adds)) =
  total_size (dict_values stats) + sum_Z snd adds.
Proof.
  revert stats. induction adds as [|[tb sz] adds IH]; intros stats.
  - simpl. lia.
  - change (apply_adds stats ((tb, sz) :: adds))
      with (apply_adds (_add_to_stats stats tb sz) adds).
    rewrite IH, add_to_stats_size.
    change (sum_Z snd ((tb, sz) :: adds)) with (sz + sum_Z snd adds). lia.
Qed.

Lemma apply_adds_count (adds : list (Traceback.t * Z)) (stats : group) :
  total_count (dict_values (apply_adds stats adds)) =
  total_count (dict_values stats) + Z.of_nat (List.length adds).
Proof.
  revert stats. induction adds as [|[tb sz] adds IH]; intros stats.
  - simpl. lia.
  - change (apply_adds stats ((tb, sz) :: adds))
      with (apply_adds (_add_to_stats stats tb sz) adds).
    rewrite IH, add_to_stats_count. simpl List.length. lia.
Qed.

Lemma apply_adds_NoDup (adds : list (Traceback.t * Z)) (stats : group) :
  NoDup (dict_keys stats) -> NoDup (dict_keys (apply_adds stats adds)).
Proof.
  revert stats. induction adds as [|[tb sz] adds IH]; intros stats H.
  - exact H.
  - apply IH. now apply add_to_stats_NoDup.
Qed.

Lemma memo_ok_nil {A : Type} (A_eq_dec : forall a b : A, {a = b} + {a <> b})
    (key : A -> option Traceback.t) :
  memo_ok A_eq_dec key [].
Proof.
  intros a tb H. discriminate.
Qed.

Lemma memo_ok_set {A : Type} (A_eq_dec : forall a b : A, {a = b} + {a <> b})
    (key : A -> option Traceback.t) (memo : @dict A Traceback.t)
    (a : A) (tb : Traceback.t) :
  memo_ok A_eq_dec key memo -> key a = Some tb ->
  memo_ok A_eq_dec key (dict_set A_eq_dec memo a tb).
Proof.
  intros Hm Hk a' tb' Hget.
  destruct (A_eq_dec a' a) as [->|Hne].
  - rewrite dict_get_set_same in Hget. congruence.
  - rewrite dict_get_set_other in Hget by exact Hne. auto.
Qed.

Section GroupingFacts.

Context {F : Type} {FO : FloatOps F}.

Lemma group_trace_spec (key_type : string) (stats : group)
    (memo : @dict (list frame_tuple) Traceback.t) (size : Z)
    (raw : list frame_tuple) :
  memo_ok frames_eq_dec (group_key key_type) memo ->
  match group_key key_type raw with
  | Some key =>
      exists memo',
        Snapshot._group_trace key_type (stats, memo) (size, raw)
        = Ok (_add_to_stats stats key size, memo')
        /\ memo_ok frames_eq_dec (group_key key_type) memo'
  | None =>
      Snapshot._group_trace key_type (stats, memo) (size, raw) = Err IndexError
  end.
Proof.
  intros Hm. unfold Snapshot._group_trace.
  destruct (dict_get frames_eq_dec memo raw) as [tb|] eqn:Hget.
  - rewrite (Hm _ _ Hget). simpl. eauto.
  - destruct (group_key key_type raw) as [key|] eqn:Hkey.
    + exists (dict_set frames_eq_dec memo raw key).
      split; [|now apply memo_ok_set].
      unfold group_key in Hkey.
      destruct (key_type =? "traceback")%string.
      { injection Hkey as <-. reflexivity. }
      destruct (key_type =? "lineno")%string.
      { injection Hkey as <-. reflexivity. }
      destruct raw as [|[[[n f] fl] l] raw]; [discriminate|].
      injection Hkey as <-. rewrite py_index_0_cons. reflexivity.
    + unfold group_key in Hkey.
      destruct (key_type =? "traceback")%string; [discriminate|].
      destruct (key_type =? "lineno")%string; [discriminate|].
      destruct raw as [|[[[n f] fl] l] raw]; [|discriminate].
      rewrite py_index_nil. reflexivity.
Qed.

(** The first loop of [_group_by] performs the additions [group_adds], or
    raises [IndexError] where a key does. *)
Lemma group_loop_spec (key_type : string) (traces : list trace_tuple) :
  forall (stats : group) (memo : @dict (list frame_tuple) Traceback.t),
  memo_ok frames_eq_dec (group_key key_type) memo ->
  match group_adds key_type traces with
  | Some adds =>
      exists memo',
        py_for (Snapshot._group_trace key_type) traces (stats, memo)
        = Ok (apply_adds stats adds, memo')
  | None =>
      py_for (Snapshot._group_trace key_type) traces (stats, memo)
      = Err IndexError
  end.
Proof.
  induction traces as [|[size raw] traces IH]; intros stats memo Hm.
  - simpl. eauto.
  - cbn [group_adds py_for].
    pose proof (group_trace_spec key_type stats memo size raw Hm) as Hstep.
    destruct (group_key key_type raw) as [key|].
    + destruct Hstep as (memo' & -> & Hm'). cbn [bind].
      specialize (IH (_add_to_stats stats key size) memo' Hm').
      destruct (group_adds key_type traces) as [adds|]; exact IH.
    + rewrite Hstep. reflexivity.
Qed.

Lemma group_frame_spec (key_type : string) (size : Z) (stats : group)
    (memo : @dict frame_tuple Traceback.t) (frame : frame_tuple) :
  memo_ok frame_tuple_eq_dec (fun f => Some (frame_key key_type f)) memo ->
  exists memo',
    Snapshot._group_frame key_type size (stats, memo) frame
    = (_add_to_stats stats (frame_key key_type frame) size, memo')
    /\ memo_ok frame_tuple_eq_dec (fun f => Some (frame_key key_type f)) memo'.
Proof.
  intros Hm. unfold Snapshot._group_frame.
  destruct (dict_get frame_tuple_eq_dec memo frame) as [tb|] eqn:Hget.
  - apply Hm in Hget. injection Hget as <-. eauto.
  - eexists. split; [reflexivity|]. now apply memo_ok_set.
Qed.

Lemma cumulative_loop_spec (key_type : string) (traces : list trace_tuple) :
  forall (stats : group) (memo : @dict frame_tuple Traceback.t),
  memo_ok frame_tuple_eq_dec (fun f => Some (frame_key key_type f)) memo ->
  exists memo',
    fold_left (Snapshot._group_trace_cumulative key_type) traces (stats, memo)
    = (apply_adds stats (cumulative_adds key_type traces), memo').
Proof.
  induction traces as [|[size raw] traces IH]; intros stats memo Hm.
  - simpl. eauto.
  - cbn [fold_left].
    change (Snapshot._group_trace_cumulative key_type (stats, memo) (size, raw))
      with (fold_left (Snapshot._group_frame key_type size) raw (stats, memo)).
    assert (Hin : exists memo',
               fold_left (Snapshot._group_frame key_type size) raw (stats, memo)
               = (apply_adds stats
                    (map (fun frame => (frame_key key_type frame, size)) raw),
                  memo')
               /\ memo_ok frame_tuple_eq_dec
                    (fun f => Some (frame_key key_type f)) memo').
    { clear IH. revert stats memo Hm.
      induction raw as [|frame raw IHr]; intros stats memo Hm.
      - simpl. eauto.
      - cbn [fold_left].
        destruct (group_frame_spec key_type size stats memo frame Hm)
          as (memo1 & -> & Hm1).
        exact (IHr _ _ Hm1). }
    destruct Hin as (memo1 & -> & Hm1).
    destruct (IH (apply_adds stats
                    (map (fun frame => (frame_key key_type frame, size)) raw))
                 memo1 Hm1) as (memo2 & ->).
    exists memo2. f_equal.
    unfold cumulative_adds, apply_adds. cbn [flat_map fst snd].
    now rewrite fold_left_app.
Qed.

End GroupingFacts.

(** ** The checks of [_group_by] and the sampling correction *)

Lemma str_in_In (s : string) (l : list string) : str_in s l = true <-> In s l.
Proof.
  unfold str_in. rewrite existsb_exists. split.
  - intros (x & Hin & Heq). apply String.eqb_eq in Heq. now subst.
  - intros Hin. exists s. split; [exact Hin | apply String.eqb_refl].
Qed.

(** The two checks in words: [key_type] is one of the three, and it is not
    ["traceback"] when [cumulative] is set. *)
Lemma valid_grouping_false (key_type : string) (cumulative : bool) :
  valid_grouping key_type cumulative = false <->
  ~ In key_type ["traceback"; "filename"; "lineno"]
  \/ (cumulative = true /\ key_type = "traceback").
Proof.
  unfold valid_grouping.
  destruct (str_in key_type ["traceback"; "filename"; "lineno"]) eqn:E3.
  - apply str_in_In in E3.
    destruct cumulative; cbn [andb negb].
    + destruct (str_in key_type ["lineno"; "filename"]) eqn:E2; cbn [andb negb].
      * apply str_in_In in E2. split; [discriminate|].
        intros [Hn | [_ ->]]; [tauto|].
        simpl in E2. destruct E2 as [E|[E|[]]]; discriminate E.
      * split; [|reflexivity]. intros _. right. split; [reflexivity|].
        assert (Hn : ~ In key_type ["lineno"; "filename"]).
        { intros Hin. apply str_in_In in Hin. congruence. }
        simpl in E3, Hn. destruct E3 as [E|[E|[E|[]]]]; subst; tauto.
    + split; [discriminate|]. intros [Hn | [Hc _]]; [tauto | discriminate].
  - cbn [andb]. split; [|reflexivity]. intros _. left.
    intros Hin. apply str_in_In in Hin. congruence.
Qed.

Section ScalingFacts.

Context {F : Type} {FO : FloatOps F}.

Lemma scale_heap_sample_unchanged (self : Snapshot.t) (stat : Statistic.t) :
  Snapshot.sample_rate self <= 1 \/ Statistic.count stat = 0
  \/ Statistic.size stat = 0 ->
  Snapshot._scale_heap_sample self stat = Ok stat.
Proof.
  intros H. unfold Snapshot._scale_heap_sample.
  destruct (Z.eqb_spec (Statistic.count stat) 0) as [|Hc]; [reflexivity|].
  destruct (Z.eqb_spec (Statistic.size stat) 0) as [|Hs]; [reflexivity|].
  simpl.
  destruct (Z.leb_spec (Snapshot.sample_rate self) 1) as [|Hr]; [reflexivity|].
  lia.
Qed.

Lemma scale_heap_samples_unchanged (self : Snapshot.t) (stats : group) :
  Snapshot.sample_rate self <= 1 ->
  Snapshot._scale_heap_samples self stats = Ok stats.
Proof.
  intros H. induction stats as [|[tb stat] stats IH]; [reflexivity|].
  cbn [Snapshot._scale_heap_samples].
  rewrite scale_heap_sample_unchanged by tauto.
  cbn [bind]. rewrite IH. reflexivity.
Qed.

Lemma raise_if_none_Err {A : Type} (e e' : exn) (o : option A) :
  raise_if_none e o = Err e' -> e' = e.
Proof.
  destruct o; simpl; congruence.
Qed.

(** The sampling correction raises what the float operations raise. *)
Lemma scale_heap_sample_Err (self : Snapshot.t) (stat : Statistic.t) (e : exn) :
  Snapshot._scale_heap_sample self stat = Err e ->
  e = OverflowError \/ e = ZeroDivisionError.
Proof.
  unfold Snapshot._scale_heap_sample.
  destruct (_ || _); [discriminate|].
  destruct (_ <=? _); [discriminate|].
  repeat match goal with
         | |- bind (raise_if_none ?e0 ?o) _ = Err _ -> _ =>
             let E := fresh "E" in
             destruct o eqn:E; cbn [raise_if_none bind];
             [| intros [= <-]; auto ]
         end.
  discriminate.
Qed.

Lemma scale_heap_samples_Err (self : Snapshot.t) (stats : group) (e : exn) :
  Snapshot._scale_heap_samples self stats = Err e ->
  e = OverflowError \/ e = ZeroDivisionError.
Proof.
  induction stats as [|[tb stat] stats IH]; [discriminate|].
  cbn [Snapshot._scale_heap_samples].
  destruct (Snapshot._scale_heap_sample self stat) as [stat'|e1] eqn:E1;
    cbn [bind].
  - destruct (Snapshot._scale_heap_samples self stats) as [rest|e2];
      cbn [bind]; [discriminate|].
    intros [= <-]. now apply IH.
  - intros [= <-]. now apply scale_heap_sample_Err in E1.
Qed.

Lemma scale_heap_samples_keys (self : Snapshot.t) (stats stats' : group) :
  Snapshot._scale_heap_samples self stats = Ok stats' ->
  dict_keys stats' = dict_keys stats.
Proof.
  revert stats'. induction stats as [|[tb stat] stats IH]; intros stats'.
  - intros [= <-]. reflexivity.
  - cbn [Snapshot._scale_heap_samples].
    destruct (Snapshot._scale_heap_sample self stat) as [stat'|]; cbn [bind];
      [|discriminate].
    destruct (Snapshot._scale_heap_samples self stats) as [rest|]; cbn [bind];
      [|discriminate].
    intros [= <-]. simpl. f_equal. now apply IH.
Qed.

(** [_group_by] once its two checks have passed. *)
Lemma group_by_valid (self : Snapshot.t) (key_type : string) (cumulative : bool) :
  valid_grouping key_type cumulative = true ->
  Snapshot._group_by self key_type cumulative =
  match (if cumulative
         then Some (cumulative_adds key_type
                      (_Traces._traces (Snapshot.traces self)))
         else group_adds key_type (_Traces._traces (Snapshot.traces self)))
  with
  | Some adds => Snapshot._scale_heap_samples self (apply_adds [] adds)
  | None => Err IndexError
  end.
Proof.
  intros Hv. unfold valid_grouping in Hv. apply andb_true_iff in Hv.
  destruct Hv as [H3 H2]. unfold Snapshot._group_by.
  rewrite H3. cbn [negb].
  apply negb_true_iff in H2. rewrite H2.
  destruct cumulative; cbn [negb].
  - destruct (cumulative_loop_spec key_type
                (_Traces._traces (Snapshot.traces self)) [] []
                (memo_ok_nil _ _))
      as (memo' & Hloop).
    unfold group, dict in Hloop |- *. rewrite Hloop. reflexivity.
  - pose proof (group_loop_spec key_type
                  (_Traces._traces (Snapshot.traces self)) [] []
                  (memo_ok_nil _ _)) as Hloop.
    destruct (group_adds key_type (_Traces._traces (Snapshot.traces self))).
    + destruct Hloop as (memo' & Hloop).
      unfold group, dict in Hloop |- *. rewrite Hloop. reflexivity.
    + unfold group, dict in Hloop |- *. rewrite Hloop. reflexivity.
Qed.

Lemma group_by_invalid (self : Snapshot.t) (key_type : string)
    (cumulative : bool) :
  valid_grouping key_type cumulative = false ->
  Snapshot._group_by self key_type cumulative = Err ValueError.
Proof.
  unfold valid_grouping, Snapshot._group_by. intros Hv.
  destruct (str_in key_type ["traceback"; "filename"; "lineno"]);
    [|reflexivity].
  cbn [negb andb] in *. apply negb_false_iff in Hv. now rewrite Hv.
Qed.

Lemma group_by_ValueError (self : Snapshot.t) (key_type : string)
    (cumulative : bool) :
  Snapshot._group_by self key_type cumulative = Err ValueError <->
  valid_grouping key_type cumulative = false.
Proof.
  split; [|apply group_by_invalid].
  destruct (valid_grouping key_type cumulative) eqn:Hv; [|reflexivity].
  rewrite group_by_valid by exact Hv.
  destruct (if cumulative then _ else _) as [adds|]; [|discriminate].
  intros H. apply scale_heap_samples_Err in H. destruct H; discriminate.
Qed.

Lemma group_by_NoDup (self : Snapshot.t) (key_type : string)
    (cumulative : bool) (g : group) :
  Snapshot._group_by self key_type cumulative = Ok g -> NoDup (dict_keys g).
Proof.
  destruct (valid_grouping key_type cumulative) eqn:Hv.
  - rewrite group_by_valid by exact Hv.
    destruct (if cumulative then _ else _) as [adds|]; [|discriminate].
    intros H. apply scale_heap_samples_keys in H. rewrite H.
    apply apply_adds_NoDup. constructor.
  - rewrite group_by_invalid by exact Hv. discriminate.
Qed.

End ScalingFacts.

Lemma group_adds_sizes (key_type : string) (traces : list trace_tuple)
    (adds : list (Traceback.t * Z)) :
  group_adds key_type traces = Some adds -> map snd adds = map fst traces.
Proof.
  revert adds. induction traces as [|[size raw] traces IH]; intros adds.
  - intros [= <-]. reflexivity.
  - cbn [group_adds].
    destruct (group_key key_type raw); [|discriminate].
    destruct (group_adds key_type traces); [|discriminate].
    intros [= <-]. simpl. f_equal. now apply IH.
Qed.

(** A key other than the file name is derived from any traceback, the
    empty one too. *)
Lemma group_adds_total (key_type : string) (traces : list trace_tuple) :
  key_type = "traceback" \/ key_type = "lineno" ->
  exists adds, group_adds key_type traces = Some adds.
Proof.
  intros Hk. induction traces as [|[size raw] traces (adds & IH)].
  - simpl. eauto.
  - cbn [group_adds]. rewrite IH.
    destruct Hk as [-> | ->]; cbn; eauto.
Qed.

Lemma group_adds_nonempty (key_type : string) (traces : list trace_tuple) :
  (forall t, In t traces -> snd t <> []) ->
  exists adds, group_adds key_type traces = Some adds.
Proof.
  induction traces as [|[size raw] traces IH]; intros Hne.
  - simpl. eauto.
  - destruct IH as (adds & IH); [intros t Ht; apply Hne; now right|].
    cbn [group_adds]. rewrite IH.
    assert (Hraw : raw <> []) by (apply (Hne (size, raw)); now left).
    unfold group_key.
    destruct (key_type =? "traceback")%string; [eauto|].
    destruct (key_type =? "lineno")%string; [eauto|].
    destruct raw as [|[[[n f] fl] l] raw]; [congruence | eauto].
Qed.

(** ** Statistics of a snapshot *)

Lemma sum_Z_snd_fst {A B : Type} (l1 : list (A * Z)) (l2 : list (Z * B)) :
  map snd l1 = map fst l2 -> sum_Z snd l1 = sum_Z fst l2.
Proof.
  intros H.
  rewrite <- (map_id l1) at 1. rewrite <- (sum_Z_map (fun z => z) snd).
  rewrite map_id, H, sum_Z_map. reflexivity.
Qed.

Lemma cumulative_adds_length (key_type : string) (traces : list trace_tuple) :
  Z.of_nat (List.length (cumulative_adds key_type traces)) =
  sum_Z (fun t : trace_tuple => Z.of_nat (List.length (snd t))) traces.
Proof.
  unfold cumulative_adds.
  induction traces as [|t traces IH]; [reflexivity|].
  cbn [flat_map sum_Z fold_right].
  rewrite length_app, length_map, Nat2Z.inj_add.
  unfold sum_Z in IH. rewrite IH. reflexivity.
Qed.

Section StatisticsFacts.

Context {F : Type} {FO : FloatOps F}.

(** Without sampling correction, the statistics are the values of the
    additions of the loop, in some order. *)
Lemma statistics_unscaled (self : Snapshot.t) (key_type : string)
    (cumulative : bool) (adds : list (Traceback.t * Z)) :
  Snapshot.sample_rate self <= 1 ->
  valid_grouping key_type cumulative = true ->
  (if cumulative
   then Some (cumulative_adds key_type (_Traces._traces (Snapshot.traces self)))
   else group_adds key_type (_Traces._traces (Snapshot.traces self)))
  = Some adds ->
  exists l,
    Snapshot.statistics self key_type cumulative = Ok l
    /\ Permutation l (dict_values (apply_adds [] adds)).
Proof.
  intros Hr Hv Hadds. unfold Snapshot.statistics.
  rewrite group_by_valid by exact Hv. rewrite Hadds.
  rewrite scale_heap_samples_unchanged by exact Hr. cbn [bind].
  eexists. split; [reflexivity|]. apply sort_reverse_perm.
Qed.

Lemma statistics_totals (self : Snapshot.t) (key_type : string)
    (cumulative : bool) (adds : list (Traceback.t * Z)) :
  Snapshot.sample_rate self <= 1 ->
  valid_grouping key_type cumulative = true ->
  (if cumulative
   then Some (cumulative_adds key_type (_Traces._traces (Snapshot.traces self)))
   else group_adds key_type (_Traces._traces (Snapshot.traces self)))
  = Some adds ->
  exists l,
    Snapshot.statistics self key_type cumulative = Ok l
    /\ total_size l = sum_Z snd adds
    /\ total_count l = Z.of_nat (List.length adds).
Proof.
  intros Hr Hv Hadds.
  destruct (statistics_unscaled self key_type cumulative adds Hr Hv Hadds)
    as (l & Hl & Hperm).
  exists l. split; [exact Hl|]. split.
  - unfold total_size. rewrite (sum_Z_perm _ _ _ Hperm).
    fold (total_size (dict_values (apply_adds [] adds))).
    rewrite apply_adds_size. reflexivity.
  - unfold total_count. rewrite (sum_Z_perm _ _ _ Hperm).
    fold (total_count (dict_values (apply_adds [] adds))).
    rewrite apply_adds_count. reflexivity.
Qed.

(** C1.  Grouping conservation: when [sample_rate <= 1], the statistics by
    traceback, not cumulative, have the sizes of the raw traces for total
    size and the number of raw traces for total count. *)
Theorem grouping_conservation (self : Snapshot.t) :
  Snapshot.sample_rate self <= 1 ->
  exists l,
    Snapshot.statistics self "traceback" false = Ok l
    /\ total_size l = trace_sizes self
    /\ total_count l = trace_count self.
Proof.
  intros Hr.
  destruct (group_adds_total "traceback"
              (_Traces._traces (Snapshot.traces self)))
    as (adds & Hadds); [now left|].
  destruct (statistics_totals self "traceback" false adds Hr eq_refl Hadds)
    as (l & Hl & Hs & Hc).
  exists l. split; [exact Hl|].
  pose proof (group_adds_sizes _ _ _ Hadds) as Hmap.
  split.
  - rewrite Hs. now apply sum_Z_snd_fst.
  - rewrite Hc. unfold trace_count.
    rewrite <- (length_map snd adds), Hmap, length_map. reflexivity.
Qed.

(** The total counts by line: every frame counts once when cumulative,
    every trace once when not. *)
Lemma statistics_lineno_counts (self : Snapshot.t) :
  Snapshot.sample_rate self <= 1 ->
  exists lc ln,
    Snapshot.statistics self "lineno" true = Ok lc
    /\ Snapshot.statistics self "lineno" false = Ok ln
    /\ total_count lc = frame_count self
    /\ total_count ln = trace_count self.
Proof.
  intros Hr.
  destruct (statistics_totals self "lineno" true _ Hr eq_refl eq_refl)
    as (lc & Hlc & _ & Hcc).
  destruct (group_adds_total "lineno"
              (_Traces._traces (Snapshot.traces self)))
    as (adds & Hadds); [now right|].
  destruct (statistics_totals self "lineno" false adds Hr eq_refl Hadds)
    as (ln & Hln & _ & Hcn).
  exists lc, ln. repeat split; try assumption.
  - rewrite Hcc. apply cumulative_adds_length.
  - rewrite Hcn. unfold trace_count.
    rewrite <- (length_map snd adds), (group_adds_sizes _ _ _ Hadds), length_map.
    reflexivity.
Qed.

End StatisticsFacts.

Lemma depths_sum (traces : list trace_tuple) :
  (forall t, In t traces -> snd t <> []) ->
  Z.of_nat (List.length traces)
  <= sum_Z (fun t : trace_tuple => Z.of_nat (List.length (snd t))) traces
  /\ (sum_Z (fun t : trace_tuple => Z.of_nat (List.length (snd t))) traces
      = Z.of_nat (List.length traces)
      <-> forall t, In t traces -> List.length (snd t) = 1%nat).
Proof.
  induction traces as [|t traces IH]; intros Hne.
  - simpl. split; [lia|]. split; [intros _ t [] | reflexivity].
  - destruct IH as [IHle IHeq]; [intros t' Ht'; apply Hne; now right|].
    assert (Ht : (1 <= List.length (snd t))%nat).
    { assert (snd t <> []) by (apply Hne; now left).
      destruct (snd t); [congruence | simpl; lia]. }
    cbn [sum_Z fold_right List.length].
    fold (sum_Z (fun t : trace_tuple => Z.of_nat (List.length (snd t))) traces).
    split; [lia|]. split.
    + intros Hsum t' [<-|Hin].
      * lia.
      * apply IHeq; [lia | exact Hin].
    + intros Hall.
      assert (H1 : List.length (snd t) = 1%nat) by (apply Hall; now left).
      assert (H2 : sum_Z (fun t : trace_tuple => Z.of_nat (List.length (snd t)))
                     traces = Z.of_nat (List.length traces)).
      { apply IHeq. intros t' Ht'. apply Hall. now right. }
      lia.
Qed.

(** C7, amended.  Cumulative superset: when [sample_rate <= 1] and no
    traceback of the snapshot is empty, the total count of the cumulative
    statistics by line is at least that of the statistics by line that are
    not cumulative, and the two are equal exactly when every traceback has
    depth 1. *)
Theorem cumulative_superset {F : Type} {FO : FloatOps F} (self : Snapshot.t) :
  Snapshot.sample_rate self <= 1 ->
  (forall t, In t (_Traces._traces (Snapshot.traces self)) -> snd t <> []) ->
  exists lc ln,
    Snapshot.statistics self "lineno" true = Ok lc
    /\ Snapshot.statistics self "lineno" false = Ok ln
    /\ total_count ln <= total_count lc
    /\ (total_count lc = total_count ln <->
        forall t, In t (_Traces._traces (Snapshot.traces self)) ->
                  List.length (snd t) = 1%nat).
Proof.
  intros Hr Hne.
  destruct (statistics_lineno_counts self Hr) as (lc & ln & Hlc & Hln & Hc & Hn).
  destruct (depths_sum _ Hne) as [Hle Heq].
  exists lc, ln. repeat split; try assumption.
  - rewrite Hc, Hn. exact Hle.
  - rewrite Hc, Hn. apply Heq.
  - rewrite Hc, Hn. apply Heq.
Qed.

Lemma grouping_conservation_witness :
  exists l,
    Snapshot.statistics (FO := exact_arithmetic) scenario_snapshot
      "traceback" false = Ok l
    /\ total_size l = trace_sizes scenario_snapshot
    /\ total_count l = trace_count scenario_snapshot.
Proof.
  apply (grouping_conservation scenario_snapshot). simpl. lia.
Defined.

Lemma cumulative_superset_witness :
  exists lc ln,
    Snapshot.statistics (FO := exact_arithmetic) scenario_snapshot
      "lineno" true = Ok lc
    /\ Snapshot.statistics (FO := exact_arithmetic) scenario_snapshot
         "lineno" false = Ok ln
    /\ total_count ln <= total_count lc
    /\ (total_count lc = total_count ln <->
        forall t, In t (_Traces._traces (Snapshot.traces scenario_snapshot)) ->
                  List.length (snd t) = 1%nat).
Proof.
  apply (cumulative_superset scenario_snapshot).
  - simpl. lia.
  - simpl. intros t [<-|[<-|[<-|[]]]]; discriminate.
Defined.

(** C7 as stated fails on a traceback of depth 0: the cumulative total is
    then below the other one; and with depths 0 and 2 the totals are equal
    though no traceback has depth 1. *)
Lemma cumulative_superset_fails_at_depth_0 :
  Snapshot.sample_rate depth0_snapshot <= 1
  /\ Snapshot.statistics (FO := exact_arithmetic) depth0_snapshot "lineno" true
     = Ok []
  /\ Snapshot.statistics (FO := exact_arithmetic) depth0_snapshot "lineno" false
     = Ok [Statistic.__init__ (Traceback.mk []) 1 1]
  /\ total_count [] < total_count [Statistic.__init__ (Traceback.mk []) 1 1]
  /\ Snapshot.sample_rate mixed_depth_snapshot <= 1
  /\ (exists lc ln,
        Snapshot.statistics (FO := exact_arithmetic) mixed_depth_snapshot
          "lineno" true = Ok lc
        /\ Snapshot.statistics (FO := exact_arithmetic) mixed_depth_snapshot
             "lineno" false = Ok ln
        /\ total_count lc = total_count ln
        /\ ~ (forall t,
                In t (_Traces._traces (Snapshot.traces mixed_depth_snapshot)) ->
                List.length (snd t) = 1%nat)).
Proof.
  split; [simpl; lia|].
  split; [reflexivity|].
  split; [reflexivity|].
  split; [reflexivity|].
  split; [simpl; lia|].
  eexists. eexists.
  split; [reflexivity|].
  split; [reflexivity|].
  split; [reflexivity|].
  intros H. specialize (H (1, [])). simpl in H.
  assert (E : 0%nat = 1%nat) by (apply H; now left). discriminate E.
Qed.



(** ** Filtering *)

Lemma py_any_Err {A : Type} (p : A -> result bool) (l : list A) (e : exn) :
  (forall x e', In x l -> p x = Err e' -> e' = IndexError) ->
  py_any p l = Err e -> e = IndexError.
Proof.
  induction l as [|x l IH]; intros Hp; [discriminate|].
  cbn [py_any]. destruct (p x) as [b|e1] eqn:E; cbn [bind].
  - destruct b; [discriminate|]. apply IH.
    intros y e' Hy. apply Hp. now right.
  - intros [= <-]. apply (Hp x); [now left | exact E].
Qed.

Lemma py_any_total {A : Type} (p : A -> result bool) (l : list A) :
  (forall x, In x l -> exists b, p x = Ok b) -> exists b, py_any p l = Ok b.
Proof.
  induction l as [|x l IH]; intros Hp; [simpl; eauto|].
  cbn [py_any]. destruct (Hp x) as (b & ->); [now left|]. cbn [bind].
  destruct b; [eauto|]. apply IH. intros y Hy. apply Hp. now right.
Qed.

Lemma py_filter_pure {A : Type} (p : A -> result bool) (q : A -> bool)
    (l : list A) :
  (forall x, In x l -> p x = Ok (q x)) -> py_filter p l = Ok (filter q l).
Proof.
  induction l as [|x l IH]; intros Hp; [reflexivity|].
  cbn [py_filter filter]. rewrite (Hp x) by now left. cbn [bind].
  rewrite IH by (intros y Hy; apply Hp; now right). reflexivity.
Qed.

Lemma py_filter_total {A : Type} (p : A -> result bool) (l : list A) :
  (forall x, In x l -> exists b, p x = Ok b) -> exists r, py_filter p l = Ok r.
Proof.
  induction l as [|x l IH]; intros Hp; [simpl; eauto|].
  cbn [py_filter]. destruct (Hp x) as (b & ->); [now left|]. cbn [bind].
  destruct IH as (r & ->); [intros y Hy; apply Hp; now right|].
  cbn [bind]. eauto.
Qed.

Lemma py_filter_Err {A : Type} (p : A -> result bool) (l : list A) (e : exn) :
  (forall x e', In x l -> p x = Err e' -> e' = IndexError) ->
  py_filter p l = Err e -> e = IndexError.
Proof.
  induction l as [|x l IH]; intros Hp; [discriminate|].
  cbn [py_filter]. destruct (p x) as [b|e1] eqn:E; cbn [bind].
  - destruct (py_filter p l) as [r|e2]; cbn [bind]; [discriminate|].
    intros [= <-]. apply IH; [|reflexivity].
    intros y e' Hy. apply Hp. now right.
  - intros [= <-]. apply (Hp x); [now left | exact E].
Qed.

Lemma py_filter_raises {A : Type} (p : A -> result bool) (l : list A) (x : A) :
  (forall y e', In y l -> p y = Err e' -> e' = IndexError) ->
  In x l -> p x = Err IndexError -> py_filter p l = Err IndexError.
Proof.
  induction l as [|y l IH]; intros Hp Hin Hx; [destruct Hin|].
  cbn [py_filter]. destruct (p y) as [b|e1] eqn:E; cbn [bind].
  - destruct Hin as [->|Hin]; [congruence|].
    rewrite IH; [reflexivity | | exact Hin | exact Hx].
    intros z e' Hz. apply Hp. now right.
  - f_equal. apply (Hp y); [now left | exact E].
Qed.

Lemma filter_partition_perm {A : Type} (q : A -> bool) (l : list A) :
  Permutation (filter q l ++ filter (fun x => negb (q x)) l) l.
Proof.
  induction l as [|x l IH]; [constructor|].
  cbn [filter]. destruct (q x); cbn [negb app].
  - now constructor.
  - rewrite <- Permutation_middle. now constructor.
Qed.

Section FilterFacts.

Context {P : PathOps}.

Lemma match_traceback_nonempty (f : Filter.t) (raw : list frame_tuple) :
  raw <> [] \/ Filter.all_frames f = true ->
  Filter._match_traceback f raw
  = Ok (xorb (raw_match f raw) (negb (Filter.inclusive f))).
Proof.
  intros H. unfold Filter._match_traceback, raw_match.
  destruct (Filter.all_frames f).
  - match goal with
    | |- context [existsb ?g raw] => destruct (existsb g raw)
    end; destruct (Filter.inclusive f); reflexivity.
  - destruct raw as [|[[[n fn] fl] l] raw].
    + destruct H; [congruence | discriminate].
    + rewrite py_index_0_cons. reflexivity.
Qed.

Lemma match_traceback_empty (f : Filter.t) :
  Filter.all_frames f = false ->
  Filter._match_traceback f [] = Err IndexError.
Proof.
  intros H. unfold Filter._match_traceback. rewrite H, py_index_nil.
  reflexivity.
Qed.

Lemma match_traceback_Err (f : Filter.t) (raw : list frame_tuple) (e : exn) :
  Filter._match_traceback f raw = Err e -> e = IndexError.
Proof.
  destruct raw as [|fr raw].
  - destruct (Filter.all_frames f) eqn:E.
    + rewrite match_traceback_nonempty by (now right). discriminate.
    + rewrite match_traceback_empty by exact E. congruence.
  - rewrite match_traceback_nonempty by (left; discriminate). discriminate.
Qed.

Lemma filter_trace_Err (incl excl : list Filter.t) (trace : trace_tuple)
    (e : exn) :
  Snapshot._filter_trace incl excl trace = Err e -> e = IndexError.
Proof.
  unfold Snapshot._filter_trace. intros H.
  assert (Hi : forall l e0,
             py_any (fun tf => Filter._match_traceback tf (snd trace)) l
             = Err e0 -> e0 = IndexError).
  { intros l e0 E. apply py_any_Err in E; [exact E|].
    intros x e' _. apply match_traceback_Err. }
  assert (He : forall l e0,
             py_any (fun tf => b <- Filter._match_traceback tf (snd trace) ;;
                               Ok (negb b)) l = Err e0 -> e0 = IndexError).
  { intros l e0 E. apply py_any_Err in E; [exact E|].
    intros x e' _.
    destruct (Filter._match_traceback x (snd trace)) as [b|e1] eqn:E1;
      cbn [bind]; [discriminate|].
    intros [= <-]. now apply match_traceback_Err in E1. }
  destruct incl as [|fi incl], excl as [|fe excl]; cbn [bind] in H;
    repeat match type of H with
           | context [py_any ?p ?l] =>
               destruct (py_any p l) as [[|]|?] eqn:?; cbn [bind negb] in H
           end;
    try discriminate H; injection H as <-; eauto.
Qed.

Lemma split_filters_spec (fs a b : list Filter.t) :
  Snapshot._split_filters fs a b
  = (a ++ filter Filter.inclusive fs,
     b ++ filter (fun f => negb (Filter.inclusive f)) fs).
Proof.
  revert a b. induction fs as [|f fs IH]; intros a b.
  - simpl. now rewrite !app_nil_r.
  - cbn [Snapshot._split_filters filter].
    destruct (Filter.inclusive f); cbn [negb]; rewrite IH, <- app_assoc;
      reflexivity.
Qed.

(** [filter_traces] on an iterable raises nothing but [IndexError]. *)
Lemma filter_traces_Err (self : Snapshot.t) (fs : list Filter.t) (e : exn) :
  Snapshot.filter_traces self (Iterable fs) = Err e -> e = IndexError.
Proof.
  unfold Snapshot.filter_traces.
  destruct fs as [|f fs]; cbn [bind]; [discriminate|].
  destruct (Snapshot._split_filters (f :: fs) [] []) as [incl excl].
  destruct (py_filter _ _) as [r|e1] eqn:E; cbn [bind]; [discriminate|].
  intros [= <-]. apply py_filter_Err in E; [exact E|].
  intros x e' _. apply filter_trace_Err.
Qed.

(** One inclusive filter keeps the traces that match, one exclusive filter
    those that do not. *)
Lemma filter_trace_inclusive (f : Filter.t) (trace : trace_tuple) :
  Filter.inclusive f = true ->
  snd trace <> [] \/ Filter.all_frames f = true ->
  Snapshot._filter_trace [f] [] trace = Ok (raw_match f (snd trace)).
Proof.
  intros Hi Hne. unfold Snapshot._filter_trace. cbn [py_any].
  rewrite match_traceback_nonempty by exact Hne. rewrite Hi.
  destruct (raw_match f (snd trace)); reflexivity.
Qed.

Lemma filter_trace_exclusive (f : Filter.t) (trace : trace_tuple) :
  Filter.inclusive f = false ->
  snd trace <> [] \/ Filter.all_frames f = true ->
  Snapshot._filter_trace [] [f] trace = Ok (negb (raw_match f (snd trace))).
Proof.
  intros Hi Hne. unfold Snapshot._filter_trace. cbn [py_any bind].
  rewrite match_traceback_nonempty by exact Hne. rewrite Hi.
  destruct (raw_match f (snd trace)); reflexivity.
Qed.

(** C6.  Inclusive and exclusive are complementary: on a snapshot without
    empty tracebacks, the traces kept by the inclusive filter and those kept
    by the exclusive filter with the same pattern, line and [all_frames]
    make up the traces of the snapshot, and no trace is kept by both. *)
Theorem inclusive_exclusive_partition (self : Snapshot.t) (pattern : string)
    (lineno : option Z) (all_frames : bool) :
  (forall t, In t (_Traces._traces (Snapshot.traces self)) -> snd t <> []) ->
  exists si se,
    Snapshot.filter_traces self
      (Iterable [Filter.__init__ true pattern lineno all_frames]) = Ok si
    /\ Snapshot.filter_traces self
         (Iterable [Filter.__init__ false pattern lineno all_frames]) = Ok se
    /\ Permutation
         (_Traces._traces (Snapshot.traces si)
          ++ _Traces._traces (Snapshot.traces se))
         (_Traces._traces (Snapshot.traces self))
    /\ (forall t, In t (_Traces._traces (Snapshot.traces si)) ->
                  In t (_Traces._traces (Snapshot.traces se)) -> False).
Proof.
  intros Hne.
  set (fi := Filter.__init__ true pattern lineno all_frames).
  set (fe := Filter.__init__ false pattern lineno all_frames).
  set (q := fun t : trace_tuple => raw_match fi (snd t)).
  assert (Hq : forall t, raw_match fe (snd t) = q t) by reflexivity.
  exists (Snapshot.__init__ (filter q (_Traces._traces (Snapshot.traces self)))
            (Snapshot.traceback_limit self) (Snapshot.sample_rate self)).
  exists (Snapshot.__init__
            (filter (fun t => negb (q t))
                    (_Traces._traces (Snapshot.traces self)))
            (Snapshot.traceback_limit self) (Snapshot.sample_rate self)).
  split; [|split; [|split]].
  - unfold Snapshot.filter_traces. cbn [Snapshot._split_filters app].
    change (Filter.inclusive fi) with true. cbn iota.
    rewrite (py_filter_pure _ q); [reflexivity|].
    intros t Ht. apply filter_trace_inclusive; [reflexivity|].
    left. now apply Hne.
  - unfold Snapshot.filter_traces. cbn [Snapshot._split_filters app].
    change (Filter.inclusive fe) with false. cbn iota.
    rewrite (py_filter_pure _ (fun t => negb (q t))); [reflexivity|].
    intros t Ht. rewrite <- Hq. apply filter_trace_exclusive; [reflexivity|].
    left. now apply Hne.
  - apply filter_partition_perm.
  - cbn. intros t H1 H2.
    apply filter_In in H1. apply filter_In in H2.
    destruct H1 as [_ H1]. destruct H2 as [_ H2].
    rewrite H1 in H2. discriminate H2.
Qed.

End FilterFacts.

Lemma inclusive_exclusive_partition_witness :
  exists si se,
    Snapshot.filter_traces (P := posix) scenario_snapshot
      (Iterable [Filter.__init__ true "a.py" (Some 10) false]) = Ok si
    /\ Snapshot.filter_traces (P := posix) scenario_snapshot
         (Iterable [Filter.__init__ false "a.py" (Some 10) false]) = Ok se
    /\ Permutation
         (_Traces._traces (Snapshot.traces si)
          ++ _Traces._traces (Snapshot.traces se))
         (_Traces._traces (Snapshot.traces scenario_snapshot))
    /\ (forall t, In t (_Traces._traces (Snapshot.traces si)) ->
                  In t (_Traces._traces (Snapshot.traces se)) -> False).
Proof.
  apply (inclusive_exclusive_partition scenario_snapshot "a.py" (Some 10) false).
  simpl. intros t [<-|[<-|[<-|[]]]]; discriminate.
Defined.

(** ** The sampling correction in exact arithmetic *)

Lemma exact_exponent_nonzero (size count sample_rate : Z) :
  size <> 0 -> count <> 0 -> sample_rate <> 0 ->
  (- (IZR size / IZR count) / IZR sample_rate <> 0)%R.
Proof.
  intros Hs Hc Hr.
  assert (IZR size <> 0)%R by (now apply not_0_IZR).
  assert (IZR count <> 0)%R by (now apply not_0_IZR).
  assert (IZR sample_rate <> 0)%R by (now apply not_0_IZR).
  unfold Rdiv. apply Rmult_integral_contrapositive_currified.
  - apply Ropp_neq_0_compat. apply Rmult_integral_contrapositive_currified;
      [assumption | now apply Rinv_neq_0_compat].
  - now apply Rinv_neq_0_compat.
Qed.

Lemma exp_eq_1 (x : R) : exp x = 1%R -> x = 0%R.
Proof.
  intros H. apply exp_inv. now rewrite exp_0.
Qed.

(** In exact arithmetic the correction never raises, and its result is the
    truncation of the scaled size and count. *)
Lemma scale_heap_sample_exact (self : Snapshot.t) (stat : Statistic.t) :
  Statistic.count stat <> 0 -> Statistic.size stat <> 0 ->
  1 < Snapshot.sample_rate self ->
  Snapshot._scale_heap_sample (FO := exact_arithmetic) self stat
  = Ok (Statistic.__init__ (Statistic.traceback stat)
          (Rtrunc (scale_factor (Statistic.size stat) (Statistic.count stat)
                                (Snapshot.sample_rate self)
                   * IZR (Statistic.size stat)))
          (Rtrunc (scale_factor (Statistic.size stat) (Statistic.count stat)
                                (Snapshot.sample_rate self)
                   * IZR (Statistic.count stat)))).
Proof.
  intros Hc Hs Hr. unfold Snapshot._scale_heap_sample.
  destruct (Z.eqb_spec (Statistic.count stat) 0) as [|_]; [contradiction|].
  destruct (Z.eqb_spec (Statistic.size stat) 0) as [|_]; [contradiction|].
  cbn [orb].
  destruct (Z.leb_spec (Snapshot.sample_rate self) 1) as [|_]; [lia|].
  cbn [float_of_int exact_arithmetic raise_if_none bind fdiv fneg].
  destruct (Req_dec_T (IZR (Statistic.count stat)) 0) as [E|_];
    [apply eq_IZR_R0 in E; contradiction|].
  cbn [raise_if_none bind].
  destruct (Req_dec_T (IZR (Snapshot.sample_rate self)) 0) as [E|_];
    [apply eq_IZR_R0 in E; lia|].
  cbn [raise_if_none bind math_exp exact_arithmetic f_one fsub].
  destruct (Req_dec_T _ 0) as [E|_].
  - exfalso. apply Rminus_diag_uniq_sym in E. apply exp_eq_1 in E.
    revert E. apply exact_exponent_nonzero; lia.
  - reflexivity.
Qed.

Lemma scale_heap_sample_exact_total (self : Snapshot.t) (stat : Statistic.t) :
  exists stat', Snapshot._scale_heap_sample (FO := exact_arithmetic) self stat
                = Ok stat'.
Proof.
  destruct (Z.eq_dec (Statistic.count stat) 0) as [Hc|Hc];
    [rewrite scale_heap_sample_unchanged by tauto; eauto|].
  destruct (Z.eq_dec (Statistic.size stat) 0) as [Hs|Hs];
    [rewrite scale_heap_sample_unchanged by tauto; eauto|].
  destruct (Z_le_gt_dec (Snapshot.sample_rate self) 1) as [Hr|Hr];
    [rewrite scale_heap_sample_unchanged by tauto; eauto|].
  rewrite scale_heap_sample_exact by lia. eauto.
Qed.

Lemma scale_heap_samples_exact_total (self : Snapshot.t) (stats : group) :
  exists stats', Snapshot._scale_heap_samples (FO := exact_arithmetic) self stats
                 = Ok stats'.
Proof.
  induction stats as [|[tb stat] stats (rest & IH)]; [simpl; eauto|].
  cbn [Snapshot._scale_heap_samples].
  destruct (scale_heap_sample_exact_total self stat) as (stat' & ->).
  cbn [bind]. rewrite IH. cbn [bind]. eauto.
Qed.


Lemma Int_part_ge (c : Z) (r : R) : (IZR c <= r)%R -> c <= Int_part r.
Proof.
  intros H. destruct (base_Int_part r) as [_ Hlow].
  assert (Hlt : (IZR (c - 1) < IZR (Int_part r))%R).
  { rewrite minus_IZR. lra. }
  apply lt_IZR in Hlt. lia.
Qed.

Lemma Rtrunc_ge (c : Z) (r : R) : 0 <= c -> (IZR c <= r)%R -> c <= Rtrunc r.
Proof.
  intros Hc H. unfold Rtrunc.
  destruct (Rle_dec 0 r) as [_|Hneg].
  - now apply Int_part_ge.
  - exfalso. apply Hneg. apply Rle_trans with (IZR c); [|exact H].
    now apply IZR_le.
Qed.



(** ** Errors *)

Lemma group_adds_depth_0 (traces : list trace_tuple) (size : Z) :
  In (size, []) traces -> group_adds "filename" traces = None.
Proof.
  induction traces as [|[sz raw] traces IH]; intros Hin; [destruct Hin|].
  cbn [group_adds]. destruct Hin as [[= -> ->]|Hin].
  - reflexivity.
  - rewrite (IH Hin). destruct (group_key "filename" raw); reflexivity.
Qed.

Section ErrorFacts.

Context {F : Type} {FO : FloatOps F} {P : PathOps}.

Lemma group_by_invalid_argument (self : Snapshot.t) (key_type : string)
    (cumulative : bool) :
  fails_invalid_argument (Snapshot._group_by self key_type cumulative) <->
  invalid_grouping_request key_type cumulative.
Proof.
  unfold invalid_grouping_request. rewrite <- valid_grouping_false. split.
  - intros (e & He & Hinv).
    destruct (valid_grouping key_type cumulative) eqn:Hv; [|reflexivity].
    rewrite group_by_valid in He by exact Hv.
    destruct (if cumulative then _ else _) as [adds|].
    + apply scale_heap_samples_Err in He. destruct He; subst; discriminate.
    + injection He as <-. discriminate.
  - intros Hv. exists ValueError.
    split; [now apply group_by_invalid | reflexivity].
Qed.

Lemma statistics_Err (self : Snapshot.t) (key_type : string) (cumulative : bool)
    (e : exn) :
  Snapshot.statistics self key_type cumulative = Err e <->
  Snapshot._group_by self key_type cumulative = Err e.
Proof.
  unfold Snapshot.statistics.
  destruct (Snapshot._group_by self key_type cumulative); cbn [bind];
    split; congruence.
Qed.

(** C8.  [statistics] and [compare_to] fail with an invalid-argument error
    exactly when [key_type] is not one of the three or [cumulative] comes
    with ["traceback"], and [filter_traces] exactly when its argument is
    not iterable.  The failure is then [ValueError] (or [TypeError])
    whatever the traces of the receiver are: it precedes the loops over
    them, and the methods, functions of the receiver, leave it as it is. *)
Theorem invalid_argument_errors :
  (forall self key_type cumulative,
     fails_invalid_argument (Snapshot.statistics self key_type cumulative)
     <-> invalid_grouping_request key_type cumulative)
  /\ (forall self old_snapshot key_type cumulative,
        fails_invalid_argument
          (Snapshot.compare_to self old_snapshot key_type cumulative)
        <-> invalid_grouping_request key_type cumulative)
  /\ (forall self filters,
        fails_invalid_argument (Snapshot.filter_traces self filters)
        <-> filters = NotIterable)
  /\ (forall self old_snapshot key_type cumulative,
        invalid_grouping_request key_type cumulative ->
        Snapshot.statistics self key_type cumulative = Err ValueError
        /\ Snapshot.compare_to self old_snapshot key_type cumulative
           = Err ValueError)
  /\ (forall self, Snapshot.filter_traces self NotIterable = Err TypeError).
Proof.
  split; [|split; [|split; [|split]]].
  - intros self key_type cumulative.
    rewrite <- (group_by_invalid_argument self). unfold fails_invalid_argument.
    split; intros (e & He & Hi); exists e; (split; [|exact Hi]);
      now apply statistics_Err.
  - intros self old_snapshot key_type cumulative. split.
    + intros (e & He & Hi). unfold Snapshot.compare_to in He.
      destruct (Snapshot._group_by self key_type cumulative) as [g|e1] eqn:E1;
        cbn [bind] in He.
      * destruct (Snapshot._group_by old_snapshot key_type cumulative)
          as [g'|e2] eqn:E2; cbn [bind] in He; [discriminate|].
        injection He as <-.
        apply (group_by_invalid_argument old_snapshot). now exists e2.
      * injection He as <-.
        apply (group_by_invalid_argument self). now exists e1.
    + intros Hinv. exists ValueError. split; [|reflexivity].
      unfold invalid_grouping_request in Hinv.
      rewrite <- valid_grouping_false in Hinv.
      unfold Snapshot.compare_to.
      now rewrite (group_by_invalid self _ _ Hinv).
  - intros self filters. split.
    + intros (e & He & Hi). destruct filters as [fs|]; [|reflexivity].
      apply filter_traces_Err in He. subst. discriminate.
    + intros ->. exists TypeError. split; reflexivity.
  - intros self old_snapshot key_type cumulative Hinv.
    unfold invalid_grouping_request in Hinv.
    rewrite <- valid_grouping_false in Hinv.
    unfold Snapshot.statistics, Snapshot.compare_to.
    rewrite (group_by_invalid self _ _ Hinv). split; reflexivity.
  - reflexivity.
Qed.

(** C9, amended.  On a snapshot with a trace of depth 0: [statistics], not
    cumulative, by traceback and by line, completes when [sample_rate <= 1]
    and otherwise raises at most what the float operations of the sampling
    correction raise, but by file name it raises [IndexError];
    [filter_traces] completes when
    every filter has [all_frames] set (the empty list included), and raises
    [IndexError] on a list, not empty, of filters on one frame. *)
Theorem depth_0_traceback (self : Snapshot.t) (size : Z) :
  In (size, []) (_Traces._traces (Snapshot.traces self)) ->
  (forall key_type,
     key_type = "traceback" \/ key_type = "lineno" ->
     (Snapshot.sample_rate self <= 1 ->
      exists l, Snapshot.statistics self key_type false = Ok l)
     /\ (forall e, Snapshot.statistics self key_type false = Err e ->
                   e = OverflowError \/ e = ZeroDivisionError))
  /\ Snapshot.statistics self "filename" false = Err IndexError
  /\ (forall filters,
        (forall f, In f filters -> Filter.all_frames f = true) ->
        exists s, Snapshot.filter_traces self (Iterable filters) = Ok s)
  /\ (forall filters,
        filters <> [] ->
        (forall f, In f filters -> Filter.all_frames f = false) ->
        Snapshot.filter_traces self (Iterable filters) = Err IndexError).
Proof.
  intros Hin. split; [|split; [|split]].
  - intros key_type Hk.
    destruct (group_adds_total key_type
                (_Traces._traces (Snapshot.traces self)) Hk) as (adds & Hadds).
    assert (Hv : valid_grouping key_type false = true)
      by (destruct Hk as [-> | ->]; reflexivity).
    split.
    + intros Hr.
      destruct (statistics_unscaled self key_type false adds Hr Hv Hadds)
        as (l & Hl & _).
      eauto.
    + intros e He. apply statistics_Err in He.
      rewrite group_by_valid, Hadds in He by exact Hv.
      now apply scale_heap_samples_Err in He.
  - apply statistics_Err. rewrite group_by_valid by reflexivity.
    now rewrite (group_adds_depth_0 _ _ Hin).
  - intros filters Hall. unfold Snapshot.filter_traces.
    destruct filters as [|f0 filters]; cbn [bind]; [eauto|].
    rewrite split_filters_spec. cbn [app].
    set (incl := filter Filter.inclusive (f0 :: filters)).
    set (excl := filter (fun f => negb (Filter.inclusive f)) (f0 :: filters)).
    assert (Hincl : forall f, In f incl -> Filter.all_frames f = true).
    { intros f Hf. apply filter_In in Hf. now apply Hall. }
    assert (Hexcl : forall f, In f excl -> Filter.all_frames f = true).
    { intros f Hf. apply filter_In in Hf. now apply Hall. }
    destruct (py_filter_total (Snapshot._filter_trace incl excl)
                (_Traces._traces (Snapshot.traces self))) as (r & ->).
    + intros t _. unfold Snapshot._filter_trace.
      destruct (py_any_total
                  (fun tf => Filter._match_traceback tf (snd t)) incl)
        as (bi & Hbi).
      { intros f Hf. rewrite match_traceback_nonempty; eauto. }
      destruct (py_any_total
                  (fun tf => b <- Filter._match_traceback tf (snd t) ;;
                             Ok (negb b)) excl)
        as (be & Hbe).
      { intros f Hf. rewrite match_traceback_nonempty; cbn [bind]; eauto. }
      rewrite Hbi, Hbe.
      destruct incl, excl, bi, be; cbn [bind negb]; eauto.
    + cbn [bind]. eauto.
  - intros filters Hne Hall. unfold Snapshot.filter_traces.
    destruct filters as [|f0 filters]; [congruence|].
    rewrite split_filters_spec. cbn [app].
    set (incl := filter Filter.inclusive (f0 :: filters)).
    set (excl := filter (fun f => negb (Filter.inclusive f)) (f0 :: filters)).
    assert (Hincl : forall f, In f incl -> Filter.all_frames f = false).
    { intros f Hf. apply filter_In in Hf. now apply Hall. }
    assert (Hexcl : forall f, In f excl -> Filter.all_frames f = false).
    { intros f Hf. apply filter_In in Hf. now apply Hall. }
    assert (Hsome : incl <> [] \/ excl <> []).
    { unfold incl, excl. cbn [filter].
      destruct (Filter.inclusive f0); cbn [negb]; [left | right]; discriminate. }
    cbv beta iota.
    rewrite (py_filter_raises (A := trace_tuple) _ _ (size, []));
      [reflexivity | | exact Hin |].
    + intros y e' _. apply filter_trace_Err.
    + unfold Snapshot._filter_trace. cbn [snd].
      destruct incl as [|fi incl'].
      * destruct excl as [|fe excl']; [destruct Hsome; congruence|].
        cbn [bind py_any].
        rewrite match_traceback_empty by (apply Hexcl; now left).
        reflexivity.
      * cbn [py_any].
        rewrite match_traceback_empty by (apply Hincl; now left).
        reflexivity.
Qed.

End ErrorFacts.

Lemma depth_0_traceback_witness :
  (forall key_type,
     key_type = "traceback" \/ key_type = "lineno" ->
     (Snapshot.sample_rate mixed_depth_snapshot <= 1 ->
      exists l, Snapshot.statistics (FO := exact_arithmetic)
                  mixed_depth_snapshot key_type false = Ok l)
     /\ (forall e, Snapshot.statistics (FO := exact_arithmetic)
                     mixed_depth_snapshot key_type false = Err e ->
                   e = OverflowError \/ e = ZeroDivisionError))
  /\ Snapshot.statistics (FO := exact_arithmetic) mixed_depth_snapshot
       "filename" false = Err IndexError
  /\ (forall filters,
        (forall f, In f filters -> Filter.all_frames f = true) ->
        exists s, Snapshot.filter_traces (P := posix) mixed_depth_snapshot
                    (Iterable filters) = Ok s)
  /\ (forall filters,
        filters <> [] ->
        (forall f, In f filters -> Filter.all_frames f = false) ->
        Snapshot.filter_traces (P := posix) mixed_depth_snapshot
          (Iterable filters) = Err IndexError).
Proof.
  apply (depth_0_traceback (FO := exact_arithmetic) (P := posix)
           mixed_depth_snapshot 1).
  simpl. left. reflexivity.
Defined.

(** C9 as stated fails: on the snapshot of one trace of depth 0, the
    statistics by file name and a filter on one frame raise [IndexError]. *)
Lemma depth_0_traceback_raises :
  Snapshot.statistics (FO := exact_arithmetic) depth0_snapshot "filename" false
  = Err IndexError
  /\ Snapshot.filter_traces (P := posix) depth0_snapshot
       (Iterable [Filter.__init__ true "*" None false])
     = Err IndexError.
Proof.
  split; reflexivity.
Qed.

(** ** Comparison of two snapshots *)

(** The first loop emits nothing at a key that the new grouping lacks, and
    leaves that key of the old grouping alone. *)
Lemma compare_new_items_other (tb : Traceback.t)
    (new_items : list (Traceback.t * Statistic.t)) :
  forall old_group : group,
  ~ In tb (dict_keys new_items) ->
  filter (has_traceback tb) (fst (_compare_new_items old_group new_items)) = []
  /\ stats_get (snd (_compare_new_items old_group new_items)) tb
     = stats_get old_group tb
  /\ (NoDup (dict_keys old_group) ->
      NoDup (dict_keys (snd (_compare_new_items old_group new_items)))).
Proof.
  induction new_items as [|[k stat] new_items IH]; intros old_group Hnotin.
  - simpl. auto.
  - cbn [_compare_new_items].
    assert (Hk : tb <> k) by (intros ->; apply Hnotin; now left).
    assert (Hrest : ~ In tb (dict_keys new_items))
      by (intros H; apply Hnotin; now right).
    pose proof (dict_pop_get_other Traceback.eq_dec old_group k tb Hk) as Hget.
    pose proof (dict_pop_NoDup Traceback.eq_dec old_group k) as Hnd.
    unfold stats_pop.
    destruct (dict_pop Traceback.eq_dec old_group k) as [previous old1].
    cbn [snd] in Hget, Hnd.
    specialize (IH old1 Hrest). destruct IH as (IH1 & IH2 & IH3).
    destruct (_compare_new_items old1 new_items) as [statistics old2].
    cbn [fst snd] in *.
    split; [|split].
    + cbn [filter].
      assert (Hd : forall d, StatisticDiff.traceback d = k ->
                             has_traceback tb d = false).
      { intros d Hd. unfold has_traceback. rewrite Hd.
        destruct (Traceback.eq_dec tb k); [contradiction | reflexivity]. }
      rewrite Hd by (destruct previous; reflexivity). exact IH1.
    + unfold stats_get in *. congruence.
    + auto.
Qed.

Lemma compare_old_items_at (tb : Traceback.t) (st : Statistic.t)
    (old_items : group) :
  NoDup (dict_keys old_items) ->
  stats_get old_items tb = Some st ->
  filter (has_traceback tb) (_compare_old_items old_items)
  = [StatisticDiff.__init__ tb 0 (- Statistic.size st) 0 (- Statistic.count st)].
Proof.
  intros Hnd Hget.
  pose proof (dict_filter_key Traceback.eq_dec old_items tb st Hnd Hget) as Hf.
  unfold _compare_old_items.
  assert (Hcomm : forall l : group,
             filter (has_traceback tb)
               (map (fun '(traceback, stat) =>
                       StatisticDiff.__init__ traceback
                         0 (- Statistic.size stat) 0 (- Statistic.count stat)) l)
             = map (fun '(traceback, stat) =>
                      StatisticDiff.__init__ traceback
                        0 (- Statistic.size stat) 0 (- Statistic.count stat))
                   (filter (fun kv => if Traceback.eq_dec tb (fst kv)
                                      then true else false) l)).
  { induction l as [|[k s] l IHl]; [reflexivity|].
    cbn [map filter fst]. unfold has_traceback at 1.
    cbn [StatisticDiff.traceback].
    destruct (Traceback.eq_dec tb k); cbn [map]; now rewrite IHl. }
  rewrite Hcomm, Hf. reflexivity.
Qed.

(** A key that only the old grouping has yields one difference. *)
Lemma compare_grouped_old_only (old_group new_group : group)
    (tb : Traceback.t) (st : Statistic.t) :
  NoDup (dict_keys old_group) ->
  stats_get old_group tb = Some st ->
  stats_get new_group tb = None ->
  filter (has_traceback tb) (_compare_grouped_stats old_group new_group)
  = [StatisticDiff.__init__ tb 0 (- Statistic.size st) 0 (- Statistic.count st)].
Proof.
  intros Hnd Hold Hnew.
  apply dict_get_None in Hnew.
  destruct (compare_new_items_other tb new_group old_group Hnew)
    as (H1 & H2 & H3).
  unfold _compare_grouped_stats.
  destruct (_compare_new_items old_group new_group) as [statistics old'].
  cbn [fst snd] in *.
  rewrite filter_app, H1. cbn [app].
  apply compare_old_items_at; [auto | congruence].
Qed.

Section CompareFacts.

Context {F : Type} {FO : FloatOps F}.

Lemma group_by_no_traces (self : Snapshot.t) (key_type : string)
    (cumulative : bool) :
  _Traces._traces (Snapshot.traces self) = [] ->
  valid_grouping key_type cumulative = true ->
  Snapshot._group_by self key_type cumulative = Ok [].
Proof.
  intros Ht Hv. rewrite group_by_valid by exact Hv. rewrite Ht.
  destruct cumulative; reflexivity.
Qed.

Lemma group_by_one_trace (self : Snapshot.t) (key_type : string)
    (cumulative : bool) (size : Z) (raw : list frame_tuple) :
  _Traces._traces (Snapshot.traces self) = [(size, raw)] ->
  Snapshot.sample_rate self <= 1 ->
  (key_type = "traceback" /\ cumulative = false)
  \/ (valid_grouping key_type cumulative = true /\ List.length raw = 1%nat) ->
  exists tb,
    Snapshot._group_by self key_type cumulative
    = Ok [(tb, Statistic.__init__ tb size 1)].
Proof.
  intros Ht Hr Hk.
  assert (Hv : valid_grouping key_type cumulative = true)
    by (destruct Hk as [[-> ->]|[Hv _]]; [reflexivity | exact Hv]).
  rewrite group_by_valid by exact Hv. rewrite Ht.
  assert (Hadds : exists tb,
             (if cumulative
              then Some (cumulative_adds key_type [(size, raw)])
              else group_adds key_type [(size, raw)])
             = Some [(tb, size)]).
  { destruct Hk as [[-> ->]|[_ Hlen]].
    - cbn. eauto.
    - destruct raw as [|fr [|fr' raw]]; try discriminate Hlen.
      destruct cumulative.
      + cbn. eauto.
      + cbn [group_adds]. unfold group_key.
        destruct (key_type =? "traceback")%string; [eauto|].
        destruct (key_type =? "lineno")%string; [eauto|].
        destruct fr as [[[n f] fl] l]. eauto. }
  destruct Hadds as (tb & ->). exists tb.
  rewrite scale_heap_samples_unchanged by exact Hr.
  cbn. unfold _add_to_stats. reflexivity.
Qed.

(** C4, amended.  In [compare_to], a key that only the grouping of the old
    snapshot has yields exactly one [StatisticDiff], with size 0, count 0
    and the old size and count negated as differences.  In particular, when
    the new snapshot has no trace and the old one, with [sample_rate <= 1],
    has one trace of size 10, then by traceback (or, when that trace has
    one frame, by any valid key type and mode) the result is a single
    [StatisticDiff] with [size=0], [size_diff=-10], [count=0],
    [count_diff=-1]. *)
Theorem compare_to_old_only :
  (forall self old_snapshot key_type cumulative new_group old_group,
     Snapshot._group_by self key_type cumulative = Ok new_group ->
     Snapshot._group_by old_snapshot key_type cumulative = Ok old_group ->
     exists statistics,
       Snapshot.compare_to self old_snapshot key_type cumulative = Ok statistics
       /\ forall tb st,
            stats_get old_group tb = Some st ->
            stats_get new_group tb = None ->
            filter (has_traceback tb) statistics
            = [StatisticDiff.__init__ tb
                 0 (- Statistic.size st) 0 (- Statistic.count st)])
  /\ (forall self old_snapshot key_type cumulative raw,
        _Traces._traces (Snapshot.traces self) = [] ->
        _Traces._traces (Snapshot.traces old_snapshot) = [(10, raw)] ->
        Snapshot.sample_rate old_snapshot <= 1 ->
        (key_type = "traceback" /\ cumulative = false)
        \/ (valid_grouping key_type cumulative = true
            /\ List.length raw = 1%nat) ->
        exists tb,
          Snapshot.compare_to self old_snapshot key_type cumulative
          = Ok [StatisticDiff.__init__ tb 0 (-10) 0 (-1)]).
Proof.
  split.
  - intros self old_snapshot key_type cumulative new_group old_group Hnew Hold.
    unfold Snapshot.compare_to. rewrite Hnew, Hold. cbn [bind].
    eexists. split; [reflexivity|].
    intros tb st Hget Hnone.
    apply Permutation_length_1_inv.
    rewrite <- (compare_grouped_old_only old_group new_group tb st);
      [| now apply (group_by_NoDup old_snapshot key_type cumulative)
       | exact Hget | exact Hnone].
    apply filter_perm. symmetry. apply sort_reverse_perm.
  - intros self old_snapshot key_type cumulative raw Hnew Hold Hr Hk.
    assert (Hv : valid_grouping key_type cumulative = true)
      by (destruct Hk as [[-> ->]|[Hv _]]; [reflexivity | exact Hv]).
    destruct (group_by_one_trace old_snapshot key_type cumulative 10 raw
                Hold Hr Hk) as (tb & Hg).
    exists tb. unfold Snapshot.compare_to.
    rewrite (group_by_no_traces self key_type cumulative Hnew Hv), Hg.
    reflexivity.
Qed.

End CompareFacts.

Lemma compare_to_old_only_witness :
  exists tb,
    Snapshot.compare_to (FO := exact_arithmetic) empty_snapshot
      (Snapshot.__init__ [(10, [main_frame])] 10 0) "traceback" false
    = Ok [StatisticDiff.__init__ tb 0 (-10) 0 (-1)].
Proof.
  apply (proj2 (compare_to_old_only (FO := exact_arithmetic))
           empty_snapshot (Snapshot.__init__ [(10, [main_frame])] 10 0)
           "traceback" false [main_frame]).
  - reflexivity.
  - reflexivity.
  - simpl. lia.
  - left. split; reflexivity.
Defined.

Lemma scale_factor_10_1_128 : (2 <= scale_factor 10 1 128)%R.
Proof.
  unfold scale_factor.
  set (x := (- (10 / 1) / 128)%R).
  pose proof (exp_ineq1_le x) as Hlow.
  assert (Hx : (x < 0)%R) by (unfold x; lra).
  assert (Hup : (exp x < 1)%R)
    by (rewrite <- exp_0; now apply exp_increasing).
  assert (Hd : (0 < 1 - exp x <= / 2)%R) by (unfold x in *; lra).
  unfold Rdiv. rewrite Rmult_1_l.
  rewrite <- (Rinv_inv 2).
  apply Rinv_le_contravar; lra.
Qed.

(** C4 as stated fails in its particular case.  With the new snapshot empty
    and one trace of size 10 in the old one: cumulated by line, a trace of
    two frames yields two differences; and with [sample_rate = 128] the
    sampling correction (here in exact arithmetic) has raised the old count,
    so that [count_diff] is below [-1]. *)
Lemma compare_to_one_trace_differs :
  Snapshot.compare_to (FO := exact_arithmetic) empty_snapshot nested_snapshot
    "lineno" true
  = Ok [StatisticDiff.__init__ (Traceback.mk [main_frame]) 0 (-10) 0 (-1);
        StatisticDiff.__init__ (Traceback.mk [alloc_frame]) 0 (-10) 0 (-1)]
  /\ exists d,
       Snapshot.compare_to (FO := exact_arithmetic) empty_snapshot
         sampled_snapshot "traceback" false = Ok [d]
       /\ StatisticDiff.count_diff d < -1.
Proof.
  split; [reflexivity|].
  unfold Snapshot.compare_to.
  rewrite (group_by_no_traces empty_snapshot "traceback" false eq_refl eq_refl).
  rewrite (group_by_valid sampled_snapshot "traceback" false eq_refl).
  cbn [bind]. cbn -[Snapshot._scale_heap_sample].
  unfold _add_to_stats. cbn -[Snapshot._scale_heap_sample].
  rewrite scale_heap_sample_exact by (cbn; lia).
  cbn -[scale_factor Rtrunc IZR].
  eexists. split; [reflexivity|].
  cbn -[scale_factor Rtrunc IZR].
  assert (H : 2 <= Rtrunc (scale_factor 10 1 128 * IZR 1)).
  { apply Rtrunc_ge; [lia|].
    pose proof scale_factor_10_1_128. lra. }
  lia.
Qed.

(** ** The frame that filters and keys take

    Both [Filter._match_traceback] and the keys of [_group_by] read item 0 of
    the raw traceback, which [Traceback] stores last. *)

Lemma raw_first_is_traceback_last (frame : frame_tuple)
    (rest : list frame_tuple) :
  Traceback.__getitem__ (Traceback.__init__ (frame :: rest)) (-1)
  = Ok (Frame.__init__ frame).
Proof.
  unfold Traceback.__getitem__, Traceback.__init__, py_index.
  cbn [Traceback._frames rev]. rewrite length_app, length_rev.
  cbn [List.length]. change (-1 <? 0) with true. cbv beta iota zeta.
  replace (-1 + Z.of_nat (List.length rest + 1))
    with (Z.of_nat (List.length rest)) by lia.
  destruct (Z.leb_spec 0 (Z.of_nat (List.length rest))) as [_|H]; [|lia].
  destruct (Z.ltb_spec (Z.of_nat (List.length rest))
              (Z.of_nat (List.length rest + 1))) as [_|H]; [|lia].
  cbn [andb]. rewrite Nat2Z.id.
  rewrite nth_error_app2 by (rewrite length_rev; lia).
  rewrite length_rev, Nat.sub_diag. reflexivity.
Qed.

Lemma single_frame_filter_tests_raw_first {P : PathOps} (f : Filter.t)
    (name filename : string) (firstlineno lineno : Z)
    (rest : list frame_tuple) :
  Filter.all_frames f = false ->
  Filter._match_traceback f ((name, filename, firstlineno, lineno) :: rest)
  = Ok (Filter._match_frame f filename lineno).
Proof.
  intros H. unfold Filter._match_traceback.
  rewrite H, py_index_0_cons. reflexivity.
Qed.

Lemma group_key_of_raw_first (name filename : string) (firstlineno lineno : Z)
    (rest : list frame_tuple) :
  group_key "lineno" ((name, filename, firstlineno, lineno) :: rest)
  = Some (Traceback.mk [(name, filename, firstlineno, lineno)])
  /\ group_key "filename" ((name, filename, firstlineno, lineno) :: rest)
     = Some (Traceback.mk [("", filename, 0, 0)]).
Proof.
  split; reflexivity.
Qed.

(** * Further properties *)

(** ** Orders *)

Lemma weak_order_ge_trans {A : Type} (cmp : A -> A -> comparison) :
  weak_order cmp ->
  forall x y z, cmp x y <> Lt -> cmp y z <> Lt -> cmp x z <> Lt.
Proof.
  intros [Ha Ht He] x y z Hxy Hyz.
  destruct (cmp x y) eqn:Exy; [| congruence |].
  - rewrite (He x y z Exy). exact Hyz.
  - assert (Eyx : cmp y x = Lt) by (rewrite Ha, Exy; reflexivity).
    destruct (cmp y z) eqn:Eyz; [| congruence |].
    + assert (Ezy : cmp z y = Eq) by (rewrite Ha, Eyz; reflexivity).
      pose proof (He z y x Ezy) as H. rewrite Eyx in H.
      rewrite (Ha z x), H. discriminate.
    + assert (Ezy : cmp z y = Lt) by (rewrite Ha, Eyz; reflexivity).
      pose proof (Ht z y x Ezy Eyx) as H.
      rewrite (Ha z x), H. discriminate.
Qed.

Lemma weak_order_Leibniz {A : Type} (cmp : A -> A -> comparison) :
  (forall x y, cmp y x = CompOpp (cmp x y)) ->
  (forall x y z, cmp x y = Lt -> cmp y z = Lt -> cmp x z = Lt) ->
  (forall x y, cmp x y = Eq -> x = y) ->
  weak_order cmp.
Proof.
  intros Ha Ht He. split; [exact Ha | exact Ht |].
  intros x y z Exy. now rewrite (He x y Exy).
Qed.

Lemma weak_order_lex {A : Type} (c1 c2 : A -> A -> comparison) :
  weak_order c1 -> weak_order c2 -> weak_order (lex_cmp c1 c2).
Proof.
  intros [Ha1 Ht1 He1] [Ha2 Ht2 He2]. unfold lex_cmp. split.
  - intros x y. rewrite (Ha1 x y), (Ha2 x y).
    destruct (c1 x y), (c2 x y); reflexivity.
  - intros x y z Hxy Hyz.
    destruct (c1 x y) eqn:E1; cbn [lex] in Hxy; [| | discriminate].
    + rewrite (He1 x y z E1).
      destruct (c1 y z) eqn:E2; cbn [lex] in *; [| reflexivity | discriminate].
      eauto.
    + destruct (c1 y z) eqn:E2; cbn [lex] in Hyz; [| | discriminate].
      * assert (Ezy : c1 z y = Eq) by (rewrite Ha1, E2; reflexivity).
        pose proof (He1 z y x Ezy) as H.
        rewrite (Ha1 x y), E1 in H. cbn in H.
        rewrite (Ha1 z x), H. reflexivity.
      * rewrite (Ht1 x y z E1 E2). reflexivity.
  - intros x y z Hxy.
    destruct (c1 x y) eqn:E1; cbn [lex] in Hxy; try discriminate.
    rewrite (He1 x y z E1), (He2 x y z Hxy). reflexivity.
Qed.

Lemma weak_order_on {A B : Type} (f : A -> B) (cmp : B -> B -> comparison) :
  weak_order cmp -> weak_order (cmp_on f cmp).
Proof.
  intros [Ha Ht He]. unfold cmp_on. split; eauto.
Qed.

Lemma weak_order_ext {A : Type} (c1 c2 : A -> A -> comparison) :
  (forall x y, c1 x y = c2 x y) -> weak_order c1 -> weak_order c2.
Proof.
  intros Hext [Ha Ht He]. split.
  - intros x y. rewrite <- !Hext. apply Ha.
  - intros x y z. rewrite <- !Hext. apply Ht.
  - intros x y z. rewrite <- !Hext. apply He.
Qed.

Lemma Z_compare_weak_order : weak_order Z.compare.
Proof.
  apply weak_order_Leibniz.
  - intros x y. apply Z.compare_antisym.
  - intros x y z. rewrite !Z.compare_lt_iff. lia.
  - intros x y. apply Z.compare_eq.
Qed.

Lemma ascii_compare_lt_trans (a b c : ascii) :
  Ascii.compare a b = Lt -> Ascii.compare b c = Lt -> Ascii.compare a c = Lt.
Proof.
  unfold Ascii.compare. rewrite !N.compare_lt_iff. lia.
Qed.

Lemma string_compare_lt_trans (x y z : string) :
  String.compare x y = Lt -> String.compare y z = Lt -> String.compare x z = Lt.
Proof.
  revert y z. induction x as [|a x IH]; intros [|b y] [|c z]; simpl;
    try discriminate; try reflexivity.
  destruct (Ascii.compare a b) eqn:Eab; try discriminate.
  - apply Ascii.compare_eq_iff in Eab. subst b.
    destruct (Ascii.compare a c); try discriminate; [apply IH | reflexivity].
  - intros _.
    destruct (Ascii.compare b c) eqn:Ebc; try discriminate.
    + apply Ascii.compare_eq_iff in Ebc. subst c. now rewrite Eab.
    + intros _. now rewrite (ascii_compare_lt_trans a b c Eab Ebc).
Qed.

Lemma string_compare_weak_order : weak_order String.compare.
Proof.
  apply weak_order_Leibniz.
  - intros x y. apply String.compare_antisym.
  - apply string_compare_lt_trans.
  - apply String.compare_eq_iff.
Qed.

Lemma lex_Eq (c1 c2 : comparison) : lex c1 c2 = Eq -> c1 = Eq /\ c2 = Eq.
Proof.
  destruct c1; simpl; intros H; try discriminate. now split.
Qed.

Lemma frame_tuple_compare_weak_order : weak_order frame_tuple_compare.
Proof.
  apply (weak_order_ext
           (lex_cmp (cmp_on (fun f : frame_tuple => fst (fst (fst f)))
                            String.compare)
              (lex_cmp (cmp_on (fun f : frame_tuple => snd (fst (fst f)))
                               String.compare)
                 (lex_cmp (cmp_on (fun f : frame_tuple => snd (fst f))
                                  Z.compare)
                          (cmp_on (fun f : frame_tuple => snd f) Z.compare))))).
  - intros [[[n1 f1] fl1] l1] [[[n2 f2] fl2] l2]. reflexivity.
  - repeat apply weak_order_lex; apply weak_order_on;
      first [apply string_compare_weak_order | apply Z_compare_weak_order].
Qed.

Lemma frame_tuple_compare_eq (a b : frame_tuple) :
  frame_tuple_compare a b = Eq -> a = b.
Proof.
  destruct a as [[[n1 f1] fl1] l1], b as [[[n2 f2] fl2] l2].
  unfold frame_tuple_compare. intros H.
  apply lex_Eq in H. destruct H as [H1 H].
  apply lex_Eq in H. destruct H as [H2 H].
  apply lex_Eq in H. destruct H as [H3 H4].
  apply String.compare_eq_iff in H1, H2. apply Z.compare_eq in H3, H4.
  congruence.
Qed.

Lemma frames_compare_eq (a b : list frame_tuple) :
  frames_compare a b = Eq -> a = b.
Proof.
  revert b. induction a as [|x a IH]; intros [|y b]; simpl;
    try discriminate; [reflexivity|].
  intros H. apply lex_Eq in H. destruct H as [H1 H2].
  apply frame_tuple_compare_eq in H1. apply IH in H2. congruence.
Qed.

Lemma frames_compare_weak_order : weak_order frames_compare.
Proof.
  destruct frame_tuple_compare_weak_order as [Ha Ht He].
  apply weak_order_Leibniz.
  - intros x. induction x as [|a x IH]; intros [|b y]; simpl; try reflexivity.
    rewrite (Ha a b), (IH y).
    destruct (frame_tuple_compare a b); reflexivity.
  - intros x. induction x as [|a x IH]; intros [|b y] [|c z]; simpl;
      try discriminate; try reflexivity.
    destruct (frame_tuple_compare a b) eqn:Eab; cbn [lex]; try discriminate.
    + apply frame_tuple_compare_eq in Eab. subst b.
      destruct (frame_tuple_compare a c); cbn [lex]; try discriminate;
        [apply IH | reflexivity].
    + intros _.
      destruct (frame_tuple_compare b c) eqn:Ebc; cbn [lex]; try discriminate.
      * apply frame_tuple_compare_eq in Ebc. subst c. now rewrite Eab.
      * intros _. now rewrite (Ht a b c Eab Ebc).
  - apply frames_compare_eq.
Qed.

Lemma Traceback_compare_weak_order : weak_order Traceback.compare.
Proof.
  exact (weak_order_on Traceback._frames frames_compare
           frames_compare_weak_order).
Qed.

Lemma Traceback_compare_eq (a b : Traceback.t) :
  Traceback.compare a b = Eq -> a = b.
Proof.
  destruct a as [fa], b as [fb]. unfold Traceback.compare. simpl.
  intros H. apply frames_compare_eq in H. now subst.
Qed.

Lemma Statistic_compare_weak_order : weak_order Statistic._sort_key_compare.
Proof.
  exact (weak_order_lex _ _
           (weak_order_on Statistic.size _ Z_compare_weak_order)
           (weak_order_lex _ _
              (weak_order_on Statistic.count _ Z_compare_weak_order)
              (weak_order_on Statistic.traceback _
                 Traceback_compare_weak_order))).
Qed.

Lemma Statistic_compare_eq (a b : Statistic.t) :
  Statistic._sort_key_compare a b = Eq -> a = b.
Proof.
  destruct a as [ta sa ca], b as [tb sb cb].
  unfold Statistic._sort_key_compare. simpl. intros H.
  apply lex_Eq in H. destruct H as [H1 H].
  apply lex_Eq in H. destruct H as [H2 H3].
  apply Z.compare_eq in H1, H2. apply Traceback_compare_eq in H3.
  congruence.
Qed.

Lemma StatisticDiff_compare_weak_order :
  weak_order StatisticDiff._sort_key_compare.
Proof.
  exact (weak_order_lex _ _
           (weak_order_on (fun d => Z.abs (StatisticDiff.size_diff d)) _
              Z_compare_weak_order)
           (weak_order_lex _ _
              (weak_order_on StatisticDiff.size _ Z_compare_weak_order)
              (weak_order_lex _ _
                 (weak_order_on (fun d => Z.abs (StatisticDiff.count_diff d)) _
                    Z_compare_weak_order)
                 (weak_order_lex _ _
                    (weak_order_on StatisticDiff.count _ Z_compare_weak_order)
                    (weak_order_on StatisticDiff.traceback _
                       Traceback_compare_weak_order))))).
Qed.

(** ** Sorting *)

Section SortedFacts.

Context {A : Type} (cmp : A -> A -> comparison) (Hcmp : weak_order cmp).

Lemma insert_desc_sorted (x : A) (l : list A) :
  StronglySorted (fun a b => cmp a b <> Lt) l ->
  StronglySorted (fun a b => cmp a b <> Lt)
                 (insert_desc (fun a b => is_lt (cmp a b)) x l).
Proof.
  induction 1 as [|y l Hs IH Hall]; simpl.
  - constructor; constructor.
  - destruct (cmp x y) eqn:Exy; cbn [is_lt].
    + constructor; [now constructor|].
      constructor; [congruence|].
      rewrite Forall_forall in *. intros z Hz.
      apply (weak_order_ge_trans cmp Hcmp x y z); [congruence | auto].
    + constructor; [exact IH|].
      rewrite Forall_forall in *. intros z Hz.
      apply (Permutation_in _ (insert_desc_perm _ x l)) in Hz.
      destruct Hz as [<-|Hz]; [|auto].
      rewrite (wo_antisym cmp Hcmp x y), Exy. discriminate.
    + constructor; [now constructor|].
      constructor; [congruence|].
      rewrite Forall_forall in *. intros z Hz.
      apply (weak_order_ge_trans cmp Hcmp x y z); [congruence | auto].
Qed.

Lemma sort_reverse_sorted (l : list A) :
  StronglySorted (fun a b => cmp a b <> Lt)
                 (sort_reverse (fun a b => is_lt (cmp a b)) l).
Proof.
  induction l as [|x l IH]; simpl; [constructor|].
  now apply insert_desc_sorted.
Qed.

(** Two lists sorted by an order whose [Eq] is equality are equal when one
    is a permutation of the other. *)
Lemma sorted_perm_eq (l1 l2 : list A) :
  (forall x y, cmp x y = Eq -> x = y) ->
  StronglySorted (fun a b => cmp a b <> Lt) l1 ->
  StronglySorted (fun a b => cmp a b <> Lt) l2 ->
  Permutation l1 l2 -> l1 = l2.
Proof.
  intros Heq Hs1. revert l2.
  induction Hs1 as [|x l1 Hs1 IH Hall1]; intros l2 Hs2 Hperm.
  - apply Permutation_nil in Hperm. now subst.
  - destruct Hs2 as [|y l2 Hs2 Hall2].
    + symmetry in Hperm. apply Permutation_nil in Hperm. discriminate.
    + assert (Hxy : x = y).
      { rewrite Forall_forall in Hall1, Hall2.
        assert (Hx : In x (y :: l2))
          by (apply (Permutation_in _ Hperm); now left).
        assert (Hy : In y (x :: l1))
          by (apply (Permutation_in _ (Permutation_sym Hperm)); now left).
        destruct Hx as [->|Hx]; [reflexivity|].
        destruct Hy as [->|Hy]; [reflexivity|].
        specialize (Hall1 y Hy). specialize (Hall2 x Hx).
        apply Heq. destruct (cmp x y) eqn:E; [reflexivity | congruence |].
        rewrite (wo_antisym cmp Hcmp x y), E in Hall2. now elim Hall2. }
      subst y. f_equal. apply IH; [exact Hs2|].
      now apply Permutation_cons_inv in Hperm.
Qed.

End SortedFacts.

(** ** What a grouping holds at a key *)

Lemma same_key_true (k k' : Traceback.t) : same_key k k' = true <-> k = k'.
Proof.
  unfold same_key. destruct (Traceback.eq_dec k k'); split; congruence.
Qed.

Lemma sum_list_cons (z : Z) (l : list Z) : sum_list (z :: l) = z + sum_list l.
Proof.
  reflexivity.
Qed.

Lemma adds_at_cons (k k0 : Traceback.t) (s0 : Z)
    (adds : list (Traceback.t * Z)) :
  adds_at k ((k0, s0) :: adds)
  = if Traceback.eq_dec k k0 then s0 :: adds_at k adds else adds_at k adds.
Proof.
  unfold adds_at, same_key. cbn [filter fst].
  destruct (Traceback.eq_dec k k0); reflexivity.
Qed.

Lemma stats_get_add (stats : group) (k k' : Traceback.t) (sz : Z) :
  stats_get (_add_to_stats stats k sz) k' =
  if Traceback.eq_dec k' k
  then Some match stats_get stats k with
            | Some st => Statistic.__init__ (Statistic.traceback st)
                           (Statistic.size st + sz) (Statistic.count st + 1)
            | None => Statistic.__init__ k sz 1
            end
  else stats_get stats k'.
Proof.
  unfold _add_to_stats, stats_set, stats_get.
  destruct (Traceback.eq_dec k' k) as [->|Hne].
  - destruct (dict_get Traceback.eq_dec stats k);
      now rewrite dict_get_set_same.
  - destruct (dict_get Traceback.eq_dec stats k);
      now rewrite dict_get_set_other.
Qed.

(** The statistic at [k] after a sequence of additions: the statistic that
    was there with the sizes at [k] added and counted, or a new one. *)
Lemma stats_get_apply_adds (adds : list (Traceback.t * Z)) :
  forall (stats : group) (k : Traceback.t),
  stats_get (apply_adds stats adds) k =
  match stats_get stats k with
  | Some st =>
      Some (Statistic.__init__ (Statistic.traceback st)
              (Statistic.size st + sum_list (adds_at k adds))
              (Statistic.count st + Z.of_nat (List.length (adds_at k adds))))
  | None =>
      match adds_at k adds with
      | [] => None
      | l => Some (Statistic.__init__ k (sum_list l) (Z.of_nat (List.length l)))
      end
  end.
Proof.
  induction adds as [|[k0 s0] adds IH]; intros stats k.
  - cbn. destruct (stats_get stats k) as [[tb sz c]|]; [|reflexivity].
    cbn. do 2 f_equal; lia.
  - change (apply_adds stats ((k0, s0) :: adds))
      with (apply_adds (_add_to_stats stats k0 s0) adds).
    rewrite IH, stats_get_add, adds_at_cons.
    destruct (Traceback.eq_dec k k0) as [->|Hne]; [|reflexivity].
    destruct (stats_get stats k0) as [[tb sz c]|];
      cbn [Statistic.traceback Statistic.size Statistic.count];
      rewrite sum_list_cons; cbn [List.length]; do 2 f_equal; lia.
Qed.

Lemma keys_carried_add (stats : group) (k : Traceback.t) (sz : Z) :
  keys_carried stats -> keys_carried (_add_to_stats stats k sz).
Proof.
  intros Hc. unfold _add_to_stats, stats_set, stats_get.
  assert (Hset : forall (d : group) st',
             keys_carried d -> Statistic.traceback st' = k ->
             keys_carried (dict_set Traceback.eq_dec d k st')).
  { intros d st'. induction d as [|[k1 s1] d IHd]; intros Hd Ht k2 s2; simpl.
    - intros [[= <- <-]|[]]. exact Ht.
    - destruct (Traceback.eq_dec k k1) as [->|Hne]; simpl.
      + intros [[= <- <-]|Hin]; [exact Ht|]. apply Hd. now right.
      + intros [[= <- <-]|Hin]; [apply Hd; now left|].
        apply IHd; [|exact Ht|exact Hin].
        intros k3 s3 H3. apply Hd. now right. }
  destruct (dict_get Traceback.eq_dec stats k) as [st|] eqn:E.
  - apply Hset; [exact Hc|]. cbn. apply Hc. now apply dict_get_In in E.
  - apply Hset; [exact Hc | reflexivity].
Qed.

Lemma keys_carried_apply_adds (adds : list (Traceback.t * Z)) (stats : group) :
  keys_carried stats -> keys_carried (apply_adds stats adds).
Proof.
  revert stats. induction adds as [|[k s] adds IH]; intros stats H;
    [exact H|].
  apply IH. now apply keys_carried_add.
Qed.

Lemma dict_In_get {K V : Type} (K_eq_dec : forall a b : K, {a = b} + {a <> b})
    (d : @dict K V) (k : K) (v : V) :
  NoDup (dict_keys d) -> In (k, v) d -> dict_get K_eq_dec d k = Some v.
Proof.
  induction d as [|[k' v'] d IH]; simpl; [tauto|].
  intros Hnd Hin. inversion Hnd as [|? ? Hnotin Hnd']; subst.
  destruct (K_eq_dec k k') as [->|Hne].
  - destruct Hin as [[= ->]|Hin]; [reflexivity|].
    exfalso. apply Hnotin. change k' with (fst (k', v)). now apply in_map.
  - destruct Hin as [[= -> ->]|Hin]; [congruence | auto].
Qed.

(** Two dicts with the same value at every key hold the same items. *)
Lemma dict_perm_of_get {K V : Type}
    (K_eq_dec : forall a b : K, {a = b} + {a <> b}) (d1 d2 : @dict K V) :
  NoDup (dict_keys d1) -> NoDup (dict_keys d2) ->
  (forall k, dict_get K_eq_dec d1 k = dict_get K_eq_dec d2 k) ->
  Permutation d1 d2.
Proof.
  intros H1 H2 Hget.
  apply NoDup_Permutation.
  - now apply NoDup_map_inv in H1.
  - now apply NoDup_map_inv in H2.
  - intros [k v]. split; intros Hin.
    + apply (dict_get_In K_eq_dec). rewrite <- Hget. now apply dict_In_get.
    + apply (dict_get_In K_eq_dec). rewrite Hget. now apply dict_In_get.
Qed.

Lemma adds_at_perm (k : Traceback.t) (a1 a2 : list (Traceback.t * Z)) :
  Permutation a1 a2 -> Permutation (adds_at k a1) (adds_at k a2).
Proof.
  intros H. unfold adds_at. apply Permutation_map. now apply filter_perm.
Qed.

Lemma apply_adds_perm (a1 a2 : list (Traceback.t * Z)) :
  Permutation a1 a2 ->
  Permutation (apply_adds [] a1) (apply_adds [] a2).
Proof.
  intros H.
  apply (dict_perm_of_get Traceback.eq_dec);
    try (apply apply_adds_NoDup; constructor).
  intros k. fold (stats_get (apply_adds [] a1) k).
  fold (stats_get (apply_adds [] a2) k).
  rewrite !stats_get_apply_adds. cbn [stats_get dict_get].
  pose proof (adds_at_perm k _ _ H) as Hp.
  destruct (adds_at k a1) as [|z1 l1] eqn:E1.
  - apply Permutation_nil in Hp. now rewrite Hp.
  - destruct (adds_at k a2) as [|z2 l2] eqn:E2.
    + symmetry in Hp. apply Permutation_nil in Hp. discriminate.
    + unfold sum_list. rewrite (sum_Z_perm _ _ _ Hp).
      now rewrite (Permutation_length Hp).
Qed.

Lemma group_adds_map (key_type : string) (traces : list trace_tuple)
    (adds : list (Traceback.t * Z)) :
  group_adds key_type traces = Some adds ->
  Forall2 (fun (t : trace_tuple) p =>
             group_key key_type (snd t) = Some (fst p) /\ snd p = fst t)
          traces adds.
Proof.
  revert adds. induction traces as [|[sz raw] traces IH]; intros adds.
  - intros [= <-]. constructor.
  - cbn [group_adds].
    destruct (group_key key_type raw) as [k|] eqn:Ek; [|discriminate].
    destruct (group_adds key_type traces) as [adds'|]; [|discriminate].
    intros [= <-]. constructor; [now split | now apply IH].
Qed.

Lemma group_adds_at (key_type : string) (traces : list trace_tuple)
    (adds : list (Traceback.t * Z)) (k : Traceback.t) :
  group_adds key_type traces = Some adds ->
  adds_at k adds = sizes_at_key key_type k traces.
Proof.
  intros H. apply group_adds_map in H.
  unfold adds_at, sizes_at_key.
  induction H as [|[sz raw] [k' s'] traces adds [Hk Hs] _ IH]; [reflexivity|].
  cbn [filter fst snd] in *. rewrite Hk. subst s'.
  destruct (same_key k k'); cbn [map fst snd]; now rewrite IH.
Qed.

Lemma cumulative_adds_at (key_type : string) (traces : list trace_tuple)
    (k : Traceback.t) :
  adds_at k (cumulative_adds key_type traces)
  = sizes_at_frame_key key_type k traces.
Proof.
  unfold adds_at, cumulative_adds, sizes_at_frame_key.
  induction traces as [|[sz raw] traces IH]; [reflexivity|].
  cbn [flat_map fst snd]. rewrite filter_app, map_app, IH. f_equal.
  clear IH. induction raw as [|f raw IHr]; [reflexivity|].
  cbn [map filter fst snd].
  destruct (same_key k (frame_key key_type f)); cbn [map snd];
    now rewrite IHr.
Qed.

Lemma group_adds_perm (key_type : string) (t1 t2 : list trace_tuple) :
  Permutation t1 t2 ->
  match group_adds key_type t1, group_adds key_type t2 with
  | Some a1, Some a2 => Permutation a1 a2
  | None, None => True
  | _, _ => False
  end.
Proof.
  induction 1 as [|[sz raw] t1 t2 Hp IH|[s1 r1] [s2 r2] t|t1 t2 t3 H1 IH1 H2 IH2].
  - constructor.
  - cbn [group_adds]. destruct (group_key key_type raw); [|exact I].
    destruct (group_adds key_type t1), (group_adds key_type t2); try exact IH.
    now constructor.
  - cbn [group_adds].
    destruct (group_key key_type r1), (group_key key_type r2); try exact I;
      destruct (group_adds key_type t); try exact I.
    apply perm_swap.
  - destruct (group_adds key_type t1), (group_adds key_type t2),
      (group_adds key_type t3); try tauto.
    etransitivity; eassumption.
Qed.

(** ** Statistics, key by key *)

Section StatisticsByKey.

Context {F : Type} {FO : FloatOps F}.

Lemma statistics_unscaled_eq (self : Snapshot.t) (key_type : string)
    (cumulative : bool) (adds : list (Traceback.t * Z)) :
  Snapshot.sample_rate self <= 1 ->
  valid_grouping key_type cumulative = true ->
  adds_of key_type cumulative (_Traces._traces (Snapshot.traces self))
  = Some adds ->
  Snapshot.statistics self key_type cumulative
  = Ok (sort_reverse (fun a b => is_lt (Statistic._sort_key_compare a b))
          (dict_values (apply_adds [] adds))).
Proof.
  intros Hr Hv Hadds. unfold Snapshot.statistics.
  rewrite group_by_valid by exact Hv. unfold adds_of in Hadds.
  rewrite Hadds. rewrite scale_heap_samples_unchanged by exact Hr.
  reflexivity.
Qed.

Lemma statistics_Ok_adds (self : Snapshot.t) (key_type : string)
    (cumulative : bool) (l : list Statistic.t) :
  Snapshot.statistics self key_type cumulative = Ok l ->
  valid_grouping key_type cumulative = true
  /\ exists adds,
       adds_of key_type cumulative (_Traces._traces (Snapshot.traces self))
       = Some adds.
Proof.
  intros H.
  destruct (valid_grouping key_type cumulative) eqn:Hv.
  - split; [reflexivity|]. unfold Snapshot.statistics in H.
    rewrite group_by_valid in H by exact Hv. fold (adds_of key_type cumulative
      (_Traces._traces (Snapshot.traces self))) in H.
    destruct (adds_of _ _ _) as [adds|]; [eauto | discriminate].
  - unfold Snapshot.statistics in H.
    rewrite group_by_invalid in H by exact Hv. discriminate.
Qed.

(** X1.  The list that [statistics] returns is in descending order of
    [(size, count, traceback)]: no statistic is below one that follows
    it. *)
Theorem statistics_sorted (self : Snapshot.t) (key_type : string)
    (cumulative : bool) (l : list Statistic.t) :
  Snapshot.statistics self key_type cumulative = Ok l ->
  StronglySorted Statistic_ge l.
Proof.
  unfold Snapshot.statistics.
  destruct (Snapshot._group_by self key_type cumulative) as [g|]; cbn [bind];
    [|discriminate].
  intros [= <-].
  apply (sort_reverse_sorted Statistic._sort_key_compare
           Statistic_compare_weak_order).
Qed.

(** X2.  The list that [compare_to] returns is in descending order of
    [(abs(size_diff), size, abs(count_diff), count, traceback)]. *)
Theorem compare_to_sorted (self old_snapshot : Snapshot.t)
    (key_type : string) (cumulative : bool) (l : list StatisticDiff.t) :
  Snapshot.compare_to self old_snapshot key_type cumulative = Ok l ->
  StronglySorted StatisticDiff_ge l.
Proof.
  unfold Snapshot.compare_to.
  destruct (Snapshot._group_by self key_type cumulative) as [g|]; cbn [bind];
    [|discriminate].
  destruct (Snapshot._group_by old_snapshot key_type cumulative) as [g'|];
    cbn [bind]; [|discriminate].
  intros [= <-].
  apply (sort_reverse_sorted StatisticDiff._sort_key_compare
           StatisticDiff_compare_weak_order).
Qed.

Lemma scale_heap_sample_traceback (self : Snapshot.t) (stat stat' : Statistic.t) :
  Snapshot._scale_heap_sample self stat = Ok stat' ->
  Statistic.traceback stat' = Statistic.traceback stat.
Proof.
  unfold Snapshot._scale_heap_sample.
  destruct (_ || _); [now intros [= <-]|].
  destruct (_ <=? _); [now intros [= <-]|].
  repeat match goal with
         | |- bind (raise_if_none ?e0 ?o) _ = Ok _ -> _ =>
             destruct o; cbn [raise_if_none bind]; [|discriminate]
         end.
  now intros [= <-].
Qed.

Lemma scale_heap_samples_carried (self : Snapshot.t) (stats stats' : group) :
  Snapshot._scale_heap_samples self stats = Ok stats' ->
  keys_carried stats -> keys_carried stats'.
Proof.
  revert stats'. induction stats as [|[tb stat] stats IH]; intros stats'.
  - intros [= <-] H. exact H.
  - cbn [Snapshot._scale_heap_samples].
    destruct (Snapshot._scale_heap_sample self stat) as [stat'|] eqn:E;
      cbn [bind]; [|discriminate].
    destruct (Snapshot._scale_heap_samples self stats) as [rest|]; cbn [bind];
      [|discriminate].
    intros [= <-] Hc k st [[= <- <-]|Hin].
    + rewrite (scale_heap_sample_traceback _ _ _ E). apply Hc. now left.
    + apply (IH rest eq_refl); [|exact Hin].
      intros k' st' H'. apply Hc. now right.
Qed.

Lemma group_by_carried (self : Snapshot.t) (key_type : string)
    (cumulative : bool) (g : group) :
  Snapshot._group_by self key_type cumulative = Ok g -> keys_carried g.
Proof.
  destruct (valid_grouping key_type cumulative) eqn:Hv.
  - rewrite group_by_valid by exact Hv.
    destruct (if cumulative then _ else _) as [adds|]; [|discriminate].
    intros H. apply (scale_heap_samples_carried _ _ _ H).
    apply keys_carried_apply_adds. intros k st [].
  - rewrite group_by_invalid by exact Hv. discriminate.
Qed.

Lemma keys_carried_values (g : group) :
  keys_carried g -> map Statistic.traceback (dict_values g) = dict_keys g.
Proof.
  induction g as [|[k st] g IH]; intros Hc; [reflexivity|].
  cbn. f_equal.
  - apply Hc. now left.
  - apply IH. intros k' st' H. apply Hc. now right.
Qed.

(** X3.  Whatever the key type, the mode and the sample rate, the
    statistics that [statistics] returns have tracebacks that differ from
    one another: the traces of one key are merged in one statistic. *)
Theorem statistics_distinct_tracebacks (self : Snapshot.t) (key_type : string)
    (cumulative : bool) (l : list Statistic.t) :
  Snapshot.statistics self key_type cumulative = Ok l ->
  NoDup (map Statistic.traceback l).
Proof.
  unfold Snapshot.statistics.
  destruct (Snapshot._group_by self key_type cumulative) as [g|] eqn:Hg;
    cbn [bind]; [|discriminate].
  intros [= <-].
  apply (Permutation_NoDup
           (l := map Statistic.traceback (dict_values g))).
  - apply Permutation_map. symmetry. apply sort_reverse_perm.
  - rewrite keys_carried_values by (now apply group_by_carried in Hg).
    now apply group_by_NoDup in Hg.
Qed.

Lemma In_apply_adds (adds : list (Traceback.t * Z)) (st : Statistic.t) :
  In st (dict_values (apply_adds [] adds)) <->
  adds_at (Statistic.traceback st) adds <> []
  /\ Statistic.size st = sum_list (adds_at (Statistic.traceback st) adds)
  /\ Statistic.count st
     = Z.of_nat (List.length (adds_at (Statistic.traceback st) adds)).
Proof.
  assert (Hnd : NoDup (dict_keys (apply_adds [] adds)))
    by (apply apply_adds_NoDup; constructor).
  assert (Hc : keys_carried (apply_adds [] adds))
    by (apply keys_carried_apply_adds; intros k s []).
  split.
  - intros Hin. unfold dict_values in Hin. apply in_map_iff in Hin.
    destruct Hin as ([k st'] & Heq & Hin). cbn in Heq. subst st'.
    pose proof (Hc _ _ Hin) as Hk.
    apply (dict_In_get Traceback.eq_dec) in Hin; [|exact Hnd].
    fold (stats_get (apply_adds [] adds) k) in Hin.
    rewrite stats_get_apply_adds in Hin. cbn [stats_get dict_get] in Hin.
    rewrite Hk. destruct (adds_at k adds) as [|z l0]; [discriminate|].
    injection Hin as <-. cbn. repeat split; try reflexivity. discriminate.
  - intros (Hne & Hs & Hn).
    pose proof (stats_get_apply_adds adds [] (Statistic.traceback st)) as Hget.
    cbn [stats_get dict_get] in Hget.
    destruct (adds_at (Statistic.traceback st) adds) as [|z l0] eqn:E;
      [congruence|].
    apply dict_get_In in Hget.
    replace (Statistic.__init__ (Statistic.traceback st) (sum_list (z :: l0))
               (Z.of_nat (List.length (z :: l0)))) with st in Hget
      by (destruct st; cbn in *; congruence).
    unfold dict_values. apply in_map_iff. now exists (Statistic.traceback st, st).
Qed.

Lemma group_adds_defined (key_type : string) (traces : list trace_tuple) :
  (key_type = "filename" -> forall t, In t traces -> snd t <> []) ->
  In key_type ["traceback"; "filename"; "lineno"] ->
  exists adds, group_adds key_type traces = Some adds.
Proof.
  intros Hne Hin.
  destruct (string_dec key_type "filename") as [E|E].
  - apply group_adds_nonempty. auto.
  - apply group_adds_total. simpl in Hin.
    destruct Hin as [H|[H|[H|[]]]]; subst; [now left | congruence | now right].
Qed.

(** X4.  Without sampling correction, the statistics that are not
    cumulative are, key by key, the sum and the number of the sizes of the
    traces that have this key: a statistic is returned exactly when its
    traceback is the key of a trace, its size the sum of the sizes of the
    traces of that key and its count their number. *)
Theorem statistics_by_key (self : Snapshot.t) (key_type : string) :
  Snapshot.sample_rate self <= 1 ->
  In key_type ["traceback"; "filename"; "lineno"] ->
  (key_type = "filename" ->
   forall t, In t (_Traces._traces (Snapshot.traces self)) -> snd t <> []) ->
  exists l,
    Snapshot.statistics self key_type false = Ok l
    /\ forall st,
         In st l <->
         let sizes := sizes_at_key key_type (Statistic.traceback st)
                        (_Traces._traces (Snapshot.traces self)) in
         sizes <> []
         /\ Statistic.size st = sum_list sizes
         /\ Statistic.count st = Z.of_nat (List.length sizes).
Proof.
  intros Hr Hin Hne.
  destruct (group_adds_defined key_type _ Hne Hin) as (adds & Hadds).
  assert (Hv : valid_grouping key_type false = true).
  { unfold valid_grouping. cbn [andb negb].
    rewrite andb_true_r. now apply str_in_In. }
  eexists. split; [now apply (statistics_unscaled_eq self _ _ adds)|].
  intros st. cbv zeta.
  rewrite <- (group_adds_at key_type _ adds _ Hadds).
  rewrite <- In_apply_adds. split; intros H.
  - now apply (Permutation_in _ (sort_reverse_perm _ _)) in H.
  - now apply (Permutation_in _ (Permutation_sym (sort_reverse_perm _ _))).
Qed.

(** X5.  Without sampling correction, the cumulative statistics are, key
    by key, the sum and the number of the sizes of the traces taken once for
    every frame that has this key. *)
Theorem cumulative_statistics_by_key (self : Snapshot.t) (key_type : string) :
  Snapshot.sample_rate self <= 1 ->
  In key_type ["filename"; "lineno"] ->
  exists l,
    Snapshot.statistics self key_type true = Ok l
    /\ forall st,
         In st l <->
         let sizes := sizes_at_frame_key key_type (Statistic.traceback st)
                        (_Traces._traces (Snapshot.traces self)) in
         sizes <> []
         /\ Statistic.size st = sum_list sizes
         /\ Statistic.count st = Z.of_nat (List.length sizes).
Proof.
  intros Hr Hin.
  assert (Hv : valid_grouping key_type true = true).
  { simpl in Hin. destruct Hin as [H|[H|[]]]; subst; reflexivity. }
  eexists. split; [now apply (statistics_unscaled_eq self _ _ _ Hr Hv eq_refl)|].
  intros st. cbv zeta.
  rewrite <- cumulative_adds_at.
  rewrite <- In_apply_adds. split; intros H.
  - now apply (Permutation_in _ (sort_reverse_perm _ _)) in H.
  - now apply (Permutation_in _ (Permutation_sym (sort_reverse_perm _ _))).
Qed.

(** X6.  Without sampling correction, [statistics] does not depend on the
    order of the traces in the snapshot: with the traces permuted it
    returns the same list, or raises the same exception. *)
Theorem statistics_order_independent (self : Snapshot.t)
    (traces : list trace_tuple) (key_type : string) (cumulative : bool) :
  Snapshot.sample_rate self <= 1 ->
  Permutation (_Traces._traces (Snapshot.traces self)) traces ->
  Snapshot.statistics (with_traces self traces) key_type cumulative
  = Snapshot.statistics self key_type cumulative.
Proof.
  intros Hr Hperm.
  destruct (valid_grouping key_type cumulative) eqn:Hv.
  - assert (Hadds :
      match adds_of key_type cumulative (_Traces._traces (Snapshot.traces self)),
            adds_of key_type cumulative traces with
      | Some a1, Some a2 => Permutation a1 a2
      | None, None => True
      | _, _ => False
      end).
    { unfold adds_of. destruct cumulative.
      - unfold cumulative_adds. now apply Permutation_flat_map.
      - now apply group_adds_perm. }
    destruct (adds_of key_type cumulative
                (_Traces._traces (Snapshot.traces self))) as [a1|] eqn:E1;
      destruct (adds_of key_type cumulative traces) as [a2|] eqn:E2;
      try contradiction.
    + rewrite (statistics_unscaled_eq self _ _ a1 Hr Hv E1).
      rewrite (statistics_unscaled_eq (with_traces self traces) _ _ a2 Hr Hv E2).
      f_equal.
      apply (sorted_perm_eq Statistic._sort_key_compare
               Statistic_compare_weak_order).
      * apply Statistic_compare_eq.
      * apply sort_reverse_sorted, Statistic_compare_weak_order.
      * apply sort_reverse_sorted, Statistic_compare_weak_order.
      * rewrite !sort_reverse_perm. unfold dict_values.
        apply Permutation_map. symmetry. now apply apply_adds_perm.
    + unfold Snapshot.statistics. rewrite !group_by_valid by exact Hv.
      unfold adds_of in E1, E2. cbn [with_traces Snapshot.__init__
        Snapshot.traces _Traces._traces]. now rewrite E1, E2.
  - unfold Snapshot.statistics. now rewrite !group_by_invalid by exact Hv.
Qed.

End StatisticsByKey.

(** ** Comparison, key by key *)

Lemma dict_pop_get_same {K V : Type}
    (K_eq_dec : forall a b : K, {a = b} + {a <> b}) (d : @dict K V) (k : K) :
  NoDup (dict_keys d) ->
  dict_get K_eq_dec (snd (dict_pop K_eq_dec d k)) k = None.
Proof.
  induction d as [|[k' v'] d IH]; simpl; [reflexivity|].
  intros Hnd. inversion Hnd as [|? ? Hnotin Hnd']; subst.
  destruct (K_eq_dec k k') as [->|Hne]; simpl.
  - now apply dict_get_None.
  - specialize (IH Hnd').
    destruct (dict_pop K_eq_dec d k) as [r d'']. simpl in *.
    destruct (K_eq_dec k k'); [contradiction | exact IH].
Qed.

Lemma dict_pop_sum {K V : Type}
    (K_eq_dec : forall a b : K, {a = b} + {a <> b}) (f : V -> Z)
    (d : @dict K V) (k : K) :
  sum_Z f (dict_values (snd (dict_pop K_eq_dec d k)))
  = sum_Z f (dict_values d)
    - match fst (dict_pop K_eq_dec d k) with
      | Some v => f v
      | None => 0
      end.
Proof.
  unfold dict_values, sum_Z.
  induction d as [|[k' v'] d IH]; simpl; [reflexivity|].
  destruct (K_eq_dec k k') as [->|Hne]; simpl; [lia|].
  destruct (dict_pop K_eq_dec d k) as [r d'']. simpl in *. rewrite IH. lia.
Qed.

Lemma compare_old_items_none (tb : Traceback.t) (old_items : group) :
  stats_get old_items tb = None ->
  filter (has_traceback tb) (_compare_old_items old_items) = [].
Proof.
  intros H. apply dict_get_None in H. unfold _compare_old_items.
  induction old_items as [|[k s] old_items IH]; [reflexivity|].
  cbn [map filter]. unfold has_traceback at 1. cbn [StatisticDiff.traceback].
  destruct (Traceback.eq_dec tb k) as [->|Hne].
  - exfalso. apply H. now left.
  - apply IH. intros Hin. apply H. now right.
Qed.

(** What [_compare_grouped_stats] emits at a traceback. *)
Lemma compare_grouped_at (old_group new_group : group) (tb : Traceback.t) :
  NoDup (dict_keys old_group) -> NoDup (dict_keys new_group) ->
  filter (has_traceback tb) (_compare_grouped_stats old_group new_group)
  = diff_at new_group old_group tb.
Proof.
  intros Hold Hnew. unfold diff_at.
  destruct (stats_get new_group tb) as [stat|] eqn:En.
  - (* the key is in the new grouping: find its item *)
    unfold _compare_grouped_stats.
    revert old_group Hold.
    induction new_group as [|[k st] new_group IH]; intros old_group Hold;
      [discriminate|].
    inversion Hnew as [|? ? Hnotin Hnew']; subst.
    cbn [_compare_new_items]. unfold stats_get in En. cbn [dict_get] in En.
    pose proof (dict_pop_fst Traceback.eq_dec old_group k) as Hfst.
    pose proof (dict_pop_NoDup Traceback.eq_dec old_group k Hold) as Hnd.
    pose proof (dict_pop_get_same Traceback.eq_dec old_group k Hold) as Hsame.
    pose proof (dict_pop_get_other Traceback.eq_dec old_group k tb) as Hother.
    unfold stats_pop.
    destruct (dict_pop Traceback.eq_dec old_group k) as [previous old1].
    cbn [fst snd] in *.
    destruct (Traceback.eq_dec tb k) as [->|Hne].
    + injection En as ->.
      destruct (compare_new_items_other k new_group old1 Hnotin)
        as (H1 & H2 & _).
      destruct (_compare_new_items old1 new_group) as [statistics old2].
      cbn [fst snd] in *.
      rewrite filter_app.
      rewrite compare_old_items_none by (rewrite H2; exact Hsame).
      rewrite app_nil_r. cbn [filter]. rewrite H1.
      unfold stats_get. rewrite <- Hfst.
      destruct previous; unfold has_traceback; cbn [StatisticDiff.traceback];
        destruct (Traceback.eq_dec k k); congruence.
    + specialize (IH Hnew' En old1 Hnd).
      destruct (_compare_new_items old1 new_group) as [statistics old2].
      rewrite filter_app in *. cbn [filter].
      replace (has_traceback tb _) with false.
      * rewrite IH. unfold stats_get. now rewrite (Hother Hne).
      * destruct previous; unfold has_traceback;
          cbn [StatisticDiff.traceback];
          destruct (Traceback.eq_dec tb k); congruence.
  - destruct (stats_get old_group tb) as [previous|] eqn:Eo.
    + now apply compare_grouped_old_only.
    + apply dict_get_None in En.
      destruct (compare_new_items_other tb new_group old_group En)
        as (H1 & H2 & _).
      unfold _compare_grouped_stats.
      destruct (_compare_new_items old_group new_group) as [statistics old'].
      cbn [fst snd] in *.
      rewrite filter_app, H1. cbn [app].
      apply compare_old_items_none. congruence.
Qed.

Lemma has_traceback_self (d : StatisticDiff.t) :
  has_traceback (StatisticDiff.traceback d) d = true.
Proof.
  unfold has_traceback.
  destruct (Traceback.eq_dec _ _); congruence.
Qed.

Lemma NoDup_map_of_filter {A B : Type} (f : A -> B) (p : B -> A -> bool)
    (l : list A) :
  (forall x, p (f x) x = true) ->
  (forall b x, p b x = true -> f x = b) ->
  (forall b, (List.length (filter (p b) l) <= 1)%nat) ->
  NoDup (map f l).
Proof.
  intros Hrefl Hp. induction l as [|x l IH]; intros Hlen; [constructor|].
  cbn [map]. constructor.
  - intros Hin. apply in_map_iff in Hin. destruct Hin as (y & Hy & Hin).
    specialize (Hlen (f x)). cbn [filter] in Hlen.
    rewrite (Hrefl x) in Hlen. cbn [List.length] in Hlen.
    assert (Hy' : In y (filter (p (f x)) l)).
    { apply filter_In. split; [exact Hin|]. rewrite <- Hy. apply Hrefl. }
    destruct (filter (p (f x)) l); [destruct Hy' | cbn in Hlen; lia].
  - apply IH. intros b. specialize (Hlen b). cbn [filter] in Hlen.
    destruct (p b x); cbn [List.length] in Hlen; lia.
Qed.

Lemma compare_new_items_sums (new_items : list (Traceback.t * Statistic.t)) :
  forall old_group : group,
  let r := _compare_new_items old_group new_items in
  sum_Z StatisticDiff.size (fst r) = total_size (dict_values new_items)
  /\ sum_Z StatisticDiff.count (fst r) = total_count (dict_values new_items)
  /\ sum_Z StatisticDiff.size_diff (fst r)
       - total_size (dict_values (snd r))
     = total_size (dict_values new_items) - total_size (dict_values old_group)
  /\ sum_Z StatisticDiff.count_diff (fst r)
       - total_count (dict_values (snd r))
     = total_count (dict_values new_items)
       - total_count (dict_values old_group).
Proof.
  induction new_items as [|[k st] new_items IH]; intros old_group r.
  - subst r. cbn. repeat split; lia.
  - subst r. cbn [_compare_new_items].
    pose proof (dict_pop_sum Traceback.eq_dec Statistic.size old_group k) as Hs.
    pose proof (dict_pop_sum Traceback.eq_dec Statistic.count old_group k) as Hc.
    unfold stats_pop.
    destruct (dict_pop Traceback.eq_dec old_group k) as [previous old1].
    cbn [fst snd] in Hs, Hc.
    specialize (IH old1). cbv zeta in IH.
    destruct (_compare_new_items old1 new_items) as [statistics old2].
    cbn [fst snd] in *. destruct IH as (I1 & I2 & I3 & I4).
    unfold total_size, total_count in *.
    cbn [dict_values map snd sum_Z fold_right].
    unfold sum_Z, dict_values in *.
    destruct previous; cbn [StatisticDiff.size StatisticDiff.count
      StatisticDiff.size_diff StatisticDiff.count_diff];
      repeat split; lia.
Qed.

Lemma compare_old_items_sums (old_items : group) :
  sum_Z StatisticDiff.size (_compare_old_items old_items) = 0
  /\ sum_Z StatisticDiff.count (_compare_old_items old_items) = 0
  /\ sum_Z StatisticDiff.size_diff (_compare_old_items old_items)
     = - total_size (dict_values old_items)
  /\ sum_Z StatisticDiff.count_diff (_compare_old_items old_items)
     = - total_count (dict_values old_items).
Proof.
  unfold _compare_old_items, total_size, total_count, dict_values, sum_Z.
  induction old_items as [|[k st] old_items (I1 & I2 & I3 & I4)];
    cbn; repeat split; lia.
Qed.

Section CompareByKey.

Context {F : Type} {FO : FloatOps F}.

Lemma compare_sorted_at (old_group new_group : group) (tb : Traceback.t) :
  NoDup (dict_keys old_group) -> NoDup (dict_keys new_group) ->
  filter (has_traceback tb)
    (sort_reverse (fun a b => is_lt (StatisticDiff._sort_key_compare a b))
       (_compare_grouped_stats old_group new_group))
  = diff_at new_group old_group tb.
Proof.
  intros Hold Hnew.
  assert (Hlen1 : (List.length (diff_at new_group old_group tb) <= 1)%nat).
  { unfold diff_at. destruct (stats_get new_group tb), (stats_get old_group tb);
      cbn; lia. }
  pose proof (compare_grouped_at old_group new_group tb Hold Hnew) as Hat.
  pose proof (filter_perm (has_traceback tb) _ _
                (sort_reverse_perm
                   (fun a b => is_lt (StatisticDiff._sort_key_compare a b))
                   (_compare_grouped_stats old_group new_group))) as Hp.
  rewrite Hat in Hp.
  destruct (diff_at new_group old_group tb) as [|d [|d' rest]].
  - apply Permutation_sym, Permutation_nil in Hp. exact Hp.
  - apply Permutation_sym, Permutation_length_1_inv in Hp. exact Hp.
  - cbn in Hlen1. lia.
Qed.

(** X7.  [compare_to], key by key: at every traceback the result holds what
    the two groupings give there, one [StatisticDiff] when the traceback is a
    key of either: the new size and count with the differences new minus old
    when both have it, the new size and count as differences when only the
    new one has it, zeros and the old values negated when only the old one
    has it. *)
Theorem compare_to_by_key (self old_snapshot : Snapshot.t)
    (key_type : string) (cumulative : bool) (new_group old_group : group) :
  Snapshot._group_by self key_type cumulative = Ok new_group ->
  Snapshot._group_by old_snapshot key_type cumulative = Ok old_group ->
  exists statistics,
    Snapshot.compare_to self old_snapshot key_type cumulative = Ok statistics
    /\ forall tb,
         filter (has_traceback tb) statistics = diff_at new_group old_group tb.
Proof.
  intros Hnew Hold. unfold Snapshot.compare_to. rewrite Hnew, Hold.
  cbn [bind]. eexists. split; [reflexivity|]. intros tb.
  apply compare_sorted_at.
  - exact (group_by_NoDup _ _ _ _ Hold).
  - exact (group_by_NoDup _ _ _ _ Hnew).
Qed.

Lemma compare_to_Ok_inv (self old_snapshot : Snapshot.t)
    (key_type : string) (cumulative : bool) (l : list StatisticDiff.t) :
  Snapshot.compare_to self old_snapshot key_type cumulative = Ok l ->
  exists new_group old_group,
    Snapshot._group_by self key_type cumulative = Ok new_group
    /\ Snapshot._group_by old_snapshot key_type cumulative = Ok old_group
    /\ forall tb,
         filter (has_traceback tb) l = diff_at new_group old_group tb.
Proof.
  intros H. unfold Snapshot.compare_to in H.
  destruct (Snapshot._group_by self key_type cumulative) as [g|] eqn:Hg;
    cbn [bind] in H; [|discriminate].
  destruct (Snapshot._group_by old_snapshot key_type cumulative) as [g'|]
    eqn:Hg'; cbn [bind] in H; [|discriminate].
  injection H as <-.
  exists g, g'. repeat split. intros tb. apply compare_sorted_at.
  - exact (group_by_NoDup _ _ _ _ Hg').
  - exact (group_by_NoDup _ _ _ _ Hg).
Qed.

(** X8.  The differences that [compare_to] returns have tracebacks that
    differ from one another, and these are the keys of the two groupings. *)
Theorem compare_to_tracebacks (self old_snapshot : Snapshot.t)
    (key_type : string) (cumulative : bool) (new_group old_group : group)
    (l : list StatisticDiff.t) :
  Snapshot._group_by self key_type cumulative = Ok new_group ->
  Snapshot._group_by old_snapshot key_type cumulative = Ok old_group ->
  Snapshot.compare_to self old_snapshot key_type cumulative = Ok l ->
  NoDup (map StatisticDiff.traceback l)
  /\ forall tb,
       In tb (map StatisticDiff.traceback l) <->
       In tb (dict_keys new_group) \/ In tb (dict_keys old_group).
Proof.
  intros Hnew Hold Hl.
  destruct (compare_to_Ok_inv _ _ _ _ _ Hl) as (g & g' & Hg & Hg' & Hat).
  rewrite Hnew in Hg. injection Hg as <-.
  rewrite Hold in Hg'. injection Hg' as <-.
  split.
  - apply (NoDup_map_of_filter StatisticDiff.traceback has_traceback).
    + apply has_traceback_self.
    + intros b x H. unfold has_traceback in H.
      destruct (Traceback.eq_dec b (StatisticDiff.traceback x)); congruence.
    + intros tb. rewrite Hat. unfold diff_at.
      destruct (stats_get new_group tb), (stats_get old_group tb); cbn; lia.
  - intros tb.
    assert (Hin : In tb (map StatisticDiff.traceback l) <->
                  filter (has_traceback tb) l <> []).
    { split.
      - intros H. apply in_map_iff in H. destruct H as (d & Hd & Hin).
        intros E.
        assert (Hd' : In d (filter (has_traceback tb) l)).
        { apply filter_In. split; [exact Hin|]. subst tb.
          apply has_traceback_self. }
        rewrite E in Hd'. destruct Hd'.
      - intros H. destruct (filter (has_traceback tb) l) as [|d rest] eqn:E;
          [congruence|].
        assert (Hd : In d (filter (has_traceback tb) l))
          by (rewrite E; now left).
        apply filter_In in Hd. destruct Hd as [Hd Ht].
        apply in_map_iff. exists d. split; [|exact Hd].
        unfold has_traceback in Ht.
        destruct (Traceback.eq_dec tb (StatisticDiff.traceback d)); congruence. }
    assert (Hkey : forall g : group,
               In tb (dict_keys g) <-> stats_get g tb <> None).
    { intros g. pose proof (dict_get_None Traceback.eq_dec g tb) as Hn.
      fold (stats_get g tb) in Hn.
      destruct (in_dec Traceback.eq_dec tb (dict_keys g)) as [Hi|Hi].
      - split; [|tauto]. intros _ E. apply Hn in E. contradiction.
      - split; [tauto|]. intros H. exfalso. apply H. now apply Hn. }
    rewrite Hin, Hat, !Hkey. unfold diff_at.
    destruct (stats_get new_group tb), (stats_get old_group tb);
      split; intros H;
      first [ discriminate | left; discriminate | right; discriminate
            | congruence | destruct H as [H|H]; congruence ].
Qed.

(** X9.  A snapshot compared to itself shows no change: every difference
    that [compare_to] returns has [size_diff = 0] and [count_diff = 0]. *)
Theorem compare_to_self (self : Snapshot.t) (key_type : string)
    (cumulative : bool) (l : list StatisticDiff.t) :
  Snapshot.compare_to self self key_type cumulative = Ok l ->
  forall d, In d l ->
    StatisticDiff.size_diff d = 0 /\ StatisticDiff.count_diff d = 0.
Proof.
  intros Hl d Hd.
  destruct (compare_to_Ok_inv _ _ _ _ _ Hl) as (g & g' & Hg & Hg' & Hat).
  rewrite Hg in Hg'. injection Hg' as <-.
  assert (Hin : In d (filter (has_traceback (StatisticDiff.traceback d)) l)).
  { apply filter_In. split; [exact Hd | apply has_traceback_self]. }
  rewrite Hat in Hin. unfold diff_at in Hin.
  destruct (stats_get g (StatisticDiff.traceback d)); [|destruct Hin].
  destruct Hin as [<-|[]]. cbn. split; lia.
Qed.

(** X10.  Comparing the other way round negates the differences: for every
    difference of [a.compare_to(b)] there is one of [b.compare_to(a)] at the
    same traceback, with the differences negated, whose size and count are
    those of the other side. *)
Theorem compare_to_antisymmetric (a b : Snapshot.t) (key_type : string)
    (cumulative : bool) (l1 l2 : list StatisticDiff.t) :
  Snapshot.compare_to a b key_type cumulative = Ok l1 ->
  Snapshot.compare_to b a key_type cumulative = Ok l2 ->
  forall d1, In d1 l1 ->
    exists d2,
      In d2 l2
      /\ StatisticDiff.traceback d2 = StatisticDiff.traceback d1
      /\ StatisticDiff.size_diff d2 = - StatisticDiff.size_diff d1
      /\ StatisticDiff.count_diff d2 = - StatisticDiff.count_diff d1
      /\ StatisticDiff.size d2
         = StatisticDiff.size d1 - StatisticDiff.size_diff d1
      /\ StatisticDiff.count d2
         = StatisticDiff.count d1 - StatisticDiff.count_diff d1.
Proof.
  intros H1 H2 d1 Hd1.
  destruct (compare_to_Ok_inv _ _ _ _ _ H1) as (ga & gb & Hga & Hgb & Hat1).
  destruct (compare_to_Ok_inv _ _ _ _ _ H2) as (gb' & ga' & Hgb' & Hga' & Hat2).
  rewrite Hga in Hga'. injection Hga' as <-.
  rewrite Hgb in Hgb'. injection Hgb' as <-.
  remember (StatisticDiff.traceback d1) as tb eqn:Etb.
  assert (Hin : In d1 (filter (has_traceback tb) l1)).
  { apply filter_In. split; [exact Hd1 | subst tb; apply has_traceback_self]. }
  rewrite Hat1 in Hin.
  assert (Hsub : forall d2, In d2 (diff_at gb ga tb) -> In d2 l2).
  { intros d2 Hd2. rewrite <- Hat2 in Hd2. now apply filter_In in Hd2. }
  unfold diff_at in Hin, Hsub.
  destruct (stats_get ga tb) as [sa|], (stats_get gb tb) as [sb|];
    try (destruct Hin as [Hd|[]]); try destruct Hin; subst d1;
    eexists; (split; [apply Hsub; left; reflexivity|]); cbn;
    repeat split; first [reflexivity | lia].
Qed.

(** X11.  The differences add up: over the result of [compare_to], the
    sizes (counts) sum to the total size (count) of the new grouping, and the
    size (count) differences to the total of the new grouping less that of
    the old one. *)
Theorem compare_to_totals (self old_snapshot : Snapshot.t)
    (key_type : string) (cumulative : bool) (new_group old_group : group)
    (l : list StatisticDiff.t) :
  Snapshot._group_by self key_type cumulative = Ok new_group ->
  Snapshot._group_by old_snapshot key_type cumulative = Ok old_group ->
  Snapshot.compare_to self old_snapshot key_type cumulative = Ok l ->
  sum_Z StatisticDiff.size l = total_size (dict_values new_group)
  /\ sum_Z StatisticDiff.count l = total_count (dict_values new_group)
  /\ sum_Z StatisticDiff.size_diff l
     = total_size (dict_values new_group) - total_size (dict_values old_group)
  /\ sum_Z StatisticDiff.count_diff l
     = total_count (dict_values new_group)
       - total_count (dict_values old_group).
Proof.
  intros Hnew Hold Hl. unfold Snapshot.compare_to in Hl.
  rewrite Hnew, Hold in Hl. injection Hl as <-.
  rewrite !(sum_Z_perm _ _ _ (sort_reverse_perm _ _)).
  unfold _compare_grouped_stats.
  pose proof (compare_new_items_sums new_group old_group) as Hn.
  cbv zeta in Hn.
  destruct (_compare_new_items old_group new_group) as [statistics old'].
  cbn [fst snd] in Hn. destruct Hn as (N1 & N2 & N3 & N4).
  destruct (compare_old_items_sums old') as (O1 & O2 & O3 & O4).
  rewrite !sum_Z_app. repeat split; lia.
Qed.

End CompareByKey.

(** ** Filtering, trace by trace *)

Lemma py_any_pure {A : Type} (p : A -> result bool) (q : A -> bool)
    (l : list A) :
  (forall x, In x l -> p x = Ok (q x)) -> py_any p l = Ok (existsb q l).
Proof.
  induction l as [|x l IH]; intros Hp; [reflexivity|].
  cbn [py_any existsb]. rewrite (Hp x) by now left. cbn [bind].
  destruct (q x); [reflexivity|].
  apply IH. intros y Hy. apply Hp. now right.
Qed.

Lemma existsb_filter {A : Type} (p g : A -> bool) (l : list A) :
  existsb g (filter p l) = existsb (fun x => p x && g x) l.
Proof.
  induction l as [|x l IH]; [reflexivity|].
  cbn [filter existsb]. destruct (p x); cbn [existsb andb]; now rewrite IH.
Qed.

Lemma existsb_ext {A : Type} (p q : A -> bool) (l : list A) :
  (forall x, p x = q x) -> existsb p l = existsb q l.
Proof.
  intros H. induction l as [|x l IH]; [reflexivity|].
  cbn [existsb]. now rewrite H, IH.
Qed.

Lemma filter_nil_existsb {A : Type} (p : A -> bool) (l : list A) :
  existsb p l = match filter p l with [] => false | _ :: _ => true end.
Proof.
  induction l as [|x l IH]; [reflexivity|].
  cbn [filter existsb]. destruct (p x); [reflexivity | exact IH].
Qed.

Lemma existsb_perm {A : Type} (p : A -> bool) (l1 l2 : list A) :
  Permutation l1 l2 -> existsb p l1 = existsb p l2.
Proof.
  induction 1; cbn [existsb]; try congruence.
  - destruct (p x), (p y); reflexivity.
Qed.

Lemma py_filter_Ok {A : Type} (p : A -> result bool) (l r : list A) :
  py_filter p l = Ok r ->
  r = filter (fun x => match p x with Ok true => true | _ => false end) l
  /\ forall x, In x r -> p x = Ok true.
Proof.
  revert r. induction l as [|x l IH]; intros r.
  - intros [= <-]. split; [reflexivity | intros x []].
  - cbn [py_filter filter].
    destruct (p x) as [b|] eqn:E; cbn [bind]; [|discriminate].
    destruct (py_filter p l) as [rest|]; cbn [bind]; [|discriminate].
    intros [= <-]. destruct (IH rest eq_refl) as [-> Hall].
    destruct b; split; try reflexivity.
    + intros y [<-|Hy]; [exact E | now apply Hall].
    + exact Hall.
Qed.

Lemma py_filter_again {A : Type} (p : A -> result bool) (l r : list A) :
  py_filter p l = Ok r -> py_filter p r = Ok r.
Proof.
  intros H. apply py_filter_Ok in H. destruct H as [_ Hall].
  rewrite (py_filter_pure p (fun _ => true)) by exact Hall.
  now rewrite filter_true.
Qed.

Section FilterTraces.

Context {P : PathOps}.

Lemma filter_trace_survives (filters : list Filter.t) (trace : trace_tuple) :
  snd trace <> [] ->
  Snapshot._filter_trace
    (filter Filter.inclusive filters)
    (filter (fun f => negb (Filter.inclusive f)) filters) trace
  = Ok (survives filters (snd trace)).
Proof.
  intros Hne. unfold Snapshot._filter_trace, survives.
  rewrite (py_any_pure _
             (fun f => xorb (raw_match f (snd trace))
                            (negb (Filter.inclusive f))))
    by (intros f _; apply match_traceback_nonempty; now left).
  rewrite (py_any_pure
             (fun tf => b <- Filter._match_traceback tf (snd trace) ;;
                        Ok (negb b))
             (fun f => negb (xorb (raw_match f (snd trace))
                                  (negb (Filter.inclusive f)))))
    by (intros f _; rewrite match_traceback_nonempty by (now left);
        reflexivity).
  rewrite !existsb_filter.
  rewrite (filter_nil_existsb Filter.inclusive filters).
  rewrite (existsb_ext (fun f => Filter.inclusive f
                         && xorb (raw_match f (snd trace))
                                 (negb (Filter.inclusive f)))
             (fun f => Filter.inclusive f && raw_match f (snd trace)))
    by (intros f; destruct (Filter.inclusive f), (raw_match f (snd trace));
        reflexivity).
  rewrite (existsb_ext (fun f => negb (Filter.inclusive f)
                         && negb (xorb (raw_match f (snd trace))
                                       (negb (Filter.inclusive f))))
             (fun f => negb (Filter.inclusive f) && raw_match f (snd trace)))
    by (intros f; destruct (Filter.inclusive f), (raw_match f (snd trace));
        reflexivity).
  pose proof (filter_nil_existsb (fun f => negb (Filter.inclusive f)) filters)
    as Hex.
  assert (Hnone : filter (fun f => negb (Filter.inclusive f)) filters = [] ->
                  existsb (fun f => negb (Filter.inclusive f)
                                    && raw_match f (snd trace)) filters
                  = false).
  { intros E. rewrite <- existsb_filter, E. reflexivity. }
  destruct (filter Filter.inclusive filters) as [|fi incl];
    destruct (filter (fun f => negb (Filter.inclusive f)) filters)
      as [|fe excl];
    cbn [bind negb orb];
    try rewrite (Hnone eq_refl);
    repeat match goal with
           | |- context [existsb ?g filters] =>
               destruct (existsb g filters); cbn [bind negb orb andb]
           end; reflexivity.
Qed.

Lemma filter_traces_formula (self : Snapshot.t) (filters : list Filter.t) :
  (forall t, In t (_Traces._traces (Snapshot.traces self)) -> snd t <> []) ->
  Snapshot.filter_traces self (Iterable filters)
  = Ok (with_traces self
          (filter (fun t => survives filters (snd t))
                  (_Traces._traces (Snapshot.traces self)))).
Proof.
  intros Hne. unfold Snapshot.filter_traces, with_traces.
  destruct filters as [|f0 filters].
  - cbn [bind]. unfold survives. cbn [existsb negb orb andb].
    now rewrite filter_true.
  - rewrite split_filters_spec. cbn [app]. cbv beta iota.
    rewrite (py_filter_pure (A := trace_tuple) _
               (fun t => survives (f0 :: filters) (snd t)));
      [reflexivity|].
    intros t Ht. apply filter_trace_survives. now apply Hne.
Qed.

(** X12.  [filter_traces] selects: the snapshot it returns has the
    traceback limit and the sample rate of the receiver, and its traces are
    the traces of the receiver that pass a test, in their order. *)
Theorem filter_traces_selects (self s : Snapshot.t) (filters : list Filter.t) :
  Snapshot.filter_traces self (Iterable filters) = Ok s ->
  Snapshot.traceback_limit s = Snapshot.traceback_limit self
  /\ Snapshot.sample_rate s = Snapshot.sample_rate self
  /\ exists keep : trace_tuple -> bool,
       _Traces._traces (Snapshot.traces s)
       = filter keep (_Traces._traces (Snapshot.traces self)).
Proof.
  unfold Snapshot.filter_traces.
  destruct filters as [|f0 filters]; cbn [bind].
  - intros [= <-]. cbn. repeat split.
    exists (fun _ => true). now rewrite filter_true.
  - destruct (Snapshot._split_filters (f0 :: filters) [] []) as [incl excl].
    destruct (py_filter _ _) as [r|] eqn:E; cbn [bind]; [|discriminate].
    intros [= <-]. cbn. repeat split.
    apply py_filter_Ok in E. destruct E as [-> _]. eauto.
Qed.

(** X13.  Filtering twice is filtering once: applied to its own result,
    with the same filters, [filter_traces] returns that result. *)
Theorem filter_traces_idempotent (self s : Snapshot.t)
    (filters : list Filter.t) :
  Snapshot.filter_traces self (Iterable filters) = Ok s ->
  Snapshot.filter_traces s (Iterable filters) = Ok s.
Proof.
  unfold Snapshot.filter_traces.
  destruct filters as [|f0 filters]; cbn [bind].
  - intros [= <-]. reflexivity.
  - destruct (Snapshot._split_filters (f0 :: filters) [] []) as [incl excl].
    destruct (py_filter _ _) as [r|] eqn:E; cbn [bind]; [|discriminate].
    intros [= <-]. cbn [Snapshot.traces Snapshot.__init__ _Traces._traces].
    rewrite (py_filter_again _ _ _ E). reflexivity.
Qed.

(** X14.  On a snapshot without empty traceback, [filter_traces] keeps
    exactly the traces for which some inclusive filter of the list matches
    (if the list has an inclusive filter) and no exclusive filter matches; a
    filter on one frame matches by item 0 of the raw traceback, a filter with
    [all_frames] by any frame. *)
Theorem filter_traces_survivors (self : Snapshot.t) (filters : list Filter.t) :
  (forall t, In t (_Traces._traces (Snapshot.traces self)) -> snd t <> []) ->
  exists s,
    Snapshot.filter_traces self (Iterable filters) = Ok s
    /\ _Traces._traces (Snapshot.traces s)
       = filter (fun t => survives filters (snd t))
                (_Traces._traces (Snapshot.traces self)).
Proof.
  intros Hne. eexists. split; [now apply filter_traces_formula | reflexivity].
Qed.

Lemma survives_perm (f1 f2 : list Filter.t) (raw : list frame_tuple) :
  Permutation f1 f2 -> survives f1 raw = survives f2 raw.
Proof.
  intros H. unfold survives.
  now rewrite !(existsb_perm _ _ _ H).
Qed.

(** X15.  On a snapshot without empty traceback, the order of the filters
    in the list does not matter to [filter_traces]. *)
Theorem filter_traces_order_independent (self : Snapshot.t)
    (filters filters' : list Filter.t) :
  (forall t, In t (_Traces._traces (Snapshot.traces self)) -> snd t <> []) ->
  Permutation filters filters' ->
  Snapshot.filter_traces self (Iterable filters')
  = Snapshot.filter_traces self (Iterable filters).
Proof.
  intros Hne Hperm. rewrite !filter_traces_formula by exact Hne.
  do 2 f_equal. apply filter_ext. intros t. symmetry.
  now apply survives_perm.
Qed.

(** X16.  Exclusive filters can be applied one call after the other: on a
    snapshot without empty traceback, filtering by a list and then by a list
    of exclusive filters is filtering by the two lists at once. *)
Theorem filter_traces_then_exclusive (self : Snapshot.t)
    (filters exclusive : list Filter.t) :
  (forall t, In t (_Traces._traces (Snapshot.traces self)) -> snd t <> []) ->
  (forall f, In f exclusive -> Filter.inclusive f = false) ->
  (s <- Snapshot.filter_traces self (Iterable filters) ;;
   Snapshot.filter_traces s (Iterable exclusive))
  = Snapshot.filter_traces self (Iterable (filters ++ exclusive)).
Proof.
  intros Hne Hex. rewrite !filter_traces_formula by exact Hne. cbn [bind].
  rewrite filter_traces_formula.
  - unfold with_traces.
    cbn [Snapshot.traces Snapshot.__init__ _Traces._traces
         Snapshot.traceback_limit Snapshot.sample_rate].
    do 2 f_equal.
    assert (Hfilt : forall (A : Type) (p q : A -> bool) (l : list A),
               filter q (filter p l) = filter (fun x => p x && q x) l).
    { intros A p q l. induction l as [|x l IH]; [reflexivity|].
      cbn [filter]. destruct (p x); cbn [filter andb]; now rewrite IH. }
    rewrite Hfilt. apply filter_ext. intros t. unfold survives.
    rewrite !existsb_app.
    assert (H1 : existsb Filter.inclusive exclusive = false).
    { apply not_true_is_false. intros E. apply existsb_exists in E.
      destruct E as (f & Hf & Hi). rewrite (Hex f Hf) in Hi. discriminate. }
    assert (H2 : existsb (fun f => Filter.inclusive f && raw_match f (snd t))
                   exclusive = false).
    { apply not_true_is_false. intros E. apply existsb_exists in E.
      destruct E as (f & Hf & Hi). rewrite (Hex f Hf) in Hi. discriminate. }
    rewrite H1, H2. cbn [negb orb]. rewrite !orb_false_r.
    destruct (negb (existsb Filter.inclusive filters)
              || existsb (fun f => Filter.inclusive f && raw_match f (snd t))
                         filters);
      destruct (existsb (fun f => negb (Filter.inclusive f)
                                   && raw_match f (snd t)) filters);
      destruct (existsb (fun f => negb (Filter.inclusive f)
                                   && raw_match f (snd t)) exclusive);
      reflexivity.
  - cbn [with_traces Snapshot.traces Snapshot.__init__ _Traces._traces].
    intros t Ht. apply filter_In in Ht. now apply Hne.
Qed.

End FilterTraces.

(** ** Items, membership and order of a traceback *)

(** X17.  Indexing a traceback of [n] frames: an index in [-n, n) yields a
    frame, a negative index [i] the frame at [i + n]; any other index raises
    [IndexError]. *)
Theorem Traceback_getitem_bounds (self : Traceback.t) (index : Z) :
  let n := Traceback.__len__ self in
  (- n <= index < n -> exists frame, Traceback.__getitem__ self index = Ok frame)
  /\ (- n <= index < 0 ->
      Traceback.__getitem__ self index = Traceback.__getitem__ self (index + n))
  /\ (index < - n \/ n <= index ->
      Traceback.__getitem__ self index = Err IndexError).
Proof.
  intros n. subst n. unfold Traceback.__len__, Traceback.__getitem__.
  set (l := Traceback._frames self). split; [|split].
  - intros Hi. unfold py_index.
    destruct (Z.ltb_spec index 0).
    + destruct (py_index_in_range l (index + Z.of_nat (List.length l)))
        as (x & Hx & _); [lia|].
      destruct (Z.leb_spec 0 (index + Z.of_nat (List.length l))); [|lia].
      destruct (Z.ltb_spec (index + Z.of_nat (List.length l))
                  (Z.of_nat (List.length l))); [|lia].
      cbn [andb]. rewrite Hx. cbn. eauto.
    + destruct (py_index_in_range l index) as (x & _ & Hx); [lia|].
      unfold py_index in Hx.
      destruct (Z.ltb_spec index 0); [lia|]. rewrite Hx. cbn. eauto.
  - intros Hi. unfold py_index.
    destruct (Z.ltb_spec index 0); [|lia].
    destruct (Z.ltb_spec (index + Z.of_nat (List.length l)) 0); [lia|].
    reflexivity.
  - intros Hi. unfold py_index.
    destruct (Z.ltb_spec index 0).
    + destruct (Z.leb_spec 0 (index + Z.of_nat (List.length l))); [lia|].
      reflexivity.
    + destruct (Z.leb_spec 0 index); [|lia].
      destruct (Z.ltb_spec index (Z.of_nat (List.length l))); [lia|].
      reflexivity.
Qed.

(** X18.  The raw order is read from the end: item [-1 - i] of the
    traceback built from [fs] is the frame of [fs[i]]. *)
Theorem Traceback_init_negative_index (fs : list frame_tuple) (i : Z) :
  0 <= i < Z.of_nat (List.length fs) ->
  exists f,
    py_index fs i = Ok f
    /\ Traceback.__getitem__ (Traceback.__init__ fs) (-1 - i)
       = Ok (Frame.__init__ f).
Proof.
  intros Hi.
  destruct (py_index_in_range fs i Hi) as (f & Hn & Hf).
  exists f. split; [exact Hf|].
  unfold Traceback.__getitem__, Traceback.__init__, py_index.
  cbn [Traceback._frames]. rewrite length_rev.
  destruct (Z.ltb_spec (-1 - i) 0); [|lia].
  destruct (Z.leb_spec 0 (-1 - i + Z.of_nat (List.length fs))); [|lia].
  destruct (Z.ltb_spec (-1 - i + Z.of_nat (List.length fs))
              (Z.of_nat (List.length fs))); [|lia].
  cbn [andb]. rewrite nth_error_rev.
  destruct (Nat.ltb_spec (Z.to_nat (-1 - i + Z.of_nat (List.length fs)))
              (List.length fs)); [|lia].
  replace (List.length fs
           - S (Z.to_nat (-1 - i + Z.of_nat (List.length fs))))%nat
    with (Z.to_nat i) by lia.
  rewrite Hn. reflexivity.
Qed.

(** X19.  Membership: a frame is in the traceback built from [fs] exactly
    when its tuple is one of [fs], and every item of a traceback is in
    it. *)
Theorem Traceback_contains_spec (fs : list frame_tuple) :
  (forall frame,
     Traceback_contains (Traceback.__init__ fs) frame = true
     <-> In (Frame._frame frame) fs)
  /\ (forall index frame,
        Traceback.__getitem__ (Traceback.__init__ fs) index = Ok frame ->
        Traceback_contains (Traceback.__init__ fs) frame = true).
Proof.
  assert (Hc : forall frame,
             Traceback_contains (Traceback.__init__ fs) frame = true
             <-> In (Frame._frame frame) fs).
  { intros frame. unfold Traceback_contains, Traceback.__init__.
    cbn [Traceback._frames].
    destruct (in_dec frame_tuple_eq_dec (Frame._frame frame) (rev fs))
      as [Hin|Hin]; rewrite <- in_rev in Hin; split; congruence || tauto. }
  split; [exact Hc|].
  intros index frame H. apply Hc.
  unfold Traceback.__getitem__ in H.
  destruct (py_index _ index) as [f|] eqn:E; cbn [bind] in H; [|discriminate].
  injection H as <-. cbn [Frame._frame].
  unfold py_index in E.
  destruct (_ && _); [|discriminate].
  destruct (nth_error _ _) as [x|] eqn:En; cbn in E; [|discriminate].
  injection E as ->. apply nth_error_In in En.
  cbn [Traceback.__init__ Traceback._frames] in En. now apply in_rev.
Qed.

(** X20.  The order of tracebacks is a total order that agrees with their
    equality: two tracebacks compare [Eq] exactly when they are equal, the
    comparison of the converse pair is the opposite, [<] is transitive; and
    two tracebacks built from raw tuples are equal exactly when the raw
    tuples are. *)
Theorem Traceback_total_order :
  (forall a b, Traceback.compare a b = Eq <-> a = b)
  /\ (forall a b, Traceback.compare b a = CompOpp (Traceback.compare a b))
  /\ (forall a b c,
        Traceback.compare a b = Lt -> Traceback.compare b c = Lt ->
        Traceback.compare a c = Lt)
  /\ (forall fs fs',
        Traceback.__init__ fs = Traceback.__init__ fs' <-> fs = fs').
Proof.
  destruct Traceback_compare_weak_order as [Ha Ht He].
  split; [|split; [|split]].
  - intros a b. split; [apply Traceback_compare_eq|].
    intros <-. pose proof (Ha a a) as H.
    destruct (Traceback.compare a a); [reflexivity | discriminate H
                                      | discriminate H].
  - exact Ha.
  - exact Ht.
  - intros fs fs'. split; [|now intros ->].
    unfold Traceback.__init__. intros [= H].
    rewrite <- (rev_involutive fs), <- (rev_involutive fs'). now rewrite H.
Qed.

(** ** Slices and [format] *)

Lemma py_slice_tail {A : Type} (l : list A) (k : Z) :
  0 < k ->
  py_slice l (Some (- k)) None = skipn (List.length l - Z.to_nat k) l.
Proof.
  intros Hk. unfold py_slice.
  destruct (Z.ltb_spec (- k) 0); [|lia].
  set (n := List.length l).
  replace (Z.to_nat (Z.max (- k + Z.of_nat n) 0)) with (n - Z.to_nat k)%nat
    by lia.
  apply firstn_all2. rewrite length_skipn. lia.
Qed.

Lemma py_slice_head {A : Type} (l : list A) (k : Z) :
  k <= 0 ->
  py_slice l None (Some k)
  = if k =? 0 then [] else firstn (List.length l - Z.to_nat (- k)) l.
Proof.
  intros Hk. unfold py_slice. cbn [Z.to_nat skipn]. rewrite Z.sub_0_r.
  set (n := List.length l).
  destruct (Z.eqb_spec k 0) as [->|Hne].
  - cbn. rewrite Z.min_l by lia. reflexivity.
  - destruct (Z.ltb_spec k 0); [|lia]. f_equal. lia.
Qed.

Section FormatFacts.

Context {L : Linecache}.

Lemma format_frame_length (frame : Frame.t) :
  (1 <= List.length (format_frame frame) <= 2)%nat.
Proof.
  unfold format_frame. destruct (String.eqb _ ""); cbn; lia.
Qed.

Lemma Traceback_format_shown (self : Traceback.t) (limit : option Z)
    (most_recent_first : bool) :
  Traceback_format self limit most_recent_first
  = flat_map format_frame
      (map Frame.__init__
         (format_selection (Traceback._frames self) limit most_recent_first)).
Proof.
  unfold Traceback_format, format_selection, Traceback_getslice, Traceback_iter.
  destruct limit as [k|].
  - destruct (Z.ltb_spec 0 k).
    + rewrite py_slice_tail by assumption.
      destruct most_recent_first; [now rewrite map_rev | reflexivity].
    + rewrite py_slice_head by assumption.
      destruct (k =? 0);
        destruct most_recent_first; [reflexivity | reflexivity
                                    | now rewrite map_rev | reflexivity].
  - destruct most_recent_first; [now rewrite map_rev | reflexivity].
Qed.

(** X21.  The frames that [format] shows: all the stored frames without
    limit; with [limit > 0] the last [limit] of them (all, if there are
    fewer); none with [limit = 0]; with [limit < 0] all but the last
    [-limit]; in stored order, reversed under [most_recent_first].  For
    each it gives the line [File ..., line ...], then the source line if
    there is one: between once and twice as many lines as frames shown. *)
Theorem Traceback_format_selection (self : Traceback.t) (limit : option Z)
    (most_recent_first : bool) :
  let shown := format_selection (Traceback._frames self) limit
                                most_recent_first in
  Traceback_format self limit most_recent_first
  = flat_map format_frame (map Frame.__init__ shown)
  /\ (List.length shown
      <= List.length (Traceback_format self limit most_recent_first)
      <= 2 * List.length shown)%nat.
Proof.
  intros shown. split; [apply Traceback_format_shown|].
  rewrite Traceback_format_shown. fold shown.
  generalize shown. intros l. induction l as [|f l IH]; [cbn; lia|].
  cbn [map flat_map List.length]. rewrite length_app.
  pose proof (format_frame_length (Frame.__init__ f)). lia.
Qed.

End FormatFacts.

Lemma flat_map_singletons {A B : Type} (f : A -> list B) (g : A -> B)
    (l : list A) :
  (forall x, f x = [g x]) -> flat_map f l = map g l.
Proof.
  intros H. induction l as [|x l IH]; [reflexivity|].
  cbn [flat_map map]. now rewrite H, IH.
Qed.

(** X22.  When no source line can be read, [format] returns one line for
    each frame it shows; of a traceback of [n] frames these are [n] without
    limit, [min limit n] for [limit > 0], none for [limit = 0] and
    [max (n + limit) 0] for [limit < 0]. *)
Theorem Traceback_format_length_no_source {L : Linecache} (self : Traceback.t)
    (limit : option Z) (most_recent_first : bool) :
  (forall filename lineno, getline_stripped filename lineno = "") ->
  Z.of_nat (List.length (Traceback_format self limit most_recent_first))
  = match limit with
    | None => Traceback.__len__ self
    | Some k =>
        if 0 <? k then Z.min k (Traceback.__len__ self)
        else if k =? 0 then 0
        else Z.max (Traceback.__len__ self + k) 0
    end.
Proof.
  intros Hno.
  rewrite Traceback_format_shown.
  rewrite (flat_map_singletons format_frame
             (fun frame =>
                ("  File " ++ double_quote ++ Frame.filename frame
                 ++ double_quote ++ ", line "
                 ++ str_of_int (Frame.lineno frame))%string))
    by (intros frame; unfold format_frame; now rewrite Hno).
  rewrite !length_map. unfold format_selection, Traceback.__len__.
  set (frames := Traceback._frames self).
  assert (Hrev : forall l : list frame_tuple,
             List.length (if most_recent_first then rev l else l)
             = List.length l)
    by (intros l; destruct most_recent_first; [apply length_rev | reflexivity]).
  rewrite Hrev. destruct limit as [k|]; [|reflexivity].
  destruct (Z.ltb_spec 0 k).
  - rewrite length_skipn. lia.
  - destruct (Z.eqb_spec k 0); [reflexivity|].
    rewrite length_firstn. lia.
Qed.

(** ** File names *)

Lemma string_length_append (a b : string) :
  String.length (a ++ b) = (String.length a + String.length b)%nat.
Proof.
  induction a as [|c a IH]; simpl; [reflexivity | now rewrite IH].
Qed.

Lemma substring_skip_prefix (a b : string) (m : nat) :
  substring (String.length a) m (a ++ b) = substring 0 m b.
Proof.
  induction a as [|c a IH]; simpl; [reflexivity | exact IH].
Qed.

Lemma substring_0_append (a b : string) (k : nat) :
  substring 0 (String.length a + k) (a ++ b) = (a ++ substring 0 k b)%string.
Proof.
  induction a as [|c a IH]; simpl; [reflexivity | now rewrite IH].
Qed.

Lemma substring_0_length (s : string) : substring 0 (String.length s) s = s.
Proof.
  induction s as [|c s IH]; simpl; [reflexivity | now rewrite IH].
Qed.

Lemma substring_split (s : string) (k : nat) :
  (k <= String.length s)%nat ->
  (substring 0 k s ++ substring k (String.length s - k) s)%string = s.
Proof.
  revert k. induction s as [|c s IH]; intros k Hk.
  - destruct k; reflexivity.
  - destruct k as [|k]; simpl.
    + now rewrite substring_0_length.
    + simpl in Hk. rewrite IH by lia. reflexivity.
Qed.

Lemma endswith_append (a suffix : string) : endswith (a ++ suffix) suffix = true.
Proof.
  unfold endswith. rewrite string_length_append.
  apply andb_true_iff. split.
  - apply Nat.leb_le. lia.
  - replace (String.length a + String.length suffix - String.length suffix)%nat
      with (String.length a) by lia.
    rewrite substring_skip_prefix, substring_0_length. apply String.eqb_refl.
Qed.

Lemma endswith_inv (s suffix : string) :
  endswith s suffix = true -> exists a, s = (a ++ suffix)%string.
Proof.
  unfold endswith. intros H. apply andb_true_iff in H.
  destruct H as [Hle Heq]. apply Nat.leb_le in Hle.
  apply String.eqb_eq in Heq.
  remember (String.length suffix) as m eqn:Em.
  exists (substring 0 (String.length s - m) s).
  rewrite <- Heq.
  pose proof (substring_split s (String.length s - m)) as Hs.
  replace (String.length s - (String.length s - m))%nat with m in Hs by lia.
  symmetry. apply Hs. lia.
Qed.

Lemma last_char_append (a b : string) :
  b <> "" -> last_char (a ++ b) = last_char b.
Proof.
  intros Hb. induction a as [|c a IH]; [reflexivity|].
  simpl. rewrite IH.
  destruct (a ++ b)%string eqn:E; [|reflexivity].
  destruct a; simpl in E; [contradiction | discriminate].
Qed.

Lemma endswith_last_char (s suffix : string) :
  suffix <> "" -> endswith s suffix = true ->
  last_char s = last_char suffix.
Proof.
  intros Hne H. apply endswith_inv in H. destruct H as (a & ->).
  now apply last_char_append.
Qed.

Lemma drop_last_char_append (a : string) (c : ascii) :
  drop_last_char (a ++ String c "") = a.
Proof.
  unfold drop_last_char. rewrite string_length_append. simpl String.length.
  replace (String.length a + 1 - 1)%nat with (String.length a + 0)%nat by lia.
  rewrite substring_0_append. simpl.
  clear c. induction a as [|c a IH]; simpl; [reflexivity | now rewrite IH].
Qed.

Lemma append_assoc (a b c : string) :
  ((a ++ b) ++ c)%string = (a ++ (b ++ c))%string.
Proof.
  induction a as [|x a IH]; simpl; [reflexivity | now rewrite IH].
Qed.

Lemma not_endswith_py (a : string) :
  endswith (a ++ ".py") ".pyc" = false /\ endswith (a ++ ".py") ".pyo" = false.
Proof.
  split; apply not_true_is_false; intros H;
    apply endswith_last_char in H; try discriminate;
    rewrite last_char_append in H by discriminate; discriminate.
Qed.

Section NormalizeFacts.

Context {P : PathOps}.

(** X23.  A compiled file is named as its source: when [normcase] leaves
    the suffixes [.py], [.pyc] and [.pyo] in place, [_normalize_filename]
    maps [s.pyc] and [s.pyo] to what it maps [s.py] to, so that a filter
    matches a frame of [s.pyc] exactly when it matches that frame in
    [s.py], and a filter built on the pattern [s.pyc] is the filter built on
    [s.py]. *)
Theorem normalize_compiled_filename (s : string) :
  (forall suffix, In suffix [".py"; ".pyc"; ".pyo"] ->
                  normcase (s ++ suffix) = (normcase s ++ suffix)%string) ->
  _normalize_filename (s ++ ".pyc") = _normalize_filename (s ++ ".py")
  /\ _normalize_filename (s ++ ".pyo") = _normalize_filename (s ++ ".py")
  /\ (forall f lineno,
        Filter.__match_frame f (s ++ ".pyc") lineno
        = Filter.__match_frame f (s ++ ".py") lineno)
  /\ (forall inclusive lineno all_frames,
        Filter.__init__ inclusive (s ++ ".pyc") lineno all_frames
        = Filter.__init__ inclusive (s ++ ".py") lineno all_frames).
Proof.
  intros Hn.
  assert (Hpy : _normalize_filename (s ++ ".py") = (normcase s ++ ".py")%string).
  { unfold _normalize_filename. rewrite Hn by (simpl; tauto).
    destruct (not_endswith_py (normcase s)) as [-> ->]. reflexivity. }
  assert (Hpyc : _normalize_filename (s ++ ".pyc")
                 = (normcase s ++ ".py")%string).
  { unfold _normalize_filename. rewrite Hn by (simpl; tauto).
    rewrite endswith_append. cbn [orb].
    change ".pyc" with (".py" ++ String "c" "")%string.
    rewrite <- append_assoc. apply drop_last_char_append. }
  assert (Hpyo : _normalize_filename (s ++ ".pyo")
                 = (normcase s ++ ".py")%string).
  { unfold _normalize_filename. rewrite Hn by (simpl; tauto).
    rewrite endswith_append. rewrite orb_true_r.
    change ".pyo" with (".py" ++ String "o" "")%string.
    rewrite <- append_assoc. apply drop_last_char_append. }
  split; [congruence|]. split; [congruence|]. split.
  - intros f lineno. unfold Filter.__match_frame. now rewrite Hpyc, Hpy.
  - intros inclusive lineno all_frames. unfold Filter.__init__.
    now rewrite Hpyc, Hpy.
Qed.

(** X24.  Normalizing is idempotent where [normcase] changes nothing (as on
    POSIX): a normalized file name is its own normal form, so that a filter
    rebuilt from the attributes of a filter is that filter. *)
Theorem normalize_filename_idempotent :
  (forall s, normcase s = s) ->
  (forall s, _normalize_filename (_normalize_filename s)
             = _normalize_filename s)
  /\ (forall f inclusive pattern lineno all_frames,
        f = Filter.__init__ inclusive pattern lineno all_frames ->
        Filter.__init__ (Filter.inclusive f) (Filter.filename_pattern f)
                        (Filter.lineno f) (Filter.all_frames f) = f).
Proof.
  intros Hid.
  assert (Hidem : forall s, _normalize_filename (_normalize_filename s)
                            = _normalize_filename s).
  { assert (Hval : forall x,
               _normalize_filename x
               = if endswith x ".pyc" || endswith x ".pyo"
                 then drop_last_char x else x)
      by (intros x; unfold _normalize_filename; now rewrite Hid).
    intros s. rewrite (Hval s).
    destruct (endswith s ".pyc" || endswith s ".pyo") eqn:E.
    - assert (Hx : exists a c, s = (a ++ ".py" ++ String c "")%string).
      { apply orb_true_iff in E.
        destruct E as [E|E]; apply endswith_inv in E; destruct E as (a & ->);
          [exists a, "c"%char | exists a, "o"%char]; reflexivity. }
      destruct Hx as (a & c & ->).
      rewrite <- append_assoc, drop_last_char_append, Hval.
      destruct (not_endswith_py a) as [-> ->]. reflexivity.
    - now rewrite Hval, E. }
  split; [exact Hidem|].
  intros f inclusive pattern lineno all_frames ->.
  unfold Filter.__init__, Filter.filename_pattern.
  cbn [Filter.inclusive Filter._filename_pattern Filter.lineno
       Filter.all_frames].
  now rewrite Hidem.
Qed.

End NormalizeFacts.

(** ** Totals and keys of the statistics *)

Lemma cumulative_adds_sizes (key_type : string) (traces : list trace_tuple) :
  sum_Z snd (cumulative_adds key_type traces)
  = sum_Z (fun t : trace_tuple => fst t * Z.of_nat (List.length (snd t)))
          traces.
Proof.
  unfold cumulative_adds.
  induction traces as [|[sz raw] traces IH]; [reflexivity|].
  cbn [flat_map fst snd]. rewrite sum_Z_app, IH.
  change (sum_Z (fun t : trace_tuple => fst t * Z.of_nat (List.length (snd t)))
            ((sz, raw) :: traces))
    with (sz * Z.of_nat (List.length raw)
          + sum_Z (fun t : trace_tuple =>
                     fst t * Z.of_nat (List.length (snd t))) traces).
  f_equal. clear IH. induction raw as [|f raw IHr]; [cbn; lia|].
  cbn [map List.length].
  change (sum_Z snd ((frame_key key_type f, sz)
                     :: map (fun frame => (frame_key key_type frame, sz)) raw))
    with (sz + sum_Z snd (map (fun frame => (frame_key key_type frame, sz))
                              raw)).
  rewrite IHr. lia.
Qed.

Lemma cumulative_adds_has_frames (key_type : string)
    (traces : list trace_tuple) :
  cumulative_adds key_type (filter has_frames traces)
  = cumulative_adds key_type traces.
Proof.
  unfold cumulative_adds.
  induction traces as [|[sz raw] traces IH]; [reflexivity|].
  cbn [filter]. unfold has_frames at 1. cbn [snd].
  destruct raw as [|f raw]; cbn [flat_map]; now rewrite IH.
Qed.

Lemma apply_adds_keys (adds : list (Traceback.t * Z)) :
  forall (stats : group) (k : Traceback.t),
  In k (dict_keys (apply_adds stats adds)) ->
  In k (dict_keys stats) \/ In k (map fst adds).
Proof.
  induction adds as [|[k0 s0] adds IH]; intros stats k Hin; [now left|].
  change (apply_adds stats ((k0, s0) :: adds))
    with (apply_adds (_add_to_stats stats k0 s0) adds) in Hin.
  apply IH in Hin. destruct Hin as [Hin|Hin]; [|right; now right].
  unfold _add_to_stats, stats_set in Hin.
  destruct (stats_get stats k0); rewrite dict_keys_set in Hin;
    destruct (dict_get Traceback.eq_dec stats k0);
    try (now left);
    apply in_app_or in Hin; destruct Hin as [Hin|[<-|[]]];
    try (now left); right; now left.
Qed.

Section StatisticsTotals.

Context {F : Type} {FO : FloatOps F}.

(** X25.  Without sampling correction, whatever the key type: the
    statistics that are not cumulative have the sizes of the traces for
    total size and their number for total count; the cumulative ones count
    every trace once for each of its frames. *)
Theorem statistics_totals_by_mode (self : Snapshot.t) (key_type : string)
    (cumulative : bool) (l : list Statistic.t) :
  Snapshot.sample_rate self <= 1 ->
  Snapshot.statistics self key_type cumulative = Ok l ->
  total_size l = (if cumulative then cumulated_sizes self else trace_sizes self)
  /\ total_count l = (if cumulative then frame_count self
                      else trace_count self).
Proof.
  intros Hr Hl.
  destruct (statistics_Ok_adds self key_type cumulative l Hl)
    as (Hv & adds & Hadds).
  destruct (statistics_totals self key_type cumulative adds Hr Hv Hadds)
    as (l' & Hl' & Hs & Hc).
  rewrite Hl in Hl'. injection Hl' as <-.
  rewrite Hs, Hc. unfold adds_of in Hadds. destruct cumulative.
  - injection Hadds as <-. split.
    + apply cumulative_adds_sizes.
    + apply cumulative_adds_length.
  - pose proof (group_adds_sizes _ _ _ Hadds) as Hmap. split.
    + now apply sum_Z_snd_fst.
    + unfold trace_count.
      rewrite <- (length_map snd adds), Hmap, length_map. reflexivity.
Qed.

(** X26.  A trace without frames counts in no cumulative statistic:
    whatever the sample rate, the cumulative statistics of a snapshot are
    those of the snapshot without its traces of depth 0. *)
Theorem cumulative_ignores_depth_0 (self : Snapshot.t) (key_type : string) :
  Snapshot.statistics
    (with_traces self
       (filter has_frames (_Traces._traces (Snapshot.traces self))))
    key_type true
  = Snapshot.statistics self key_type true.
Proof.
  unfold Snapshot.statistics.
  destruct (valid_grouping key_type true) eqn:Hv.
  - rewrite !group_by_valid by exact Hv.
    cbn [with_traces Snapshot.__init__ Snapshot.traces _Traces._traces].
    rewrite cumulative_adds_has_frames.
    assert (Hscale : forall stats,
               Snapshot._scale_heap_samples
                 (with_traces self
                    (filter has_frames (_Traces._traces (Snapshot.traces self))))
                 stats
               = Snapshot._scale_heap_samples self stats).
    { induction stats as [|[tb st] stats IH]; [reflexivity|].
      cbn [Snapshot._scale_heap_samples]. rewrite IH. reflexivity. }
    unfold with_traces in Hscale. now rewrite Hscale.
  - now rewrite !group_by_invalid by exact Hv.
Qed.

(** X27.  No statistic without a trace: whatever the sample rate, the
    traceback of every statistic that [statistics] returns is the key of a
    trace of the snapshot, or of one of its frames when cumulative. *)
Theorem statistics_keys_from_traces (self : Snapshot.t) (key_type : string)
    (cumulative : bool) (l : list Statistic.t) (st : Statistic.t) :
  Snapshot.statistics self key_type cumulative = Ok l ->
  In st l ->
  exists t,
    In t (_Traces._traces (Snapshot.traces self))
    /\ if cumulative
       then exists frame,
              In frame (snd t)
              /\ Statistic.traceback st = frame_key key_type frame
       else group_key key_type (snd t) = Some (Statistic.traceback st).
Proof.
  intros Hl Hin.
  destruct (statistics_Ok_adds self key_type cumulative l Hl)
    as (Hv & adds & Hadds).
  unfold Snapshot.statistics in Hl.
  destruct (Snapshot._group_by self key_type cumulative) as [g|] eqn:Hg;
    cbn [bind] in Hl; [|discriminate].
  injection Hl as <-.
  apply (Permutation_in _ (sort_reverse_perm _ _)) in Hin.
  assert (Hkey : In (Statistic.traceback st) (dict_keys g)).
  { rewrite <- keys_carried_values by (now apply group_by_carried in Hg).
    now apply in_map. }
  rewrite group_by_valid in Hg by exact Hv.
  fold (adds_of key_type cumulative (_Traces._traces (Snapshot.traces self)))
    in Hg.
  rewrite Hadds in Hg. apply scale_heap_samples_keys in Hg.
  rewrite Hg in Hkey. apply apply_adds_keys in Hkey.
  destruct Hkey as [[]|Hkey].
  apply in_map_iff in Hkey. destruct Hkey as ([k s] & Hk & Hkin).
  cbn [fst] in Hk. subst k. unfold adds_of in Hadds. destruct cumulative.
  - injection Hadds as <-. unfold cumulative_adds in Hkin.
    apply in_flat_map in Hkin. destruct Hkin as (t & Ht & Hkin).
    apply in_map_iff in Hkin. destruct Hkin as (frame & Hf & Hfin).
    exists t. split; [exact Ht|]. exists frame. split; [exact Hfin|].
    congruence.
  - apply group_adds_map in Hadds.
    clear Hg Hin. induction Hadds as [|t p traces adds [Hk _] _ IH];
      [destruct Hkin|].
    destruct Hkin as [->|Hkin].
    + exists t. split; [now left | exact Hk].
    + destruct (IH Hkin) as (t' & Ht' & Hk'). exists t'.
      split; [now right | exact Hk'].
Qed.

End StatisticsTotals.

(** ** Instances of the further properties *)

Lemma statistics_sorted_witness :
  exists l,
    Snapshot.statistics (FO := exact_arithmetic) scenario_snapshot
      "lineno" true = Ok l
    /\ StronglySorted Statistic_ge l.
Proof.
  eexists. split; [reflexivity|].
  apply (statistics_sorted (FO := exact_arithmetic) scenario_snapshot
           "lineno" true).
  reflexivity.
Defined.

Lemma compare_to_sorted_witness :
  exists l,
    Snapshot.compare_to (FO := exact_arithmetic) scenario_snapshot
      nested_snapshot "filename" false = Ok l
    /\ StronglySorted StatisticDiff_ge l.
Proof.
  eexists. split; [reflexivity|].
  apply (compare_to_sorted (FO := exact_arithmetic) scenario_snapshot
           nested_snapshot "filename" false).
  reflexivity.
Defined.

Lemma statistics_distinct_tracebacks_witness :
  exists l,
    Snapshot.statistics (FO := exact_arithmetic) scenario_snapshot
      "filename" true = Ok l
    /\ NoDup (map Statistic.traceback l).
Proof.
  eexists. split; [reflexivity|].
  apply (statistics_distinct_tracebacks (FO := exact_arithmetic)
           scenario_snapshot "filename" true).
  reflexivity.
Defined.

Lemma statistics_by_key_witness :
  exists l,
    Snapshot.statistics (FO := exact_arithmetic) scenario_snapshot
      "filename" false = Ok l
    /\ forall st,
         In st l <->
         let sizes := sizes_at_key "filename" (Statistic.traceback st)
                        (_Traces._traces (Snapshot.traces scenario_snapshot)) in
         sizes <> []
         /\ Statistic.size st = sum_list sizes
         /\ Statistic.count st = Z.of_nat (List.length sizes).
Proof.
  apply (statistics_by_key (FO := exact_arithmetic) scenario_snapshot
           "filename").
  - simpl. lia.
  - simpl. tauto.
  - simpl. intros _ t [<-|[<-|[<-|[]]]]; discriminate.
Defined.

Lemma cumulative_statistics_by_key_witness :
  exists l,
    Snapshot.statistics (FO := exact_arithmetic) scenario_snapshot
      "lineno" true = Ok l
    /\ forall st,
         In st l <->
         let sizes := sizes_at_frame_key "lineno" (Statistic.traceback st)
                        (_Traces._traces (Snapshot.traces scenario_snapshot)) in
         sizes <> []
         /\ Statistic.size st = sum_list sizes
         /\ Statistic.count st = Z.of_nat (List.length sizes).
Proof.
  apply (cumulative_statistics_by_key (FO := exact_arithmetic)
           scenario_snapshot "lineno").
  - simpl. lia.
  - simpl. tauto.
Defined.

Lemma statistics_order_independent_witness :
  Snapshot.statistics (FO := exact_arithmetic)
    (with_traces scenario_snapshot swapped_scenario_traces) "traceback" false
  = Snapshot.statistics (FO := exact_arithmetic) scenario_snapshot
      "traceback" false.
Proof.
  apply (statistics_order_independent (FO := exact_arithmetic)
           scenario_snapshot swapped_scenario_traces "traceback" false).
  - simpl. lia.
  - simpl. apply perm_swap.
Defined.

Lemma compare_to_by_key_witness :
  exists new_group old_group statistics,
    Snapshot._group_by (FO := exact_arithmetic) scenario_snapshot
      "filename" false = Ok new_group
    /\ Snapshot._group_by (FO := exact_arithmetic) nested_snapshot
         "filename" false = Ok old_group
    /\ Snapshot.compare_to (FO := exact_arithmetic) scenario_snapshot
         nested_snapshot "filename" false = Ok statistics
    /\ forall tb,
         filter (has_traceback tb) statistics = diff_at new_group old_group tb.
Proof.
  eexists. eexists.
  destruct (compare_to_by_key (FO := exact_arithmetic) scenario_snapshot
              nested_snapshot "filename" false _ _ eq_refl eq_refl)
    as (statistics & H1 & H2).
  exists statistics. split; [reflexivity|]. split; [reflexivity|].
  split; [exact H1 | exact H2].
Defined.

Lemma compare_to_tracebacks_witness :
  exists new_group old_group l,
    Snapshot._group_by (FO := exact_arithmetic) scenario_snapshot
      "lineno" false = Ok new_group
    /\ Snapshot._group_by (FO := exact_arithmetic) nested_snapshot
         "lineno" false = Ok old_group
    /\ Snapshot.compare_to (FO := exact_arithmetic) scenario_snapshot
         nested_snapshot "lineno" false = Ok l
    /\ NoDup (map StatisticDiff.traceback l)
    /\ forall tb,
         In tb (map StatisticDiff.traceback l) <->
         In tb (dict_keys new_group) \/ In tb (dict_keys old_group).
Proof.
  eexists. eexists. eexists.
  split; [reflexivity|]. split; [reflexivity|]. split; [reflexivity|].
  apply (compare_to_tracebacks (FO := exact_arithmetic) scenario_snapshot
           nested_snapshot "lineno" false); reflexivity.
Defined.

Lemma compare_to_self_witness :
  exists l,
    Snapshot.compare_to (FO := exact_arithmetic) scenario_snapshot
      scenario_snapshot "lineno" true = Ok l
    /\ forall d, In d l ->
         StatisticDiff.size_diff d = 0 /\ StatisticDiff.count_diff d = 0.
Proof.
  eexists. split; [reflexivity|].
  apply (compare_to_self (FO := exact_arithmetic) scenario_snapshot
           "lineno" true).
  reflexivity.
Defined.

Lemma compare_to_antisymmetric_witness :
  exists l1 l2,
    Snapshot.compare_to (FO := exact_arithmetic) scenario_snapshot
      nested_snapshot "filename" false = Ok l1
    /\ Snapshot.compare_to (FO := exact_arithmetic) nested_snapshot
         scenario_snapshot "filename" false = Ok l2
    /\ forall d1, In d1 l1 ->
         exists d2,
           In d2 l2
           /\ StatisticDiff.traceback d2 = StatisticDiff.traceback d1
           /\ StatisticDiff.size_diff d2 = - StatisticDiff.size_diff d1
           /\ StatisticDiff.count_diff d2 = - StatisticDiff.count_diff d1
           /\ StatisticDiff.size d2
              = StatisticDiff.size d1 - StatisticDiff.size_diff d1
           /\ StatisticDiff.count d2
              = StatisticDiff.count d1 - StatisticDiff.count_diff d1.
Proof.
  eexists. eexists. split; [reflexivity|]. split; [reflexivity|].
  apply (compare_to_antisymmetric (FO := exact_arithmetic) scenario_snapshot
           nested_snapshot "filename" false); reflexivity.
Defined.

Lemma compare_to_totals_witness :
  exists new_group old_group l,
    Snapshot._group_by (FO := exact_arithmetic) scenario_snapshot
      "traceback" false = Ok new_group
    /\ Snapshot._group_by (FO := exact_arithmetic) nested_snapshot
         "traceback" false = Ok old_group
    /\ Snapshot.compare_to (FO := exact_arithmetic) scenario_snapshot
         nested_snapshot "traceback" false = Ok l
    /\ sum_Z StatisticDiff.size l = total_size (dict_values new_group)
    /\ sum_Z StatisticDiff.count l = total_count (dict_values new_group)
    /\ sum_Z StatisticDiff.size_diff l
       = total_size (dict_values new_group)
         - total_size (dict_values old_group)
    /\ sum_Z StatisticDiff.count_diff l
       = total_count (dict_values new_group)
         - total_count (dict_values old_group).
Proof.
  eexists. eexists. eexists.
  split; [reflexivity|]. split; [reflexivity|]. split; [reflexivity|].
  apply (compare_to_totals (FO := exact_arithmetic) scenario_snapshot
           nested_snapshot "traceback" false); reflexivity.
Defined.

Lemma filter_traces_selects_witness :
  exists s,
    Snapshot.filter_traces (P := posix) scenario_snapshot
      (Iterable [Filter.__init__ true "a.*" None true]) = Ok s
    /\ Snapshot.traceback_limit s = Snapshot.traceback_limit scenario_snapshot
    /\ Snapshot.sample_rate s = Snapshot.sample_rate scenario_snapshot
    /\ exists keep : trace_tuple -> bool,
         _Traces._traces (Snapshot.traces s)
         = filter keep (_Traces._traces (Snapshot.traces scenario_snapshot)).
Proof.
  eexists. split; [reflexivity|].
  apply (filter_traces_selects (P := posix) scenario_snapshot _
           [Filter.__init__ true "a.*" None true]).
  reflexivity.
Defined.

Lemma filter_traces_idempotent_witness :
  exists s,
    Snapshot.filter_traces (P := posix) scenario_snapshot
      (Iterable [Filter.__init__ false "a.py" (Some 10) false]) = Ok s
    /\ Snapshot.filter_traces (P := posix) s
         (Iterable [Filter.__init__ false "a.py" (Some 10) false]) = Ok s.
Proof.
  eexists. split; [reflexivity|].
  apply (filter_traces_idempotent (P := posix) scenario_snapshot).
  reflexivity.
Defined.

Lemma filter_traces_survivors_witness :
  exists s,
    Snapshot.filter_traces (P := posix) scenario_snapshot
      (Iterable [Filter.__init__ true "*.py" None false;
                 Filter.__init__ false "b.py" None true]) = Ok s
    /\ _Traces._traces (Snapshot.traces s)
       = filter (fun t =>
                   survives [Filter.__init__ true "*.py" None false;
                             Filter.__init__ false "b.py" None true] (snd t))
                (_Traces._traces (Snapshot.traces scenario_snapshot)).
Proof.
  apply (filter_traces_survivors (P := posix) scenario_snapshot).
  simpl. intros t [<-|[<-|[<-|[]]]]; discriminate.
Defined.

Lemma filter_traces_order_independent_witness :
  Snapshot.filter_traces (P := posix) scenario_snapshot
    (Iterable [Filter.__init__ false "b.py" None true;
               Filter.__init__ true "*.py" None false])
  = Snapshot.filter_traces (P := posix) scenario_snapshot
      (Iterable [Filter.__init__ true "*.py" None false;
                 Filter.__init__ false "b.py" None true]).
Proof.
  apply (filter_traces_order_independent (P := posix) scenario_snapshot).
  - simpl. intros t [<-|[<-|[<-|[]]]]; discriminate.
  - apply perm_swap.
Defined.

Lemma filter_traces_then_exclusive_witness :
  (s <- Snapshot.filter_traces (P := posix) scenario_snapshot
          (Iterable [Filter.__init__ true "*.py" None false]) ;;
   Snapshot.filter_traces s
     (Iterable [Filter.__init__ false "b.py" None true]))
  = Snapshot.filter_traces (P := posix) scenario_snapshot
      (Iterable ([Filter.__init__ true "*.py" None false]
                 ++ [Filter.__init__ false "b.py" None true])).
Proof.
  apply (filter_traces_then_exclusive (P := posix) scenario_snapshot).
  - simpl. intros t [<-|[<-|[<-|[]]]]; discriminate.
  - simpl. intros f [<-|[]]. reflexivity.
Defined.

Lemma Traceback_init_negative_index_witness :
  exists f,
    py_index [main_frame; alloc_frame] 0 = Ok f
    /\ Traceback.__getitem__ (Traceback.__init__ [main_frame; alloc_frame])
         (-1 - 0)
       = Ok (Frame.__init__ f).
Proof.
  apply (Traceback_init_negative_index [main_frame; alloc_frame] 0).
  simpl. lia.
Defined.

Lemma Traceback_format_length_no_source_witness :
  Z.of_nat (List.length
              (Traceback_format (L := no_source)
                 (Traceback.__init__ [main_frame; alloc_frame])
                 (Some (-1)) true))
  = Z.max (Traceback.__len__ (Traceback.__init__ [main_frame; alloc_frame])
           + -1) 0.
Proof.
  apply (Traceback_format_length_no_source (L := no_source)
           (Traceback.__init__ [main_frame; alloc_frame]) (Some (-1)) true).
  reflexivity.
Defined.

Lemma normalize_compiled_filename_witness :
  _normalize_filename (P := posix) ("pkg/mod" ++ ".pyc")
  = _normalize_filename (P := posix) ("pkg/mod" ++ ".py")
  /\ _normalize_filename (P := posix) ("pkg/mod" ++ ".pyo")
     = _normalize_filename (P := posix) ("pkg/mod" ++ ".py")
  /\ (forall f lineno,
        Filter.__match_frame (P := posix) f ("pkg/mod" ++ ".pyc") lineno
        = Filter.__match_frame (P := posix) f ("pkg/mod" ++ ".py") lineno)
  /\ (forall inclusive lineno all_frames,
        Filter.__init__ (P := posix) inclusive ("pkg/mod" ++ ".pyc") lineno
                        all_frames
        = Filter.__init__ (P := posix) inclusive ("pkg/mod" ++ ".py") lineno
                          all_frames).
Proof.
  apply (normalize_compiled_filename (P := posix) "pkg/mod").
  intros suffix _. reflexivity.
Defined.

Lemma normalize_filename_idempotent_witness :
  (forall s, _normalize_filename (P := posix)
               (_normalize_filename (P := posix) s)
             = _normalize_filename (P := posix) s)
  /\ (forall f inclusive pattern lineno all_frames,
        f = Filter.__init__ (P := posix) inclusive pattern lineno all_frames ->
        Filter.__init__ (P := posix) (Filter.inclusive f)
          (Filter.filename_pattern f) (Filter.lineno f) (Filter.all_frames f)
        = f).
Proof.
  apply (normalize_filename_idempotent (P := posix)).
  intros s. reflexivity.
Defined.

Lemma statistics_totals_by_mode_witness :
  exists l,
    Snapshot.statistics (FO := exact_arithmetic) scenario_snapshot
      "filename" true = Ok l
    /\ total_size l = cumulated_sizes scenario_snapshot
    /\ total_count l = frame_count scenario_snapshot.
Proof.
  eexists. split; [reflexivity|].
  apply (statistics_totals_by_mode (FO := exact_arithmetic) scenario_snapshot
           "filename" true).
  - simpl. lia.
  - reflexivity.
Defined.

Lemma statistics_keys_from_traces_witness :
  exists t,
    In t (_Traces._traces (Snapshot.traces nested_snapshot))
    /\ group_key "lineno" (snd t) = Some (Traceback.mk [main_frame]).
Proof.
  apply (statistics_keys_from_traces (FO := exact_arithmetic) nested_snapshot
           "lineno" false
           [Statistic.__init__ (Traceback.mk [main_frame]) 10 1]
           (Statistic.__init__ (Traceback.mk [main_frame]) 10 1)).
  - reflexivity.
  - simpl. left. reflexivity.
Defined.

(** ** Depth 1 *)

Lemma group_adds_depth_1 (key_type : string) (traces : list trace_tuple) :
  In key_type ["filename"; "lineno"] ->
  (forall t, In t traces -> List.length (snd t) = 1%nat) ->
  group_adds key_type traces = Some (cumulative_adds key_type traces).
Proof.
  intros Hk. induction traces as [|[sz raw] traces IH]; intros Hlen;
    [reflexivity|].
  cbn [group_adds]. rewrite IH by (intros t Ht; apply Hlen; now right).
  assert (Hraw : List.length raw = 1%nat) by (apply (Hlen (sz, raw)); now left).
  destruct raw as [|[[[n f] fl] l] [|f' raw]]; try discriminate Hraw.
  simpl in Hk. destruct Hk as [<-|[<-|[]]]; reflexivity.
Qed.

(** X28.  On a snapshot where every traceback has exactly one frame, the
    cumulative mode changes nothing: by line and by file name, [statistics]
    returns the same with [cumulative] set or not, whatever the sample
    rate. *)
Theorem cumulative_same_at_depth_1 {F : Type} {FO : FloatOps F}
    (self : Snapshot.t) (key_type : string) :
  In key_type ["filename"; "lineno"] ->
  (forall t, In t (_Traces._traces (Snapshot.traces self)) ->
             List.length (snd t) = 1%nat) ->
  Snapshot.statistics self key_type true
  = Snapshot.statistics self key_type false.
Proof.
  intros Hk Hlen. unfold Snapshot.statistics.
  assert (Hv : valid_grouping key_type true = true
               /\ valid_grouping key_type false = true)
    by (simpl in Hk; destruct Hk as [<-|[<-|[]]]; split; reflexivity).
  destruct Hv as [Hv1 Hv2].
  rewrite (group_by_valid self key_type true Hv1).
  rewrite (group_by_valid self key_type false Hv2).
  now rewrite (group_adds_depth_1 key_type _ Hk Hlen).
Qed.

Lemma cumulative_same_at_depth_1_witness :
  Snapshot.statistics (FO := exact_arithmetic)
    (Snapshot.__init__ [(10, [main_frame]); (20, [alloc_frame])] 1 0)
    "filename" true
  = Snapshot.statistics (FO := exact_arithmetic)
      (Snapshot.__init__ [(10, [main_frame]); (20, [alloc_frame])] 1 0)
      "filename" false.
Proof.
  apply (cumulative_same_at_depth_1 (FO := exact_arithmetic)
           (Snapshot.__init__ [(10, [main_frame]); (20, [alloc_frame])] 1 0)
           "filename").
  - simpl. tauto.
  - simpl. intros t [<-|[<-|[]]]; reflexivity.
Defined.
